(** * The design rule checker of pcbnew (pcbnew/drc/drc.cpp)

    A shallow embedding of the parts of [DRC] that decide the checker's
    documented behaviour: the net-class conformance test, the orchestration
    in [RunTests], the pad-to-pad sweep, the zone-to-zone outline test, the
    footprint reconciliation and the marker-location bisection; then the
    track scan with its progress dialog, the rules file, the pad test of
    copper graphics and texts, the disabled-layer test, and the undo and
    redo commands of pcbnew/board_undo_redo.cpp.

    C++ [int] values are integers of [Z]; the few places where the code
    computes with them (the via annulus, the sweep limit, midpoints) go
    through [Int32], which writes out the 32-bit wrap-around.  Board items
    are referred to by identity ([item_ref], the pointer of the C++ code). *)

From Stdlib Require Import ZArith Lia List Bool Ascii String Sorted Permutation.
From Stdlib Require OrderedTypeEx.
From stdpp Require Import base strings list gmap fin_maps.

Local Open Scope Z_scope.

(** ** 32-bit signed arithmetic *)

Module Int32.

Definition min_int : Z := - 2 ^ 31.
Definition max_int : Z := 2 ^ 31 - 1.

Definition in_range (z : Z) : Prop := min_int <= z <= max_int.

Definition wrap (z : Z) : Z := (z + 2 ^ 31) mod 2 ^ 32 - 2 ^ 31.

Definition add (a b : Z) : Z := wrap (a + b).
Definition sub (a b : Z) : Z := wrap (a - b).

(** C++ integer division truncates toward zero. *)
Definition div (a b : Z) : Z := wrap (Z.quot a b).

End Int32.

(** ** Violations *)

(** The error codes of drc.h that drc.cpp raises or consults. *)
Inductive DRC_CODE : Type :=
  | DRCE_UNCONNECTED_ITEMS
  | DRCE_ZONES_INTERSECT
  | DRCE_ZONES_TOO_CLOSE
  | DRCE_ZONE_HAS_EMPTY_NET
  | DRCE_DANGLING_VIA
  | DRCE_DANGLING_TRACK
  | DRCE_HOLE_NEAR_PAD
  | DRCE_PAD_NEAR_PAD
  | DRCE_OVERLAPPING_FOOTPRINTS
  | DRCE_MISSING_COURTYARD
  | DRCE_MALFORMED_COURTYARD
  | DRCE_PTH_IN_COURTYARD
  | DRCE_NPTH_IN_COURTYARD
  | DRCE_DISABLED_LAYER_ITEM
  | DRCE_UNRESOLVED_VARIABLE
  | DRCE_NETCLASS_CLEARANCE
  | DRCE_NETCLASS_TRACKWIDTH
  | DRCE_NETCLASS_VIASIZE
  | DRCE_NETCLASS_VIADRILLSIZE
  | DRCE_NETCLASS_VIAANNULUS
  | DRCE_NETCLASS_uVIASIZE
  | DRCE_NETCLASS_uVIADRILLSIZE
  | DRCE_DUPLICATE_FOOTPRINT
  | DRCE_MISSING_FOOTPRINT
  | DRCE_EXTRA_FOOTPRINT.

#[global] Instance DRC_CODE_eq_dec : EqDecision DRC_CODE.
Proof. solve_decision. Defined.

(** A board item is known to the checker by its identity only. *)
Definition item_ref : Type := nat.

Record wxPoint : Type := mkPoint { px : Z; py : Z }.

#[global] Instance wxPoint_eq_dec : EqDecision wxPoint.
Proof. solve_decision. Defined.

(** The text a violation carries.  [msg.Printf] fills a fixed format with
    values; the embedding keeps the values, not the rendered string. *)
Inductive DRC_MESSAGE : Type :=
  | MsgDefault
      (* no SetErrorMessage: the item shows the text of its code *)
  | MsgNetclass (boardMinimum : Z) (ncName : string) (ncValue : Z)
      (* " (board minimum %s; %s netclass %s)" *)
  | MsgClearance (source : string) (required : Z) (actual : Z)
      (* " (%s %s; actual %s)" *)
  | MsgMissingFootprint (reference : string) (value : string).
      (* "Missing footprint %s (%s)" *)

#[global] Instance DRC_MESSAGE_eq_dec : EqDecision DRC_MESSAGE.
Proof. solve_decision. Defined.

Record DRC_ITEM : Type := mkItem {
  GetErrorCode : DRC_CODE;
  GetErrorMessage : DRC_MESSAGE;
  GetItems : list item_ref
}.

#[global] Instance DRC_ITEM_eq_dec : EqDecision DRC_ITEM.
Proof. solve_decision. Defined.

Record MARKER_PCB : Type := mkMarker {
  GetRCItem : DRC_ITEM;
  GetPos : wxPoint
}.

#[global] Instance MARKER_PCB_eq_dec : EqDecision MARKER_PCB.
Proof. solve_decision. Defined.

(** ** Board design settings and net classes *)

Record NETCLASS : Type := mkNetclass {
  GetName : string;
  GetClearance : Z;
  GetTrackWidth : Z;
  GetViaDiameter : Z;
  GetViaDrill : Z;
  GetuViaDiameter : Z;
  GetuViaDrill : Z
}.

Record BOARD_DESIGN_SETTINGS : Type := mkSettings {
  m_MinClearance : Z;
  m_TrackMinWidth : Z;
  m_ViasMinSize : Z;
  m_MinThroughDrill : Z;
  m_ViasMinAnnulus : Z;
  m_MicroViasMinSize : Z;
  m_MicroViasMinDrill : Z;
  (* severity "ignore" per error code *)
  Ignore : DRC_CODE -> bool
}.

(** [DRC::addMarkerToPcb]: a marker whose code the settings ignore is
    deleted; any other is committed to the board, after those already
    there. *)
Definition addMarkerToPcb (g : BOARD_DESIGN_SETTINGS) (aMarker : MARKER_PCB)
    (markers : list MARKER_PCB) : list MARKER_PCB :=
  if Ignore g (GetErrorCode (GetRCItem aMarker)) then markers
  else markers ++ [aMarker].

(** The checkers reach the board through [addMarkerToPcb] only.  Each one is
    embedded as the sequence of markers it hands to [addMarkerToPcb], in
    order; [commitMarkers] replays that sequence on the board's markers. *)
Definition commitMarkers (g : BOARD_DESIGN_SETTINGS) (emitted : list MARKER_PCB)
    (markers : list MARKER_PCB) : list MARKER_PCB :=
  fold_left (fun acc m => addMarkerToPcb g m acc) emitted markers.

(** ** Net-class conformance: [DRC::doNetClass], [DRC::testNetClasses] *)

Definition netclassMarker (code : DRC_CODE) (boardMin : Z) (nc : NETCLASS)
    (value : Z) : MARKER_PCB :=
  mkMarker (mkItem code (MsgNetclass boardMin (GetName nc) value) [])
           (mkPoint 0 0).

(** [int ncViaAnnulus = ( nc->GetViaDiameter() - nc->GetViaDrill() ) / 2;] *)
Definition ncViaAnnulus (nc : NETCLASS) : Z :=
  Int32.div (Int32.sub (GetViaDiameter nc) (GetViaDrill nc)) 2.

(** One [if( value < floor ) { ...; addMarkerToPcb( ... ); ret = false; }]:
    the state is [ret] and the markers handed over so far. *)
Definition checkField (nc : NETCLASS) (code : DRC_CODE) (floor value : Z)
    (st : bool * list MARKER_PCB) : bool * list MARKER_PCB :=
  if value <? floor
  then (false, snd st ++ [netclassMarker code floor nc value])
  else st.

Definition doNetClass (g : BOARD_DESIGN_SETTINGS) (nc : NETCLASS)
    : bool * list MARKER_PCB :=
  let st := (true, []) in
  let st := checkField nc DRCE_NETCLASS_CLEARANCE (m_MinClearance g) (GetClearance nc) st in
  let st := checkField nc DRCE_NETCLASS_TRACKWIDTH (m_TrackMinWidth g) (GetTrackWidth nc) st in
  let st := checkField nc DRCE_NETCLASS_VIASIZE (m_ViasMinSize g) (GetViaDiameter nc) st in
  let st := checkField nc DRCE_NETCLASS_VIADRILLSIZE (m_MinThroughDrill g) (GetViaDrill nc) st in
  let st := checkField nc DRCE_NETCLASS_VIAANNULUS (m_ViasMinAnnulus g) (ncViaAnnulus nc) st in
  let st := checkField nc DRCE_NETCLASS_uVIASIZE (m_MicroViasMinSize g) (GetuViaDiameter nc) st in
  let st := checkField nc DRCE_NETCLASS_uVIADRILLSIZE (m_MicroViasMinDrill g) (GetuViaDrill nc) st in
  st.

(** [NETCLASSES]: the Default class, and the user classes in the order of
    the map's iterator. *)
Record NETCLASSES : Type := mkNetclasses {
  GetDefault : NETCLASS;
  userClasses : list NETCLASS
}.

(** The [for] loop of [testNetClasses] over the user classes. *)
Fixpoint testNetClasses_loop (g : BOARD_DESIGN_SETTINGS) (ncs : list NETCLASS)
    (st : bool * list MARKER_PCB) : bool * list MARKER_PCB :=
  match ncs with
  | [] => st
  | nc :: rest =>
      let r := doNetClass g nc in
      testNetClasses_loop g rest
        (if fst r then fst st else false, snd st ++ snd r)
  end.

Definition testNetClasses (g : BOARD_DESIGN_SETTINGS) (netclasses : NETCLASSES)
    : bool * list MARKER_PCB :=
  let r := doNetClass g (GetDefault netclasses) in
  testNetClasses_loop g (userClasses netclasses)
    (if fst r then true else false, snd r).

(** ** Pad-to-pad clearances: [DRC::doPadToPadsDrc], [DRC::testPad2Pad] *)

Module Pads.

Inductive PAD_DRILL_SHAPE_T : Type :=
  | PAD_DRILL_SHAPE_CIRCLE
  | PAD_DRILL_SHAPE_OBLONG.

Inductive PAD_SHAPE_T : Type :=
  | PAD_SHAPE_CIRCLE
  | PAD_SHAPE_RECT
  | PAD_SHAPE_OVAL
  | PAD_SHAPE_TRAPEZOID
  | PAD_SHAPE_ROUNDRECT
  | PAD_SHAPE_CHAMFERED_RECT
  | PAD_SHAPE_CUSTOM.

#[global] Instance PAD_DRILL_SHAPE_T_eq_dec : EqDecision PAD_DRILL_SHAPE_T.
Proof. solve_decision. Defined.

#[global] Instance PAD_SHAPE_T_eq_dec : EqDecision PAD_SHAPE_T.
Proof. solve_decision. Defined.

Record wxSize : Type := mkSize { sx : Z; sy : Z }.

#[global] Instance wxSize_eq_dec : EqDecision wxSize.
Proof. solve_decision. Defined.

(** What [doPadToPadsDrc] reads of a [D_PAD].  [padRef] is the pad's
    identity (its address); the layer set is a bit mask; the clearance and
    its source are what [GetClearance( nullptr, &source )] resolves to; the
    bounding radius is what [GetBoundingRadius()] returns. *)
Record D_PAD : Type := mkPad {
  padRef : item_ref;
  GetParent : item_ref;
  GetPadName : string;
  GetPosition : wxPoint;
  GetLayerSet : Z;
  GetNetCode : Z;
  GetShape : PAD_SHAPE_T;
  GetSize : wxSize;
  GetDrillSize : wxSize;
  GetDrillShape : PAD_DRILL_SHAPE_T;
  GetOrientation : Z;
  GetClearance : Z;
  GetClearanceSource : string;
  GetBoundingRadius : Z
}.

Section PadToPad.

(** [LSET::AllCuMask()]. *)
Variable all_cu : Z.

(** The pad [D_PAD dummypad( &dummymodule )] as constructed, before the
    checker sets its layer set, position, size, shape and orientation. *)
Variable newDummyPad : D_PAD.

(** [GetBoundingRadius()] of a pad of the given shape and size: the dummy
    pad takes the size and shape of a hole, and its radius follows. *)
Variable boundingRadiusOf : PAD_SHAPE_T -> wxSize -> Z.

(** [checkClearancePadToPad( aRefPad, aPad, aMinClearance, &actual )]
    (drc_clearance_test_functions.cpp): whether the clearance is respected,
    and the value left in [actual]. *)
Variable checkClearancePadToPad : D_PAD -> D_PAD -> Z -> bool * Z.

(** [dummypad] after [SetLayerSet( all_cu | dummypad.GetLayerSet() )] and
    the four setters that shape it like the drill hole of [p]. *)
Definition holeAsPad (p : D_PAD) : D_PAD :=
  let shape := match GetDrillShape p with
               | PAD_DRILL_SHAPE_OBLONG => PAD_SHAPE_OVAL
               | PAD_DRILL_SHAPE_CIRCLE => PAD_SHAPE_CIRCLE
               end in
  {| padRef := padRef newDummyPad;
     GetParent := GetParent newDummyPad;
     GetPadName := GetPadName newDummyPad;
     GetPosition := GetPosition p;
     GetLayerSet := Z.lor all_cu (GetLayerSet newDummyPad);
     GetNetCode := GetNetCode newDummyPad;
     GetShape := shape;
     GetSize := GetDrillSize p;
     GetDrillSize := GetDrillSize newDummyPad;
     GetDrillShape := GetDrillShape newDummyPad;
     GetOrientation := GetOrientation p;
     GetClearance := GetClearance newDummyPad;
     GetClearanceSource := GetClearanceSource newDummyPad;
     GetBoundingRadius := boundingRadiusOf shape (GetDrillSize p) |}.

Definition clearanceMarker (code : DRC_CODE) (source : string)
    (minClearance actual : Z) (a b : D_PAD) (pos : wxPoint) : MARKER_PCB :=
  mkMarker (mkItem code (MsgClearance source minClearance actual)
                   [padRef a; padRef b]) pos.

(** What one turn of the [for] loop decides for the candidate [pad]. *)
Inductive SCAN_STEP : Type :=
  | Continue                      (* [continue], or the end of the body *)
  | Break                         (* [break] *)
  | ReturnFalse (m : MARKER_PCB). (* [addMarkerToPcb( marker ); return false;] *)

(** The branch for pads on disjoint copper layers: the hole of each pad is
    tested against the other pad. *)
Definition holeTests (aRefPad pad : D_PAD) : SCAN_STEP :=
  if bool_decide (GetPosition pad = GetPosition aRefPad)
     && bool_decide (GetDrillSize pad = GetDrillSize aRefPad)
     && bool_decide (GetDrillShape pad = GetDrillShape aRefPad)
     && (bool_decide (GetDrillShape aRefPad = PAD_DRILL_SHAPE_CIRCLE)
         || (GetOrientation pad =? GetOrientation aRefPad))
  then Continue
  else
    let first :=
      if negb (sx (GetDrillSize pad) =? 0) then
        let minClearance := GetClearance aRefPad in
        let r := checkClearancePadToPad aRefPad (holeAsPad pad) minClearance in
        if negb (fst r)
        then Some (clearanceMarker DRCE_HOLE_NEAR_PAD (GetClearanceSource aRefPad)
                     minClearance (snd r) pad aRefPad (GetPosition pad))
        else None
      else None in
    match first with
    | Some m => ReturnFalse m
    | None =>
        if negb (sx (GetDrillSize aRefPad) =? 0) then
          let minClearance := GetClearance pad in
          let r := checkClearancePadToPad pad (holeAsPad aRefPad) minClearance in
          if negb (fst r)
          then ReturnFalse
                 (clearanceMarker DRCE_HOLE_NEAR_PAD (GetClearanceSource pad)
                    minClearance (snd r) aRefPad pad (GetPosition aRefPad))
          else Continue
        else Continue
    end.

(** The test that opens the hole branch: both pads have copper layers, and
    none in common. *)
Definition onDisjointCopper (aRefPad pad : D_PAD) : bool :=
  let layerMask := Z.land (GetLayerSet aRefPad) all_cu in
  (Z.land (GetLayerSet pad) layerMask =? 0)
  && negb (Z.land (GetLayerSet pad) all_cu =? 0)
  && negb (Z.land (GetLayerSet aRefPad) all_cu =? 0).

(** The body of the [for] loop of [doPadToPadsDrc] after its two opening
    tests: what is decided for a candidate that is examined. *)
Definition candidateTests (aRefPad pad : D_PAD) : SCAN_STEP :=
  let layerMask := Z.land (GetLayerSet aRefPad) all_cu in
  if onDisjointCopper aRefPad pad
  then holeTests aRefPad pad
  else if negb (GetNetCode pad =? 0) && (GetNetCode aRefPad =? GetNetCode pad)
  then Continue
  else if bool_decide (GetParent pad = GetParent aRefPad)
          && bool_decide (GetPadName pad = GetPadName aRefPad)
  then Continue
  else if ((Z.land (GetLayerSet pad) layerMask =? 0) && (sx (GetDrillSize pad) =? 0))
          || ((Z.land (GetLayerSet aRefPad) layerMask =? 0)
              && (sx (GetDrillSize aRefPad) =? 0))
  then Continue
  else
    let minClearance := GetClearance aRefPad in
    let r := checkClearancePadToPad aRefPad pad minClearance in
    if negb (fst r)
    then ReturnFalse
           (clearanceMarker DRCE_PAD_NEAR_PAD (GetClearanceSource aRefPad)
              minClearance (snd r) aRefPad pad (GetPosition aRefPad))
    else Continue.

(** The body of the [for] loop of [doPadToPadsDrc]. *)
Definition scanStep (aRefPad : D_PAD) (x_limit : Z) (pad : D_PAD) : SCAN_STEP :=
  if bool_decide (padRef pad = padRef aRefPad) then Continue
  else if px (GetPosition pad) >? x_limit then Break
  else candidateTests aRefPad pad.

(** [doPadToPadsDrc( aRefPad, aStart, aEnd, x_limit )] over the candidates
    [aStart .. aEnd): the value returned and the markers handed to
    [addMarkerToPcb]. *)
Fixpoint doPadToPadsDrc (aRefPad : D_PAD) (pad_list : list D_PAD) (x_limit : Z)
    : bool * list MARKER_PCB :=
  match pad_list with
  | [] => (true, [])
  | pad :: rest =>
      match scanStep aRefPad x_limit pad with
      | Continue => doPadToPadsDrc aRefPad rest x_limit
      | Break => (true, [])
      | ReturnFalse m => (false, [m])
      end
  end.

(** [max_size]: the largest bounding radius, from 0. *)
Definition maxBoundingRadius (sortedPads : list D_PAD) : Z :=
  fold_left (fun max_size pad =>
               if GetBoundingRadius pad >? max_size
               then GetBoundingRadius pad else max_size)
            sortedPads 0.

(** [int x_limit = pad->GetClearance() + pad->GetBoundingRadius()
                   + pad->GetPosition().x;] and the [max_size + x_limit]
    passed on. *)
Definition xLimit (max_size : Z) (pad : D_PAD) : Z :=
  Int32.add max_size
    (Int32.add (Int32.add (GetClearance pad) (GetBoundingRadius pad))
               (px (GetPosition pad))).

(** The loop of [testPad2Pad]: each pad is the reference of one scan that
    starts at the pad's own place in the sorted list. *)
Fixpoint testPad2Pad_loop (max_size : Z) (pads : list D_PAD) : list MARKER_PCB :=
  match pads with
  | [] => []
  | pad :: rest =>
      snd (doPadToPadsDrc pad (pad :: rest) (xLimit max_size pad))
        ++ testPad2Pad_loop max_size rest
  end.

(** [testPad2Pad], given the list [GetSortedPadListByXthenYCoord] fills. *)
Definition testPad2Pad (sortedPads : list D_PAD) : list MARKER_PCB :=
  testPad2Pad_loop (maxBoundingRadius sortedPads) sortedPads.

(** The same scan without the [break] on [x_limit]: every candidate is
    examined.  It is the yardstick for what the early exit may skip. *)
Fixpoint fullScan (aRefPad : D_PAD) (pad_list : list D_PAD)
    : bool * list MARKER_PCB :=
  match pad_list with
  | [] => (true, [])
  | pad :: rest =>
      if bool_decide (padRef pad = padRef aRefPad) then fullScan aRefPad rest
      else match candidateTests aRefPad pad with
           | Continue | Break => fullScan aRefPad rest
           | ReturnFalse m => (false, [m])
           end
  end.

End PadToPad.

(** The order [GetSortedPadListByXthenYCoord] leaves the pads in, as far as
    the scan relies on it: no pad lies left of a pad before it. *)
Definition sortedByX (pads : list D_PAD) : Prop :=
  StronglySorted (fun p q => px (GetPosition p) <= px (GetPosition q)) pads.

(** The squared distance between the centres of two pads. *)
Definition centreDistance2 (a b : D_PAD) : Z :=
  (px (GetPosition b) - px (GetPosition a)) * (px (GetPosition b) - px (GetPosition a))
  + (py (GetPosition b) - py (GetPosition a)) * (py (GetPosition b) - py (GetPosition a)).

End Pads.

(** ** Zone-to-zone outlines: [DRC::TestZoneToZoneOutlines] *)

Module Zones.

Record SEG : Type := mkSeg { A : wxPoint; B : wxPoint }.

(** A smoothed outline, as the two iterators of [SHAPE_POLY_SET] show it:
    the vertices of [IterateWithHoles] and the segments of
    [IterateSegmentsWithHoles], each in iteration order. *)
Record SHAPE_POLY_SET : Type := mkPoly {
  IterateWithHoles : list wxPoint;
  IterateSegmentsWithHoles : list SEG
}.

(** What the test reads of a [ZONE_CONTAINER]; [zoneId] is its identity. *)
Record ZONE_CONTAINER : Type := mkZone {
  zoneId : item_ref;
  IsOnCopperLayer : bool;
  GetLayer : Z;
  GetNetCode : Z;
  GetPriority : Z;
  GetIsKeepout : bool
}.

(** The five [continue] tests on a candidate pair, in the order of the
    source: [true] when the pair is not examined. *)
Definition pairSkipped (zoneRef zoneToTest : ZONE_CONTAINER) : bool :=
  if bool_decide (zoneId zoneRef = zoneId zoneToTest) then true
  else if negb (GetLayer zoneRef =? GetLayer zoneToTest) then true
  else if (GetNetCode zoneRef =? GetNetCode zoneToTest) && (GetNetCode zoneRef >=? 0)
  then true
  else if negb (GetPriority zoneRef =? GetPriority zoneToTest) then true
  else if negb (eqb (GetIsKeepout zoneRef) (GetIsKeepout zoneToTest)) then true
  else false.

Section ZoneToZone.

(** [zoneRef->GetClearance( zoneToTest, &clearanceSource )]: the value and
    the source text. *)
Variable GetClearance : ZONE_CONTAINER -> ZONE_CONTAINER -> Z * string.

(** [SHAPE_POLY_SET::Contains]. *)
Variable Contains : SHAPE_POLY_SET -> wxPoint -> bool.

(** [GetClearanceBetweenSegments( bx1, by1, bx2, by2, 0, ax1, ay1, ax2, ay2,
    0, max_cl, &pt.x, &pt.y )] (math_for_graphics.cpp), called with the test
    segment first and the reference segment second: the distance returned
    and the point left in [pt]. *)
Variable GetClearanceBetweenSegments : SEG -> SEG -> Z -> Z * wxPoint.

(** The clearance of a surviving pair: keepout areas have none, and get 1. *)
Definition zone2zoneClearance (zoneRef zoneToTest : ZONE_CONTAINER) : Z :=
  if GetIsKeepout zoneRef then 1 else fst (GetClearance zoneRef zoneToTest).

(** Corners of [poly] inside [other]: one [DRCE_ZONES_INTERSECT] each. *)
Definition cornersInside (poly other : SHAPE_POLY_SET) (a b : ZONE_CONTAINER)
    : list MARKER_PCB :=
  map (fun currentVertex =>
         mkMarker (mkItem DRCE_ZONES_INTERSECT MsgDefault [zoneId a; zoneId b])
                  currentVertex)
      (filter (fun currentVertex => Contains other currentVertex = true)
              (IterateWithHoles poly)).

(** The body of the inner segment loop: [std::map<wxPoint, int>] is a
    finite map keyed by the point's coordinates. *)
Definition recordConflict (clearance : Z) (refSegment testSegment : SEG)
    (conflictPoints : gmap (Z * Z) Z) : gmap (Z * Z) Z :=
  let r := GetClearanceBetweenSegments testSegment refSegment clearance in
  let d := fst r in
  let pt := (px (snd r), py (snd r)) in
  if d <? clearance then
    match conflictPoints !! pt with
    | Some old => <[pt := Z.min old d]> conflictPoints
    | None => <[pt := d]> conflictPoints
    end
  else conflictPoints.

(** The two nested loops over the segments of both outlines. *)
Definition collectConflicts (clearance : Z) (refPoly testPoly : SHAPE_POLY_SET)
    : gmap (Z * Z) Z :=
  fold_left
    (fun acc refSegment =>
       fold_left (fun acc testSegment =>
                    recordConflict clearance refSegment testSegment acc)
                 (IterateSegmentsWithHoles testPoly) acc)
    (IterateSegmentsWithHoles refPoly) ∅.

(** The marker made for one entry of [conflictPoints]. *)
Definition conflictMarker (clearanceSource : string) (clearance : Z)
    (zoneRef zoneToTest : ZONE_CONTAINER) (conflict : Z * Z * Z) : MARKER_PCB :=
  let '(x, y, actual) := conflict in
  let drcItem :=
    if actual <=? 0
    then mkItem DRCE_ZONES_INTERSECT MsgDefault
                [zoneId zoneRef; zoneId zoneToTest]
    else mkItem DRCE_ZONES_TOO_CLOSE
                (MsgClearance clearanceSource clearance actual)
                [zoneId zoneRef; zoneId zoneToTest] in
  mkMarker drcItem (mkPoint x y).

(** The markers of the segment test of one pair, one per conflict point.
    The loop walks the [std::map] in the order of its keys; the list here
    holds the same entries in the order of the finite map's list, and
    nothing below depends on the order within one pair. *)
Definition conflictMarkers (refPoly testPoly : SHAPE_POLY_SET)
    (zoneRef zoneToTest : ZONE_CONTAINER) : list MARKER_PCB :=
  let clearance := zone2zoneClearance zoneRef zoneToTest in
  map (conflictMarker (snd (GetClearance zoneRef zoneToTest)) clearance
                      zoneRef zoneToTest)
      (map_to_list (collectConflicts clearance refPoly testPoly)).

(** Everything done for a pair that survives the five tests. *)
Definition examinePair (refPoly testPoly : SHAPE_POLY_SET)
    (zoneRef zoneToTest : ZONE_CONTAINER) : list MARKER_PCB :=
  cornersInside refPoly testPoly zoneRef zoneToTest
    ++ cornersInside testPoly refPoly zoneToTest zoneRef
    ++ conflictMarkers refPoly testPoly zoneRef zoneToTest.

(** The inner loop [for( ia2 = ia + 1; ... )] over the areas after [ia];
    every area comes with its smoothed outline. *)
Fixpoint innerLoop (zoneRef : ZONE_CONTAINER * SHAPE_POLY_SET)
    (others : list (ZONE_CONTAINER * SHAPE_POLY_SET)) : list MARKER_PCB :=
  match others with
  | [] => []
  | zoneToTest :: rest =>
      (if pairSkipped (fst zoneRef) (fst zoneToTest) then []
       else examinePair (snd zoneRef) (snd zoneToTest)
                        (fst zoneRef) (fst zoneToTest))
        ++ innerLoop zoneRef rest
  end.

(** The outer loop over all areas. *)
Fixpoint outerLoop (areas : list (ZONE_CONTAINER * SHAPE_POLY_SET))
    : list MARKER_PCB :=
  match areas with
  | [] => []
  | zoneRef :: rest =>
      (if negb (IsOnCopperLayer (fst zoneRef)) then []
       else innerLoop zoneRef rest)
        ++ outerLoop rest
  end.

(** [TestZoneToZoneOutlines]: the markers handed to [addMarkerToPcb] and
    the count returned ([nerrors] is incremented with every marker). *)
Definition TestZoneToZoneOutlines
    (areas : list (ZONE_CONTAINER * SHAPE_POLY_SET)) : list MARKER_PCB * Z :=
  let markers := outerLoop areas in
  (markers, Z.of_nat (length markers)).

(** The pairs of segments the two nested loops visit, in order, and what
    the segment test observes on each: the separation and the witness
    point. *)
Definition segmentPairs (refPoly testPoly : SHAPE_POLY_SET) : list (SEG * SEG) :=
  flat_map (fun refSegment =>
              map (fun testSegment => (refSegment, testSegment))
                  (IterateSegmentsWithHoles testPoly))
           (IterateSegmentsWithHoles refPoly).

Definition observation (clearance : Z) (segs : SEG * SEG) : Z * (Z * Z) :=
  let r := GetClearanceBetweenSegments (snd segs) (fst segs) clearance in
  (fst r, (px (snd r), py (snd r))).

Definition observations (clearance : Z) (refPoly testPoly : SHAPE_POLY_SET)
    : list (Z * (Z * Z)) :=
  map (observation clearance) (segmentPairs refPoly testPoly).

(** The pairs of areas the two loops over the areas visit: each area with
    every area after it. *)
Fixpoint zonePairs (areas : list (ZONE_CONTAINER * SHAPE_POLY_SET))
    : list ((ZONE_CONTAINER * SHAPE_POLY_SET) * (ZONE_CONTAINER * SHAPE_POLY_SET)) :=
  match areas with
  | [] => []
  | zoneRef :: rest =>
      map (fun zoneToTest => (zoneRef, zoneToTest)) rest ++ zonePairs rest
  end.

End ZoneToZone.

End Zones.

(** ** Footprints against the netlist: [DRC::TestFootprints] *)

Module Footprints.

(** What the test reads of a board [MODULE] and of a netlist [COMPONENT]. *)
Record MODULE : Type := mkModule {
  moduleId : item_ref;
  GetReference : string
}.

Record COMPONENT : Type := mkComponent {
  compReference : string;
  GetValue : string
}.

Definition toLower (c : ascii) : ascii :=
  let n := nat_of_ascii c in
  if (Nat.leb 65 n && Nat.leb n 90)%bool then ascii_of_nat (n + 32) else c.

Fixpoint lowerCase (s : string) : string :=
  match s with
  | EmptyString => EmptyString
  | String c rest => String (toLower c) (lowerCase rest)
  end.

(** [wxString::CmpNoCase]: the comparison of the two strings with letter
    case folded. *)
Definition CmpNoCase (x y : string) : comparison :=
  String.compare (lowerCase x) (lowerCase y).

(** The comparator of the set: [x->GetReference().CmpNoCase(
    y->GetReference() ) < 0]. *)
Definition comp (x y : MODULE) : bool :=
  match CmpNoCase (GetReference x) (GetReference y) with
  | Lt => true
  | _ => false
  end.

(** [mods.insert( mod )] on a [std::set] ordered by [comp], kept as the
    list of its elements in that order.  The result is the set after the
    call and [ins]: the element at [ins.first] and the flag [ins.second]
    (false when an equivalent element was there, and is kept). *)
Fixpoint set_insert (mod_ : MODULE) (mods : list MODULE)
    : list MODULE * (MODULE * bool) :=
  match mods with
  | [] => ([mod_], (mod_, true))
  | m :: rest =>
      if comp mod_ m then (mod_ :: mods, (mod_, true))
      else if comp m mod_ then
        let r := set_insert mod_ rest in (m :: fst r, snd r)
      else (mods, (m, false))
  end.

(** Modelled from the spec: [BOARD::FindModuleByReference] and
    [NETLIST::GetComponentByReference] belong to the board and netlist
    collaborators and are known here by their interface only: the first
    footprint, or component, whose reference is the one asked for. *)
Definition FindModuleByReference (modules : list MODULE) (aReference : string)
    : option MODULE :=
  find (fun m => bool_decide (GetReference m = aReference)) modules.

Definition GetComponentByReference (aNetlist : list COMPONENT)
    (aReference : string) : option COMPONENT :=
  find (fun c => bool_decide (compReference c = aReference)) aNetlist.

(** The loop that fills [mods] and flags duplicates: the set and the items
    pushed on [aDRCList]. *)
Fixpoint duplicateLoop (modules : list MODULE) (mods : list MODULE)
    : list MODULE * list DRC_ITEM :=
  match modules with
  | [] => (mods, [])
  | mod_ :: rest =>
      let ins := set_insert mod_ mods in
      let r := duplicateLoop rest (fst ins) in
      if snd (snd ins) then r
      else (fst r,
            mkItem DRCE_DUPLICATE_FOOTPRINT MsgDefault
                   [moduleId mod_; moduleId (fst (snd ins))] :: snd r)
  end.

Definition missingLoop (modules : list MODULE) (aNetlist : list COMPONENT)
    : list DRC_ITEM :=
  flat_map (fun component =>
              match FindModuleByReference modules (compReference component) with
              | None => [mkItem DRCE_MISSING_FOOTPRINT
                                (MsgMissingFootprint (compReference component)
                                                     (GetValue component)) []]
              | Some _ => []
              end)
           aNetlist.

Definition extraLoop (mods : list MODULE) (aNetlist : list COMPONENT)
    : list DRC_ITEM :=
  flat_map (fun module =>
              match GetComponentByReference aNetlist (GetReference module) with
              | None => [mkItem DRCE_EXTRA_FOOTPRINT MsgDefault [moduleId module]]
              | Some _ => []
              end)
           mods.

(** [TestFootprints( aNetlist, aPCB, aUnits, aDRCList )]: the items pushed
    on [aDRCList], in order. *)
Definition TestFootprints (g : BOARD_DESIGN_SETTINGS) (aNetlist : list COMPONENT)
    (modules : list MODULE) : list DRC_ITEM :=
  let mods : list MODULE := [] in
  let dup := if negb (Ignore g DRCE_DUPLICATE_FOOTPRINT)
             then duplicateLoop modules mods else (mods, []) in
  let mods := fst dup in
  let missing := if negb (Ignore g DRCE_MISSING_FOOTPRINT)
                 then missingLoop modules aNetlist else [] in
  let extra := if negb (Ignore g DRCE_EXTRA_FOOTPRINT)
               then extraLoop mods aNetlist else [] in
  snd dup ++ missing ++ extra.

End Footprints.

(** ** Marker location: [DRC::getLocation] *)

Module Location.

(** Modelled from the spec: [Mils2iu] comes from the unit conversion header;
    the epsilon is 5 mils in internal units, and pcbnew's internal unit is
    the nanometre (25400 to the mil). *)
Definition IU_PER_MILS : Z := 25400.
Definition Mils2iu (mils : Z) : Z := mils * IU_PER_MILS.

Definition EPSILON : Z := Mils2iu 5.

Record TRACK : Type := mkTrack {
  GetPosition : wxPoint;
  GetEnd : wxPoint
}.

(** [( pt1 + pt2 ) / 2] on [wxPoint]: coordinate-wise [int] sum and
    division. *)
Definition midPoint (pt1 pt2 : wxPoint) : wxPoint :=
  mkPoint (Int32.div (Int32.add (px pt1) (px pt2)) 2)
          (Int32.div (Int32.add (py pt1) (py pt2)) 2).

(** [GetLineLength( pt1, pt2 ) > EPSILON].  [GetLineLength] (trigo.h) is
    the hypotenuse of the two [int] coordinate differences; against an
    integer bound the comparison is that of the squares. *)
Definition longerThanEpsilon (pt1 pt2 : wxPoint) : bool :=
  let dx := Int32.sub (px pt1) (px pt2) in
  let dy := Int32.sub (py pt1) (py pt2) in
  dx * dx + dy * dy >? EPSILON * EPSILON.

Section Bisection.

(** The squared distance of a point to the conflicting shape:
    [aConflictSeg.SquaredDistance( pt )], or that of the zone's outline. *)
Variable SquaredDistance : wxPoint -> Z.

(** The [while] loop, with the number of turns it may still take.  The
    result is the two points at exit and the number of turns taken. *)
Fixpoint bisect (fuel : nat) (pt1 pt2 : wxPoint) : option (wxPoint * wxPoint * nat) :=
  if longerThanEpsilon pt1 pt2 then
    match fuel with
    | O => None
    | S fuel' =>
        let next :=
          if SquaredDistance pt1 <? SquaredDistance pt2
          then bisect fuel' pt1 (midPoint pt1 pt2)
          else bisect fuel' (midPoint pt1 pt2) pt2 in
        match next with
        | Some (q1, q2, n) => Some (q1, q2, S n)
        | None => None
        end
    end
  else Some (pt1, pt2, O).

(** [getLocation( aTrack, aConflictSeg )]. *)
Definition getLocation (fuel : nat) (aTrack : TRACK) : option wxPoint :=
  match bisect fuel (GetPosition aTrack) (GetEnd aTrack) with
  | Some (pt1, _, _) => Some pt1
  | None => None
  end.

(** [getLocation( aTrack, aConflictZone )]: the mid-point when it lies in
    the zone, the bisection otherwise. *)
Definition getLocation_zone (fuel : nat) (aTrack : TRACK) : option wxPoint :=
  let pt1 := GetPosition aTrack in
  let pt2 := GetEnd aTrack in
  if SquaredDistance (midPoint pt1 pt2) =? 0 then Some (midPoint pt1 pt2)
  else getLocation fuel aTrack.

End Bisection.

(** The number of turns a run of the loop took. *)
Definition iterations (r : option (wxPoint * wxPoint * nat)) : option nat :=
  match r with
  | Some (_, _, n) => Some n
  | None => None
  end.

(** The point [p] is within [eps] of the segment from [a] to [b]: its foot
    on the line lies between [a] and [b], and its distance to the line is at
    most [eps] (both stated on integers, without a square root). *)
Definition withinOfTrack (eps : Z) (a b p : wxPoint) : Prop :=
  let dx := px b - px a in
  let dy := py b - py a in
  let dot := (px p - px a) * dx + (py p - py a) * dy in
  let cross := dx * (py p - py a) - dy * (px p - px a) in
  0 <= dot <= dx * dx + dy * dy /\
  cross * cross <= eps * eps * (dx * dx + dy * dy).

(** Points whose coordinates leave room for the sum of two of them in an
    [int]. *)
Definition onBoard (p : wxPoint) : Prop :=
  - 2 ^ 30 <= px p < 2 ^ 30 /\ - 2 ^ 30 <= py p < 2 ^ 30.

Definition between (u v w : Z) : Prop := Z.min u v <= w <= Z.max u v.

(** Twice the signed area of the triangle [a], [b], [p]: zero on the line
    through [a] and [b]. *)
Definition cross (a b p : wxPoint) : Z :=
  (px b - px a) * (py p - py a) - (py b - py a) * (px p - px a).

(** What holds of the two points of the loop after [j] turns on the track
    from [a] to [b]: they lie in the box spanned by [a] and [b], their
    coordinate differences have been halved [j] times (up to rounding), and
    each is off the line by at most [j] roundings. *)
Definition bisectInvariant (a b : wxPoint) (j : nat) (pt1 pt2 : wxPoint) : Prop :=
  let n := 2 ^ Z.of_nat j in
  let s := Z.abs (px b - px a) + Z.abs (py b - py a) in
  (between (px a) (px b) (px pt1) /\ between (py a) (py b) (py pt1))
  /\ (between (px a) (px b) (px pt2) /\ between (py a) (py b) (py pt2))
  /\ (n * Z.abs (px pt2 - px pt1) <= Z.abs (px b - px a) + n - 1
      /\ n * Z.abs (py pt2 - py pt1) <= Z.abs (py b - py a) + n - 1)
  /\ (2 * Z.abs (cross a b pt1) <= Z.of_nat j * s
      /\ 2 * Z.abs (cross a b pt2) <= Z.of_nat j * s).

End Location.

(** ** The orchestrator: [DRC::RunTests] *)

(** The flags of the constructor that [RunTests] consults. *)
Record DRC_OPTIONS : Type := mkOptions {
  m_doPad2PadTest : bool;
  m_doUnconnectedTest : bool;
  m_doZonesTest : bool;
  m_doKeepoutTest : bool;
  m_refillZones : bool;
  m_reportAllTrackErrors : bool;
  m_testFootprints : bool
}.

(** The result collections: the markers on the board, and the members of
    [DRC] that outlive a run. *)
Record DRC_RESULTS : Type := mkResults {
  markers : list MARKER_PCB;
  m_unconnected : list DRC_ITEM;
  m_footprints : list DRC_ITEM;
  m_drcRun : bool;
  m_footprintsTested : bool
}.

(** What a run finds on the board.  The geometric checkers are taken by the
    markers they hand to [addMarkerToPcb] on this board ([testPad2Pad] and
    [TestZoneToZoneOutlines] are embedded in [Pads] and [Zones]); the
    connectivity and netlist collaborators by what they return. *)
Record BOARD : Type := mkBoard {
  GetDesignSettings : BOARD_DESIGN_SETTINGS;
  m_NetClasses : NETCLASSES;
  Modules : list Footprints.MODULE;
  testOutline : list MARKER_PCB;
  testPad2Pad : list MARKER_PCB;
  testDrilledHoles : list MARKER_PCB;
  testTracks : list MARKER_PCB;
  testZones : list MARKER_PCB;
  testKeepoutAreas : list MARKER_PCB;
  testCopperTextAndGraphics : list MARKER_PCB;
  doCourtyardsDrc : list MARKER_PCB;
  testDisabledLayers : list MARKER_PCB;
  testTextVars : list MARKER_PCB;
  GetUnconnectedEdges : list (item_ref * item_ref);
  FetchNetlistFromSchematic : list Footprints.COMPONENT;
  Kiface_IsSingle : bool
}.

(** The steps of a run, for the record of what was executed. *)
Inductive PHASE : Type :=
  | PhOutline | PhNetclasses | PhPad2Pad | PhDrilledHoles | PhZoneFill
  | PhTracks | PhZones | PhUnconnected | PhKeepout | PhCopperText
  | PhCourtyards | PhFootprints | PhDisabledLayers | PhTextVars.

#[global] Instance PHASE_eq_dec : EqDecision PHASE.
Proof. solve_decision. Defined.

(** A run in progress: the collections and the steps executed so far. *)
Definition RUN : Type := DRC_RESULTS * list PHASE.

(** A checker runs: its markers go through [addMarkerToPcb]. *)
Definition runChecker (g : BOARD_DESIGN_SETTINGS) (ph : PHASE)
    (emitted : list MARKER_PCB) (st : RUN) : RUN :=
  let '(r, log) := st in
  ({| markers := commitMarkers g emitted (markers r);
      m_unconnected := m_unconnected r;
      m_footprints := m_footprints r;
      m_drcRun := m_drcRun r;
      m_footprintsTested := m_footprintsTested r |},
   log ++ [ph]).

(** [DRC::testUnconnected]: the list is emptied, then filled with one item
    per unconnected edge. *)
Definition testUnconnected (board : BOARD) (st : RUN) : RUN :=
  let '(r, log) := st in
  ({| markers := markers r;
      m_unconnected :=
        map (fun edge => mkItem DRCE_UNCONNECTED_ITEMS MsgDefault
                                [fst edge; snd edge])
            (GetUnconnectedEdges board);
      m_footprints := m_footprints r;
      m_drcRun := m_drcRun r;
      m_footprintsTested := m_footprintsTested r |},
   log ++ [PhUnconnected]).

(** [m_footprints.clear(); m_footprintsTested = false;] *)
Definition clearFootprints (st : RUN) : RUN :=
  let '(r, log) := st in
  ({| markers := markers r;
      m_unconnected := m_unconnected r;
      m_footprints := [];
      m_drcRun := m_drcRun r;
      m_footprintsTested := false |},
   log).

(** [TestFootprints( netlist, m_pcb, ..., m_footprints );
     m_footprintsTested = true;] *)
Definition runTestFootprints (board : BOARD) (st : RUN) : RUN :=
  let '(r, log) := st in
  ({| markers := markers r;
      m_unconnected := m_unconnected r;
      m_footprints :=
        m_footprints r
          ++ Footprints.TestFootprints (GetDesignSettings board)
               (FetchNetlistFromSchematic board) (Modules board);
      m_drcRun := m_drcRun r;
      m_footprintsTested := true |},
   log ++ [PhFootprints]).

(** [m_drcRun = true;] *)
Definition setDrcRun (st : RUN) : RUN :=
  let '(r, log) := st in
  ({| markers := markers r;
      m_unconnected := m_unconnected r;
      m_footprints := m_footprints r;
      m_drcRun := true;
      m_footprintsTested := m_footprintsTested r |},
   log).

(** The zone filler refills or checks the fills; it raises no marker. *)
Definition zoneFill (st : RUN) : RUN := (fst st, snd st ++ [PhZoneFill]).

(** [if( c ) step;] *)
Definition when (c : bool) (step : RUN -> RUN) (st : RUN) : RUN :=
  if c then step st else st.

(** [DRC::RunTests], from the collections as the previous run left them.
    The messages to the dialog, [loadRules] and [updatePointers] change
    none of the collections and are left out. *)
Definition RunTests (opts : DRC_OPTIONS) (board : BOARD) (before : DRC_RESULTS)
    : RUN :=
  let g := GetDesignSettings board in
  let st : RUN := (before, []) in
  let st := runChecker g PhOutline (testOutline board) st in
  let nc := testNetClasses g (m_NetClasses board) in
  let st := runChecker g PhNetclasses (snd nc) st in
  if negb (fst nc) then st
  else
    let st := when (m_doPad2PadTest opts)
                (runChecker g PhPad2Pad (testPad2Pad board)) st in
    let st := runChecker g PhDrilledHoles (testDrilledHoles board) st in
    let st := zoneFill st in
    let st := runChecker g PhTracks (testTracks board) st in
    let st := runChecker g PhZones (testZones board) st in
    let st := when (m_doUnconnectedTest opts
                    && negb (Ignore g DRCE_UNCONNECTED_ITEMS))
                (testUnconnected board) st in
    let st := when (m_doKeepoutTest opts)
                (runChecker g PhKeepout (testKeepoutAreas board)) st in
    let st := runChecker g PhCopperText (testCopperTextAndGraphics board) st in
    let st := when (negb (Ignore g DRCE_OVERLAPPING_FOOTPRINTS)
                    || negb (Ignore g DRCE_MISSING_COURTYARD)
                    || negb (Ignore g DRCE_MALFORMED_COURTYARD)
                    || negb (Ignore g DRCE_PTH_IN_COURTYARD)
                    || negb (Ignore g DRCE_NPTH_IN_COURTYARD))
                (runChecker g PhCourtyards (doCourtyardsDrc board)) st in
    let st := clearFootprints st in
    let st := when (m_testFootprints opts && negb (Kiface_IsSingle board))
                (runTestFootprints board) st in
    let st := when (negb (Ignore g DRCE_DISABLED_LAYER_ITEM))
                (runChecker g PhDisabledLayers (testDisabledLayers board)) st in
    let st := when (negb (Ignore g DRCE_UNRESOLVED_VARIABLE))
                (runChecker g PhTextVars (testTextVars board)) st in
    setDrcRun st.

(** The members of [DRC] besides the board's markers. *)
Definition members (r : DRC_RESULTS)
    : list DRC_ITEM * list DRC_ITEM * bool * bool :=
  (m_unconnected r, m_footprints r, m_drcRun r, m_footprintsTested r).

(** The steps of [RunTests] that follow the net-class test. *)
Definition afterNetclasses (ph : PHASE) : bool :=
  match ph with
  | PhOutline | PhNetclasses => false
  | _ => true
  end.

(** ** The seven constraints of a net class

    The fields the conformance check covers, as the design lists them:
    the code raised for the field, the board-wide floor and the value of the
    class. *)
Definition netclassConstraints (g : BOARD_DESIGN_SETTINGS) (nc : NETCLASS)
    : list (DRC_CODE * Z * Z) :=
  [ (DRCE_NETCLASS_CLEARANCE, m_MinClearance g, GetClearance nc);
    (DRCE_NETCLASS_TRACKWIDTH, m_TrackMinWidth g, GetTrackWidth nc);
    (DRCE_NETCLASS_VIASIZE, m_ViasMinSize g, GetViaDiameter nc);
    (DRCE_NETCLASS_VIADRILLSIZE, m_MinThroughDrill g, GetViaDrill nc);
    (DRCE_NETCLASS_VIAANNULUS, m_ViasMinAnnulus g, ncViaAnnulus nc);
    (DRCE_NETCLASS_uVIASIZE, m_MicroViasMinSize g, GetuViaDiameter nc);
    (DRCE_NETCLASS_uVIADRILLSIZE, m_MicroViasMinDrill g, GetuViaDrill nc) ].

(** One violation for each field below its floor, in the order of the
    fields. *)
Definition netclassViolations (g : BOARD_DESIGN_SETTINGS) (nc : NETCLASS)
    : list MARKER_PCB :=
  flat_map (fun '(code, floor, value) =>
              if value <? floor then [netclassMarker code floor nc value]
              else [])
           (netclassConstraints g nc).

(** Every class the check covers: the Default class, then the user classes. *)
Definition allClasses (netclasses : NETCLASSES) : list NETCLASS :=
  GetDefault netclasses :: userClasses netclasses.

(** ** The pad sweep without its early exit

    [testPad2Pad] with every scan run to the end of the list: what the
    sweep is measured against. *)

Module Sweep.

Fixpoint testPad2Pad_full (all_cu : Z) (newDummyPad : Pads.D_PAD)
    (boundingRadiusOf : Pads.PAD_SHAPE_T -> Pads.wxSize -> Z)
    (checkClearancePadToPad : Pads.D_PAD -> Pads.D_PAD -> Z -> bool * Z)
    (pads : list Pads.D_PAD) : list MARKER_PCB :=
  match pads with
  | [] => []
  | pad :: rest =>
      snd (Pads.fullScan all_cu newDummyPad boundingRadiusOf
             checkClearancePadToPad pad (pad :: rest))
        ++ testPad2Pad_full all_cu newDummyPad boundingRadiusOf
             checkClearancePadToPad rest
  end.

(** Pads whose clearance, radius and abscissa leave the sums of the x limit
    within an [int]. *)
Definition padInRange (p : Pads.D_PAD) : Prop :=
  0 <= Pads.GetClearance p <= 2 ^ 28
  /\ 0 <= Pads.GetBoundingRadius p <= 2 ^ 28
  /\ - 2 ^ 29 <= px (Pads.GetPosition p) <= 2 ^ 29.

End Sweep.

(** ** Zones without pads: [DRC::testZones] *)

Module ZoneNets.

Section TestZones.

Variable GetClearance : Zones.ZONE_CONTAINER -> Zones.ZONE_CONTAINER -> Z * string.
Variable Contains : Zones.SHAPE_POLY_SET -> wxPoint -> bool.
Variable GetClearanceBetweenSegments : Zones.SEG -> Zones.SEG -> Z -> Z * wxPoint.

(** [zone->GetPosition()]. *)
Variable GetPosition : Zones.ZONE_CONTAINER -> wxPoint.

(** [m_pcb->GetConnectivity()->GetPadCount( netcode )]. *)
Variable GetPadCount : Z -> Z.

Definition emptyNetMarker (zone : Zones.ZONE_CONTAINER) : MARKER_PCB :=
  mkMarker (mkItem DRCE_ZONE_HAS_EMPTY_NET MsgDefault [Zones.zoneId zone])
           (GetPosition zone).

(** The body of the loop over the areas. *)
Definition testEmptyNet (zone : Zones.ZONE_CONTAINER) : list MARKER_PCB :=
  if negb (Zones.IsOnCopperLayer zone) then []
  else
    let netcode := Zones.GetNetCode zone in
    let pads_in_net := if netcode >? 0 then GetPadCount netcode else 1 in
    if (netcode <? 0) || (pads_in_net =? 0)
    then [emptyNetMarker zone]
    else [].

(** [testZones]: the test for empty nets, unless its code is ignored, then
    the outline test. *)
Definition testZones (g : BOARD_DESIGN_SETTINGS)
    (areas : list (Zones.ZONE_CONTAINER * Zones.SHAPE_POLY_SET))
    : list MARKER_PCB :=
  (if negb (Ignore g DRCE_ZONE_HAS_EMPTY_NET)
   then flat_map (fun area => testEmptyNet (fst area)) areas
   else [])
  ++ fst (Zones.TestZoneToZoneOutlines GetClearance Contains
            GetClearanceBetweenSegments areas).

End TestZones.

End ZoneNets.

(** ** Tracks and vias: [DRC::testTracks] *)

Module Tracks.

Inductive KICAD_T : Type := PCB_TRACE_T | PCB_ARC_T | PCB_VIA_T.

#[global] Instance KICAD_T_eq_dec : EqDecision KICAD_T.
Proof. solve_decision. Defined.

(** What [testTracks] itself reads of a [TRACK]. *)
Record TRACK : Type := mkTrack {
  trackId : item_ref;
  Type_ : KICAD_T
}.

(** The number of tests between two calls to the progress bar. *)
Definition delta : Z := 500.

(** What a scan leaves behind: the markers handed to [addMarkerToPcb], the
    values passed to [progressDialog->Update], and the segments that went
    through [doTrackDrc], each in order. *)
Record SCAN : Type := mkScan {
  scanMarkers : list MARKER_PCB;
  scanUpdates : list Z;
  scanTested : list TRACK
}.

Section TestTracks.

(** [doTrackDrc( aRefSeg, aStartIt, aEndIt, aTestZones )]
    (drc_clearance_test_functions.cpp), by the markers it hands to
    [addMarkerToPcb]. *)
Variable doTrackDrc : TRACK -> list TRACK -> bool -> list MARKER_PCB.

(** [connectivity->TestTrackEndpointDangling( seg, &pos )]. *)
Variable TestTrackEndpointDangling : TRACK -> bool * wxPoint.

(** [progressDialog->Update( count, wxEmptyString )]: false when the user
    has asked to abort. *)
Variable Update : Z -> bool.

(** The test for dangling items at the end of the loop body. *)
Definition testDangling (settings : BOARD_DESIGN_SETTINGS) (seg : TRACK)
    : list MARKER_PCB :=
  let code := if bool_decide (Type_ seg = PCB_VIA_T)
              then DRCE_DANGLING_VIA else DRCE_DANGLING_TRACK in
  if negb (Ignore settings code) && fst (TestTrackEndpointDangling seg)
  then [mkMarker (mkItem code MsgDefault [trackId seg])
                 (snd (TestTrackEndpointDangling seg))]
  else [].

(** The markers of one segment that is examined. *)
Definition segmentMarkers (settings : BOARD_DESIGN_SETTINGS) (m_doZonesTest : bool)
    (seg : TRACK) (rest : list TRACK) : list MARKER_PCB :=
  doTrackDrc seg rest m_doZonesTest ++ testDangling settings seg.

(** The [for] loop over the tracks, from the values [ii] and [count] have
    on entry; [progressDialog] tells whether there is a dialog. *)
Fixpoint testTracks_loop (settings : BOARD_DESIGN_SETTINGS) (m_doZonesTest : bool)
    (progressDialog : bool) (tracks : list TRACK) (ii count : Z) : SCAN :=
  match tracks with
  | [] => mkScan [] [] []
  | seg :: rest =>
      (* if( ii++ > delta ) { ii = 0; count++; ... } *)
      let fire := ii >? delta in
      let ii := if fire then 0 else ii + 1 in
      let count := if fire then count + 1 else count in
      if fire && progressDialog && negb (Update count)
      then mkScan [] [count] []           (* break: aborted by user *)
      else
        let r := testTracks_loop settings m_doZonesTest progressDialog rest
                   ii count in
        mkScan (segmentMarkers settings m_doZonesTest seg rest ++ scanMarkers r)
               ((if fire && progressDialog then [count] else [])
                  ++ scanUpdates r)
               (seg :: scanTested r)
  end.

(** [testTracks( aActiveWindow, aShowProgressBar )]: the dialog is made for
    more than three batches of tracks, and is first updated with 0. *)
Definition testTracks (settings : BOARD_DESIGN_SETTINGS) (m_doZonesTest : bool)
    (aShowProgressBar : bool) (tracks : list TRACK) : SCAN :=
  let count := Z.of_nat (length tracks) in
  let deltamax := Z.quot count delta in
  let progressDialog := aShowProgressBar && (deltamax >? 3) in
  let r := testTracks_loop settings m_doZonesTest progressDialog tracks 0 0 in
  mkScan (scanMarkers r)
         ((if progressDialog then [0] else []) ++ scanUpdates r)
         (scanTested r).

(** Every segment against the segments after it. *)
Fixpoint allSegmentMarkers (settings : BOARD_DESIGN_SETTINGS) (m_doZonesTest : bool)
    (tracks : list TRACK) : list MARKER_PCB :=
  match tracks with
  | [] => []
  | seg :: rest =>
      segmentMarkers settings m_doZonesTest seg rest
        ++ allSegmentMarkers settings m_doZonesTest rest
  end.

End TestTracks.

(** The values [first], [first + 1], ... ([n] of them). *)
Definition countsFrom (first : Z) (n : nat) : list Z :=
  map (fun i => first + Z.of_nat i) (seq 0 n).

End Tracks.

(** The squared distance of a point to a conflicting shape that is the
    single point [c]. *)
Definition squaredDistanceToPoint (c p : wxPoint) : Z :=
  (px p - px c) * (px p - px c) + (py p - py c) * (py p - py c).

(** ** Footprint references with letter case folded *)

Module Duplicates.

(** The key of a footprint in the set of [TestFootprints]: its reference
    with letter case folded. *)
Definition foldedReference (x : Footprints.MODULE) : string :=
  Footprints.lowerCase (Footprints.GetReference x).

(** Two footprints that the comparator of the set does not tell apart. *)
Definition sameReference (x y : Footprints.MODULE) : bool :=
  bool_decide (foldedReference x = foldedReference y).

(** The first footprint among [seen] with the reference of [mod_]. *)
Definition firstWithReference (seen : list Footprints.MODULE)
    (mod_ : Footprints.MODULE) : option Footprints.MODULE :=
  find (sameReference mod_) seen.

(** The duplicate items for [modules], the footprints [seen] coming before
    them on the board: one for each footprint whose reference has occurred
    before, naming it and the first footprint with that reference. *)
Fixpoint duplicatesAfter (seen modules : list Footprints.MODULE) : list DRC_ITEM :=
  match modules with
  | [] => []
  | mod_ :: rest =>
      match firstWithReference seen mod_ with
      | Some first =>
          [mkItem DRCE_DUPLICATE_FOOTPRINT MsgDefault
                  [Footprints.moduleId mod_; Footprints.moduleId first]]
      | None => []
      end ++ duplicatesAfter (seen ++ [mod_]) rest
  end.

(** The footprints among [modules] that are the first with their
    reference. *)
Fixpoint firstsAfter (seen modules : list Footprints.MODULE)
    : list Footprints.MODULE :=
  match modules with
  | [] => []
  | mod_ :: rest =>
      match firstWithReference seen mod_ with
      | Some _ => []
      | None => [mod_]
      end ++ firstsAfter (seen ++ [mod_]) rest
  end.

(** The order of the set. *)
Definition before (x y : Footprints.MODULE) : Prop := Footprints.comp x y = true.

End Duplicates.

(** ** The rules file: [DRC::loadRules] *)

Module Rules.

Section LoadRules.

(** The rule selectors and rules the parser produces. *)
Variables DRC_SELECTOR DRC_RULE : Type.

(** What [loadRules] learns of the file [drc-rules] of the project: whether
    it exists, its modification time, whether [wxFopen] opens it, and what
    [DRC_RULES_PARSER::Parse] makes of it ([None] when it throws a
    [PARSE_ERROR]). *)
Record RULES_FILE : Type := mkRulesFile {
  FileExists : bool;
  GetModificationTime : Z;
  wxFopen : bool;
  Parse : option (list DRC_SELECTOR * list DRC_RULE)
}.

(** The members of [DRC] that [loadRules] keeps, the two members of the
    board's design settings it assigns, and whether [DisplayError] was
    called. *)
Record RULES_STATE : Type := mkRulesState {
  m_rulesFileLastMod : Z;
  m_ruleSelectors : list DRC_SELECTOR;
  m_rules : list DRC_RULE
}.

Record LOADED : Type := mkLoaded {
  drcRules : RULES_STATE;
  m_DRCRuleSelectors : list DRC_SELECTOR;
  m_DRCRules : list DRC_RULE;
  errorDisplayed : bool
}.

Definition loadRules (rulesFile : RULES_FILE) (s : RULES_STATE) : LOADED :=
  let r :=
    if FileExists rulesFile then
      let lastMod := GetModificationTime rulesFile in
      if lastMod >? m_rulesFileLastMod s then
        if wxFopen rulesFile then
          match Parse rulesFile with
          | Some (selectors, rules) => (mkRulesState lastMod selectors rules, false)
          | None => (mkRulesState lastMod [] [], true)
          end
        else (mkRulesState lastMod [] [], false)
      else (s, false)
    else (s, false) in
  mkLoaded (fst r) (m_ruleSelectors (fst r)) (m_rules (fst r)) (snd r).

End LoadRules.

Arguments mkRulesFile {DRC_SELECTOR DRC_RULE}.
Arguments FileExists {DRC_SELECTOR DRC_RULE}.
Arguments GetModificationTime {DRC_SELECTOR DRC_RULE}.
Arguments wxFopen {DRC_SELECTOR DRC_RULE}.
Arguments Parse {DRC_SELECTOR DRC_RULE}.
Arguments mkRulesState {DRC_SELECTOR DRC_RULE}.
Arguments m_rulesFileLastMod {DRC_SELECTOR DRC_RULE}.
Arguments m_ruleSelectors {DRC_SELECTOR DRC_RULE}.
Arguments m_rules {DRC_SELECTOR DRC_RULE}.
Arguments mkLoaded {DRC_SELECTOR DRC_RULE}.
Arguments drcRules {DRC_SELECTOR DRC_RULE}.
Arguments m_DRCRuleSelectors {DRC_SELECTOR DRC_RULE}.
Arguments m_DRCRules {DRC_SELECTOR DRC_RULE}.
Arguments errorDisplayed {DRC_SELECTOR DRC_RULE}.
Arguments loadRules {DRC_SELECTOR DRC_RULE}.

End Rules.

(** ** Undo and redo of board edits (pcbnew/board_undo_redo.cpp) *)

Module UndoRedo.

(** The operation types the file names; [UR_OTHER] stands for any other
    value of the enumeration, which the [switch] statements send to their
    [default] branch. *)
Inductive UndoRedoOpType : Type :=
  | UR_UNSPECIFIED
  | UR_CHANGED
  | UR_NEW
  | UR_DELETED
  | UR_MOVED
  | UR_MIRRORED_X
  | UR_MIRRORED_Y
  | UR_ROTATED
  | UR_WIRE_IMAGE
  | UR_OTHER.

#[global] Instance UndoRedoOpType_eq_dec : EqDecision UndoRedoOpType.
Proof. solve_decision. Defined.

(** An [ITEM_PICKER]: the item (a pointer, [None] when NULL), the status and
    the link to the item a copy was made of. *)
Record ITEM_PICKER : Type := mkPicker {
  m_Item : option item_ref;
  m_UndoRedoStatus : UndoRedoOpType;
  m_Link : option item_ref
}.

(** A [PICKED_ITEMS_LIST]: one command of the undo or redo list. *)
Record PICKED_ITEMS_LIST : Type := mkPicked {
  m_ItemsList : list ITEM_PICKER;
  m_TransformPoint : wxPoint
}.

(** What the functions do to their surroundings, in the order they do it:
    calls on the board, writes of [m_Flags] ([None] for 0), message boxes
    (with the command code where the text is formatted with it), the
    deletion of an item and the rebuild of the ratsnest. *)
Inductive EFFECT : Type :=
  | Remove (item : option item_ref)
  | Add (item : option item_ref)
  | SetFlags (item : option item_ref) (flags : option UndoRedoOpType)
  | MessageBox (msg : string)
  | MessageBoxCode (format : string) (code : UndoRedoOpType)
  | Delete (item : item_ref)
  | Compile_Ratsnest.

(** [SwapData]: the [switch] on the type has a [default] branch only. *)
Definition SwapData (aItem aImage : option item_ref) : list EFFECT :=
  match aItem, aImage with
  | Some _, Some _ => [MessageBox "SwapData() error: unexpected type"]
  | _, _ => [MessageBox "SwapData error: NULL pointer"]
  end.

(** [DuplicateStruct]: [newItem] is NULL at the start and no branch of the
    [switch] assigns it. *)
Definition DuplicateStruct (aItem : option item_ref) : option item_ref * list EFFECT :=
  match aItem with
  | None => (None, [MessageBox "DuplicateStruct error: NULL struct"])
  | Some _ => (None, [])
  end.

(** What a call of [SaveCopyInUndoList] leaves: the command handed to
    [PushCommandToUndoList], after which the redo list is cleared, or none
    when the command was empty and deleted; and the effects. *)
Record SAVED : Type := mkSaved {
  commandToUndo : option PICKED_ITEMS_LIST;
  saveEffects : list EFFECT
}.

Definition pushOrDelete (pushed : list ITEM_PICKER) (aTransformPoint : wxPoint)
    (effects : list EFFECT) : SAVED :=
  match pushed with
  | [] => mkSaved None effects
  | _ :: _ => mkSaved (Some (mkPicked pushed aTransformPoint)) effects
  end.

(** [SaveCopyInUndoList( aItemToCopy, aCommandType, aTransformPoint )]. *)
Definition SaveCopyInUndoList_item (aItemToCopy : option item_ref)
    (aCommandType : UndoRedoOpType) (aTransformPoint : wxPoint) : SAVED :=
  let itemWrapper := mkPicker aItemToCopy aCommandType None in
  match aCommandType with
  | UR_CHANGED =>
      let copy := DuplicateStruct aItemToCopy in
      let itemWrapper := mkPicker (fst copy) aCommandType aItemToCopy in
      pushOrDelete (match fst copy with Some _ => [itemWrapper] | None => [] end)
                   aTransformPoint (snd copy)
  | UR_NEW | UR_WIRE_IMAGE | UR_DELETED =>
      pushOrDelete [itemWrapper] aTransformPoint []
  | _ =>
      pushOrDelete [] aTransformPoint
                   [MessageBoxCode "SaveCopyInUndoList() error (unknown code %X)"
                                   aCommandType]
  end.

(** The status the list version works with: that of the picked item, or
    [aTypeCommand] when it is unspecified. *)
Definition commandOf (aTypeCommand : UndoRedoOpType) (picked : ITEM_PICKER)
    : UndoRedoOpType :=
  match m_UndoRedoStatus picked with
  | UR_UNSPECIFIED => aTypeCommand
  | command => command
  end.

(** One turn of the loop of the list version.  [itemWrapper] is declared
    before the loop, so its link outlives the turn that set it. *)
Definition saveStep (aTypeCommand : UndoRedoOpType)
    (acc : ITEM_PICKER * list ITEM_PICKER * list EFFECT) (picked : ITEM_PICKER)
    : ITEM_PICKER * list ITEM_PICKER * list EFFECT :=
  let '(itemWrapper, pushed, effects) := acc in
  let ItemToCopy := m_Item picked in
  let command := commandOf aTypeCommand picked in
  let itemWrapper := mkPicker ItemToCopy command (m_Link itemWrapper) in
  match command with
  | UR_CHANGED =>
      let copy := DuplicateStruct ItemToCopy in
      let itemWrapper := mkPicker (fst copy) command ItemToCopy in
      match fst copy with
      | Some _ => (itemWrapper, pushed ++ [itemWrapper], effects ++ snd copy)
      | None => (itemWrapper, pushed, effects ++ snd copy)
      end
  | UR_MOVED | UR_MIRRORED_Y | UR_NEW =>
      (itemWrapper, pushed ++ [itemWrapper], effects)
  | UR_DELETED =>
      (itemWrapper, pushed ++ [itemWrapper],
       effects ++ [SetFlags ItemToCopy (Some UR_DELETED)])
  | _ =>
      (itemWrapper, pushed,
       effects ++ [MessageBoxCode "SaveCopyInUndoList() error (unknown code %X)"
                                  command])
  end.

(** [SaveCopyInUndoList( aItemsList, aTypeCommand, aTransformPoint )]. *)
Definition SaveCopyInUndoList (aItemsList : PICKED_ITEMS_LIST)
    (aTypeCommand : UndoRedoOpType) (aTransformPoint : wxPoint) : SAVED :=
  let '(_, pushed, effects) :=
    fold_left (saveStep aTypeCommand) (m_ItemsList aItemsList)
              (mkPicker None UR_UNSPECIFIED None, [], []) in
  pushOrDelete pushed aTransformPoint effects.

(** [-aList->m_TransformPoint]: the negation of the two [int]
    coordinates. *)
Definition negatePoint (p : wxPoint) : wxPoint :=
  mkPoint (Int32.wrap (- px p)) (Int32.wrap (- py p)).

(** One turn of the loop of [PutDataInPreviousState]: the picker as the
    turn leaves it, the effects, and whether the turn set [as_moved]. *)
Definition putStep (itemWrapper : ITEM_PICKER) : ITEM_PICKER * list EFFECT * bool :=
  let item := m_Item itemWrapper in
  let image := m_Link itemWrapper in
  match m_UndoRedoStatus itemWrapper with
  | UR_CHANGED => (itemWrapper, SwapData item image, false)
  | UR_NEW =>
      (mkPicker item UR_DELETED image,
       [Remove item; SetFlags item (Some UR_DELETED)], false)
  | UR_DELETED =>
      (mkPicker item UR_NEW image, [Add item; SetFlags item None], false)
  | UR_MOVED => (itemWrapper, [], true)
  | UR_MIRRORED_Y => (itemWrapper, [], false)
  | _ =>
      (itemWrapper,
       [MessageBoxCode "PutDataInPreviousState() error (unknown code %X)"
                       (m_UndoRedoStatus itemWrapper)], false)
  end.

(** [PutDataInPreviousState( aList )]: the list as the call leaves it and
    the effects. *)
Definition PutDataInPreviousState (aList : PICKED_ITEMS_LIST)
    : PICKED_ITEMS_LIST * list EFFECT :=
  let turns := map putStep (m_ItemsList aList) in
  let as_moved := existsb snd turns in
  (mkPicked (map (fun t => fst (fst t)) turns)
            (if as_moved then negatePoint (m_TransformPoint aList)
             else m_TransformPoint aList),
   flat_map (fun t => snd (fst t)) turns ++ [Compile_Ratsnest]).

(** The calls on the board among the effects, and the call that takes one
    back. *)
Definition boardCalls (effects : list EFFECT) : list EFFECT :=
  List.filter (fun e => match e with Remove _ | Add _ => true | _ => false end)
              effects.

Definition inverseCall (e : EFFECT) : EFFECT :=
  match e with
  | Remove item => Add item
  | Add item => Remove item
  | other => other
  end.

(** Modelled from the spec: [PICKED_ITEMS_LIST::PopItem] belongs to the
    undo container and is known here by its interface only: it takes the
    last picker off the list and returns it, and returns a picker with a
    NULL item when the list is empty.  The [while] loop of
    [ClearUndoORRedoList] on the pickers of one command: the items it
    deletes, the last picker first. *)
Fixpoint deleteOwned (reversed : list ITEM_PICKER) : list EFFECT :=
  match reversed with
  | [] => []
  | wrapper :: rest =>
      match m_Item wrapper with
      | None => []
      | Some item =>
          match m_UndoRedoStatus wrapper with
          | UR_MOVED | UR_MIRRORED_X | UR_MIRRORED_Y | UR_ROTATED | UR_NEW =>
              deleteOwned rest
          | _ => Delete item :: deleteOwned rest
          end
      end
  end.

(** The [for] loop of [ClearUndoORRedoList], [icnt] turns at most. *)
Fixpoint clearLoop (icnt : nat) (m_CommandsList : list PICKED_ITEMS_LIST)
    : list PICKED_ITEMS_LIST * list EFFECT :=
  match icnt with
  | O => (m_CommandsList, [])
  | S icnt' =>
      match m_CommandsList with
      | [] => ([], [])
      | curr_cmd :: rest =>
          let r := clearLoop icnt' rest in
          (fst r, deleteOwned (rev (m_ItemsList curr_cmd)) ++ snd r)
      end
  end.

(** [ClearUndoORRedoList( aList, aItemCount )]: the commands left and the
    items deleted. *)
Definition ClearUndoORRedoList (m_CommandsList : list PICKED_ITEMS_LIST)
    (aItemCount : Z) : list PICKED_ITEMS_LIST * list EFFECT :=
  if aItemCount =? 0 then (m_CommandsList, [])
  else
    let icnt := if aItemCount >? 0 then Z.to_nat aItemCount
                else length m_CommandsList in
    clearLoop icnt m_CommandsList.

(** The pickers whose item the undo list owns: the item is deleted with the
    command. *)
Definition owned (wrapper : ITEM_PICKER) : bool :=
  match m_UndoRedoStatus wrapper with
  | UR_MOVED | UR_MIRRORED_X | UR_MIRRORED_Y | UR_ROTATED | UR_NEW => false
  | _ => true
  end.

(** The statuses the list version of [SaveCopyInUndoList] stores a picker
    for, as long as no copy can be made. *)
Definition stored (command : UndoRedoOpType) : bool :=
  match command with
  | UR_MOVED | UR_MIRRORED_Y | UR_NEW | UR_DELETED => true
  | _ => false
  end.

End UndoRedo.

(** ** Copper graphics and texts against pads:
       [DRC::testCopperDrawItem], [DRC::testCopperTextItem] *)

Module Copper.

(** The shapes the [switch] of [testCopperDrawItem] tells apart; [S_OTHER]
    stands for any other shape (a polygon, say), which takes the [default]
    branch. *)
Inductive STROKE_T : Type := S_SEGMENT | S_ARC | S_CIRCLE | S_CURVE | S_OTHER.

(** What the test reads of a [DRAWSEGMENT]; [arcPolyline] and
    [circlePolyline] are the segments of the polylines that
    [SHAPE_ARC::ConvertToPolyline] gives for the arc and for the full turn,
    [GetBezierPoints] the points after
    [RebuildBezierToSegmentsPointsList]. *)
Record DRAWSEGMENT : Type := mkDraw {
  drawId : item_ref;
  GetShape : STROKE_T;
  GetWidth : Z;
  GetStart : wxPoint;
  GetEnd : wxPoint;
  arcPolyline : list Zones.SEG;
  circlePolyline : list Zones.SEG;
  GetBezierPoints : list wxPoint;
  GetLayer : Z;
  GetParent : option item_ref
}.

(** What the test reads of a pad. *)
Record D_PAD : Type := mkPad {
  padId : item_ref;
  padParent : option item_ref;
  GetBoundingRadius : Z;
  GetClearance : Z;
  ShapePos : wxPoint
}.

(** The loop over the Bezier points from the second on. *)
Fixpoint bezierSegments (start_pt : wxPoint) (points : list wxPoint)
    : list Zones.SEG :=
  match points with
  | [] => []
  | end_pt :: rest => Zones.mkSeg start_pt end_pt :: bezierSegments end_pt rest
  end.

(** [itemShape] after the [switch]; [None] when the code reads the first
    point of an empty list of Bezier points. *)
Definition itemShape (aItem : DRAWSEGMENT) : option (list Zones.SEG) :=
  match GetShape aItem with
  | S_ARC => Some (arcPolyline aItem)
  | S_SEGMENT => Some [Zones.mkSeg (GetStart aItem) (GetEnd aItem)]
  | S_CIRCLE => Some (circlePolyline aItem)
  | S_CURVE =>
      match GetBezierPoints aItem with
      | [] => None
      | start_pt :: rest => Some (bezierSegments start_pt rest)
      end
  | S_OTHER => Some []
  end.

(** The segments of a text: the points of [textShape] two by two; [None]
    when their number is odd and the loop reads past the end. *)
Fixpoint textSegments (textShape : list wxPoint) : option (list Zones.SEG) :=
  match textShape with
  | [] => Some []
  | [_] => None
  | a :: b :: rest =>
      match textSegments rest with
      | Some segs => Some (Zones.mkSeg a b :: segs)
      | None => None
      end
  end.

Section NearCopper.

(** [pad->IsOnLayer( layer )]. *)
Variable IsOnLayer : D_PAD -> Z -> bool.

(** [rect_area.Collide( SEG( shape_pos, shape_pos ), bb_radius )], for the
    rectangle around the item given. *)
Variable Collide : item_ref -> wxPoint -> Z -> bool.

(** [padOutline.SquaredDistance( itemSeg )], for the outline of the pad
    given. *)
Variable SquaredDistance : D_PAD -> Zones.SEG -> Z.

(** One turn of the loop that looks for the nearest segment: [minSeg] and
    [center2center_squared] after it. *)
Definition nearestStep (distance : Zones.SEG -> Z)
    (acc : option Zones.SEG * Z) (itemSeg : Zones.SEG) : option Zones.SEG * Z :=
  let thisDist_squared := distance itemSeg in
  match fst acc with
  | None => (Some itemSeg, thisDist_squared)
  | Some _ =>
      if thisDist_squared <? snd acc then (Some itemSeg, thisDist_squared)
      else acc
  end.

Definition nearestSegment (distance : Zones.SEG -> Z) (itemShape : list Zones.SEG)
    : option Zones.SEG * Z :=
  fold_left (nearestStep distance) itemShape (None, 0).

(** [center2center_squared < SEG::Square( center2centerAllowed )] for a pad
    and an item of the pen width given. *)
Definition tooClose (pad : D_PAD) (itemWidth : Z) (shape : list Zones.SEG) : bool :=
  let minClearance := GetClearance pad in
  let widths := Int32.div itemWidth 2 in
  let center2centerAllowed := Int32.add minClearance widths in
  snd (nearestSegment (SquaredDistance pad) shape)
  <? center2centerAllowed * center2centerAllowed.

(** The fast test on the bounding boxes. *)
Definition nearBox (item : item_ref) (pad : D_PAD) : bool :=
  let bb_radius := Int32.add (GetBoundingRadius pad) (GetClearance pad) in
  Collide item (ShapePos pad) bb_radius.

(** The loop over the pads in [testCopperDrawItem]: the pads a
    [DRCE_PAD_NEAR_COPPER] marker is made for, in order. *)
Definition testCopperDrawItem_pads (aItem : DRAWSEGMENT) (pads : list D_PAD)
    : option (list D_PAD) :=
  match itemShape aItem with
  | None => None
  | Some shape =>
      Some (List.filter
              (fun pad =>
                 IsOnLayer pad (GetLayer aItem)
                 && negb (bool_decide (padParent pad = GetParent aItem))
                 && nearBox (drawId aItem) pad
                 && tooClose pad (GetWidth aItem) shape)
              pads)
  end.

(** The loop over the pads in [testCopperTextItem], for a text of the
    layer, pen width and shape given: nothing is tested when the shape is
    empty. *)
Definition testCopperTextItem_pads (aTextItem : item_ref) (layer penWidth : Z)
    (textShape : list wxPoint) (pads : list D_PAD) : option (list D_PAD) :=
  match textShape with
  | [] => Some []
  | _ :: _ =>
      match textSegments textShape with
      | None => None
      | Some shape =>
          Some (List.filter
                  (fun pad =>
                     IsOnLayer pad layer
                     && nearBox aTextItem pad
                     && tooClose pad penWidth shape)
                  pads)
      end
  end.

End NearCopper.

End Copper.

(** ** Items on disabled layers: [DRC::testDisabledLayers] *)

Module Layers.

(** What the test reads of a track, of a child of a footprint or of a
    zone. *)
Record BOARD_ITEM : Type := mkBoardItem {
  itemId : item_ref;
  GetLayer : Z;
  GetLayerName : string;
  GetPosition : wxPoint
}.

Section DisabledLayers.

(** An [LSET] is a [std::bitset] of [PCB_LAYER_ID_COUNT] bits, here the
    integer with these bits; [AllCuMask] is [LSET::AllCuMask()]. *)
Variable PCB_LAYER_ID_COUNT : Z.
Variable AllCuMask : Z.

(** [bitset::flip()]: every bit of the set toggled. *)
Definition flip (set : Z) : Z := Z.lxor set (Z.ones PCB_LAYER_ID_COUNT).

(** [bitset::test( pos )]: the bit, or [None] when [pos] is not below the
    size and the call throws [std::out_of_range] (a negative layer value
    becomes a large [size_t]). *)
Definition test (set layer : Z) : option bool :=
  if (0 <=? layer) && (layer <? PCB_LAYER_ID_COUNT)
  then Some (Z.testbit set layer) else None.

(** [disabledLayers] after [&= LSET::AllCuMask()]. *)
Definition disabledLayers (enabledLayers : Z) : Z :=
  Z.land (flip enabledLayers) AllCuMask.

(** One of the three loops: the items a [DRCE_DISABLED_LAYER_ITEM] marker is
    made for (it carries the layer name of the item and is placed at its
    position), and whether the loop ran to its end ([false] when a [test]
    threw). *)
Fixpoint flagLoop (disabled : Z) (items : list BOARD_ITEM)
    : list BOARD_ITEM * bool :=
  match items with
  | [] => ([], true)
  | item :: rest =>
      match test disabled (GetLayer item) with
      | None => ([], false)
      | Some flagged =>
          let r := flagLoop disabled rest in
          (if flagged then item :: fst r else fst r, snd r)
      end
  end.

(** [testDisabledLayers]: the tracks, then the children of every footprint,
    then the zones. *)
Definition testDisabledLayers (enabledLayers : Z) (tracks : list BOARD_ITEM)
    (modules : list (list BOARD_ITEM)) (zones : list BOARD_ITEM)
    : list BOARD_ITEM * bool :=
  let disabled := disabledLayers enabledLayers in
  let t := flagLoop disabled tracks in
  if snd t then
    let m := flagLoop disabled (concat modules) in
    if snd m then
      let z := flagLoop disabled zones in
      (fst t ++ fst m ++ fst z, snd z)
    else (fst t ++ fst m, false)
  else (fst t, false).

End DisabledLayers.

End Layers.

(** ** Sample boards

    Concrete boards and net classes on which the statements below are
    instantiated. *)

Module Samples.

Definition ignoreNothing : DRC_CODE -> bool := fun _ => false.

(** Board floors: 0.2 mm clearance and track width, 0.4 mm vias with a
    0.3 mm drill and a 0.05 mm annulus, 0.2 mm / 0.1 mm micro-vias. *)
Definition floors (ignore : DRC_CODE -> bool) : BOARD_DESIGN_SETTINGS :=
  {| m_MinClearance := 200000; m_TrackMinWidth := 200000;
     m_ViasMinSize := 400000; m_MinThroughDrill := 300000;
     m_ViasMinAnnulus := 50000; m_MicroViasMinSize := 200000;
     m_MicroViasMinDrill := 100000; Ignore := ignore |}.

(** A class that meets every floor. *)
Definition ncGood (name : string) : NETCLASS :=
  {| GetName := name; GetClearance := 200000; GetTrackWidth := 250000;
     GetViaDiameter := 800000; GetViaDrill := 400000;
     GetuViaDiameter := 300000; GetuViaDrill := 100000 |}.

(** The Default class with a clearance of 0.15 mm, below the 0.2 mm floor. *)
Definition ncLowClearance : NETCLASS :=
  {| GetName := "Default"; GetClearance := 150000; GetTrackWidth := 250000;
     GetViaDiameter := 800000; GetViaDrill := 400000;
     GetuViaDiameter := 300000; GetuViaDrill := 100000 |}.

(** A class whose via drill is one unit wider than the via itself. *)
Definition ncDrillWider : NETCLASS :=
  {| GetName := "Odd"; GetClearance := 200000; GetTrackWidth := 250000;
     GetViaDiameter := 300000; GetViaDrill := 300001;
     GetuViaDiameter := 300000; GetuViaDrill := 100000 |}.

(** Floors that ask for no annulus at all. *)
Definition floorsNoAnnulus : BOARD_DESIGN_SETTINGS :=
  {| m_MinClearance := 200000; m_TrackMinWidth := 200000;
     m_ViasMinSize := 100000; m_MinThroughDrill := 100000;
     m_ViasMinAnnulus := 0; m_MicroViasMinSize := 200000;
     m_MicroViasMinDrill := 100000; Ignore := ignoreNothing |}.

Definition marker (code : DRC_CODE) (items : list item_ref) : MARKER_PCB :=
  mkMarker (mkItem code MsgDefault items) (mkPoint 0 0).

Definition U1 : Footprints.MODULE := Footprints.mkModule 1%nat "U1".

(** A second footprint with the same reference, in lower case. *)
Definition u1 : Footprints.MODULE := Footprints.mkModule 2%nat "u1".

(** A board with one footprint, one unconnected edge and a marker from each
    of two checkers; its net classes are given. *)
Definition board (ignore : DRC_CODE -> bool) (default : NETCLASS)
    (edges : list (item_ref * item_ref)) : BOARD :=
  {| GetDesignSettings := floors ignore;
     m_NetClasses := mkNetclasses default [ncGood "Power"];
     Modules := [U1];
     testOutline := [];
     testPad2Pad := [marker DRCE_PAD_NEAR_PAD [10; 11]%nat];
     testDrilledHoles := [];
     testTracks := [marker DRCE_DANGLING_TRACK [20%nat]];
     testZones := [];
     testKeepoutAreas := [];
     testCopperTextAndGraphics := [];
     doCourtyardsDrc := [];
     testDisabledLayers := [];
     testTextVars := [];
     GetUnconnectedEdges := edges;
     FetchNetlistFromSchematic := [];
     Kiface_IsSingle := false |}.

Definition allTests : DRC_OPTIONS :=
  {| m_doPad2PadTest := true; m_doUnconnectedTest := true;
     m_doZonesTest := true; m_doKeepoutTest := true; m_refillZones := false;
     m_reportAllTrackErrors := false; m_testFootprints := true |}.

(** The collections of a checker that has not run yet. *)
Definition fresh : DRC_RESULTS :=
  {| markers := []; m_unconnected := []; m_footprints := [];
     m_drcRun := false; m_footprintsTested := false |}.

(** Two copper zones on one layer, of different nets, each outlined by one
    horizontal segment, the second 0.1 mm above the first. *)
Definition zone (id : item_ref) (net : Z) (keepout : bool) : Zones.ZONE_CONTAINER :=
  {| Zones.zoneId := id; Zones.IsOnCopperLayer := true; Zones.GetLayer := 0;
     Zones.GetNetCode := net; Zones.GetPriority := 0;
     Zones.GetIsKeepout := keepout |}.

Definition outlineAt (y : Z) : Zones.SHAPE_POLY_SET :=
  {| Zones.IterateWithHoles := [mkPoint 0 y; mkPoint 1000000 y];
     Zones.IterateSegmentsWithHoles :=
       [Zones.mkSeg (mkPoint 0 y) (mkPoint 1000000 y)] |}.

(** Stand-ins for the geometry the zone test calls, good for outlines made
    of horizontal segments over the same span: a zone clearance of 0.2 mm,
    no corner inside another outline, and the vertical distance of two
    segments, witnessed at the start of the first. *)
Definition zoneClearance (a b : Zones.ZONE_CONTAINER) : Z * string :=
  (200000, "board minimum").

Definition containsNone (poly : Zones.SHAPE_POLY_SET) (p : wxPoint) : bool := false.

Definition verticalDistance (s1 s2 : Zones.SEG) (max_cl : Z) : Z * wxPoint :=
  (Z.abs (py (Zones.A s1) - py (Zones.A s2)), Zones.A s1).

(** Stand-ins for what the pad test takes from the pad class: the copper
    layers are the bits 0 (front) to 31 (back) of the layer set; a fresh
    dummy pad has no layer, net, size or drill; the bounding radius of a
    round or oval shape is half its larger side. *)
Definition all_cu : Z := Z.ones 32.

Definition newDummyPad : Pads.D_PAD :=
  {| Pads.padRef := 0%nat; Pads.GetParent := 0%nat; Pads.GetPadName := "";
     Pads.GetPosition := mkPoint 0 0; Pads.GetLayerSet := 0;
     Pads.GetNetCode := 0; Pads.GetShape := Pads.PAD_SHAPE_CIRCLE;
     Pads.GetSize := Pads.mkSize 0 0; Pads.GetDrillSize := Pads.mkSize 0 0;
     Pads.GetDrillShape := Pads.PAD_DRILL_SHAPE_CIRCLE;
     Pads.GetOrientation := 0; Pads.GetClearance := 0;
     Pads.GetClearanceSource := ""; Pads.GetBoundingRadius := 0 |}.

Definition boundingRadiusOf (shape : Pads.PAD_SHAPE_T) (size : Pads.wxSize) : Z :=
  Z.max (Pads.sx size) (Pads.sy size) / 2.

(** A stand-in for [checkClearancePadToPad], exact for round pads: the
    clearance is respected when the centres are at least the two bounding
    radii plus the clearance apart; [actual] is the distance left between
    the two circles. *)
Definition circleClearance (aRefPad aPad : Pads.D_PAD) (aMinClearance : Z)
    : bool * Z :=
  let dx := px (Pads.GetPosition aPad) - px (Pads.GetPosition aRefPad) in
  let dy := py (Pads.GetPosition aPad) - py (Pads.GetPosition aRefPad) in
  let radii := Pads.GetBoundingRadius aRefPad + Pads.GetBoundingRadius aPad in
  let reach := aMinClearance + radii in
  ((reach <=? 0) || (reach * reach <=? dx * dx + dy * dy),
   Z.sqrt (dx * dx + dy * dy) - radii).

(** A round pad of the given diameter, with a round drill (0 for none). *)
Definition roundPad (id : item_ref) (x y : Z) (layers net diameter drill clearance : Z)
    : Pads.D_PAD :=
  {| Pads.padRef := id; Pads.GetParent := id; Pads.GetPadName := "1";
     Pads.GetPosition := mkPoint x y; Pads.GetLayerSet := layers;
     Pads.GetNetCode := net; Pads.GetShape := Pads.PAD_SHAPE_CIRCLE;
     Pads.GetSize := Pads.mkSize diameter diameter;
     Pads.GetDrillSize := Pads.mkSize drill drill;
     Pads.GetDrillShape := Pads.PAD_DRILL_SHAPE_CIRCLE;
     Pads.GetOrientation := 0; Pads.GetClearance := clearance;
     Pads.GetClearanceSource := "netclass";
     Pads.GetBoundingRadius := diameter / 2 |}.

Definition F_Cu : Z := 1.
Definition B_Cu : Z := 2 ^ 31.

(** A 2 mm pad on the front copper layer only, with a 1 mm drill and a
    clearance of 0.2 mm; and 2.3 mm to its right a 1 mm pad of another net
    on the back copper layer only, without a drill and with a clearance of
    2 mm.  The edge of the second pad is 1.3 mm from the edge of the hole. *)
Definition padWithHole : Pads.D_PAD :=
  roundPad 1%nat 0 0 F_Cu 1 2000000 1000000 200000.

Definition padFarRight : Pads.D_PAD :=
  roundPad 2%nat 2300000 0 B_Cu 2 1000000 0 2000000.

(** Two 1 mm pads of different nets on the front copper layer, 1.1 mm apart
    centre to centre: 0.1 mm between their edges; and a third further
    right, just as close to the second. *)
Definition padA : Pads.D_PAD := roundPad 3%nat 0 0 F_Cu 1 1000000 0 200000.
Definition padB : Pads.D_PAD := roundPad 4%nat 1100000 0 F_Cu 2 1000000 0 200000.
Definition padC : Pads.D_PAD := roundPad 5%nat 1200000 0 F_Cu 3 1000000 0 200000.

(** Footprint checking with the duplicate test switched off. *)
Definition ignoreDuplicates (code : DRC_CODE) : bool :=
  bool_decide (code = DRCE_DUPLICATE_FOOTPRINT).

(** Every point at the same distance of the conflicting shape. *)
Definition equidistant (p : wxPoint) : Z := 0.

(** An outline of two horizontal segments, and the same with the segments
    in the other order. *)
Definition twoSegments (y1 y2 : Z) : Zones.SHAPE_POLY_SET :=
  {| Zones.IterateWithHoles := [];
     Zones.IterateSegmentsWithHoles :=
       [Zones.mkSeg (mkPoint 0 y1) (mkPoint 1000000 y1);
        Zones.mkSeg (mkPoint 0 y2) (mkPoint 1000000 y2)] |}.

(** Connectivity in which net 7 has no pad and every other net has two. *)
Definition padCount (netcode : Z) : Z := if netcode =? 7 then 0 else 2.

Definition zoneOrigin (zone : Zones.ZONE_CONTAINER) : wxPoint := mkPoint 0 0.

(** A board of [n] track segments; stand-ins for a track test that finds
    nothing and a connectivity without dangling ends; a user who aborts at
    the first update of the dialog. *)
Definition segments (n : nat) : list Tracks.TRACK :=
  map (fun i => Tracks.mkTrack i Tracks.PCB_TRACE_T) (seq 0 n).

Definition noTrackMarkers (seg : Tracks.TRACK) (rest : list Tracks.TRACK)
    (aTestZones : bool) : list MARKER_PCB := [].

Definition noDangling (seg : Tracks.TRACK) : bool * wxPoint :=
  (false, mkPoint 0 0).

Definition abortAtOnce (count : Z) : bool := false.

(** A rules file that the parser rejects, and one it accepts. *)
Definition brokenRules : Rules.RULES_FILE string string :=
  Rules.mkRulesFile true 10 true None.

Definition goodRules : Rules.RULES_FILE string string :=
  Rules.mkRulesFile true 5 true (Some (["sel"%string], ["rule"%string])).

Definition deletedRules : Rules.RULES_FILE string string :=
  Rules.mkRulesFile false 0 false None.

Definition noRules : Rules.RULES_STATE string string :=
  Rules.mkRulesState 0 [] [].

(** An edit that adds the item 1, deletes the item 2, changes the item 3
    and moves the item 4 by (5, -7). *)
Definition editCommand : UndoRedo.PICKED_ITEMS_LIST :=
  UndoRedo.mkPicked
    [UndoRedo.mkPicker (Some 1%nat) UndoRedo.UR_NEW None;
     UndoRedo.mkPicker (Some 2%nat) UndoRedo.UR_DELETED None;
     UndoRedo.mkPicker (Some 3%nat) UndoRedo.UR_CHANGED (Some 3%nat);
     UndoRedo.mkPicker (Some 4%nat) UndoRedo.UR_MOVED None]
    (mkPoint 5 (- 7)).

(** A polygon on copper, 0.2 mm wide, and a pad 10 mm away from it with a
    clearance of 0.2 mm; every pad is on every layer, every bounding box
    collides, and every pad is 10 mm from every segment. *)
Definition copperPolygon : Copper.DRAWSEGMENT :=
  Copper.mkDraw 20%nat Copper.S_OTHER 200000 (mkPoint 0 0) (mkPoint 0 0)
                [] [] [] 0 None.

Definition farPad : Copper.D_PAD :=
  Copper.mkPad 21%nat (Some 22%nat) 500000 200000 (mkPoint 10000000 0).

Definition onEveryLayer (pad : Copper.D_PAD) (layer : Z) : bool := true.

Definition alwaysCollides (item : item_ref) (pos : wxPoint) (radius : Z) : bool :=
  true.

Definition tenMillimetres (pad : Copper.D_PAD) (seg : Zones.SEG) : Z :=
  10000000 * 10000000.

(** A board with the two outer copper layers (0 and 31) and a silk screen
    layer (37) enabled, of 50 layers of which the first 32 are copper: a
    track on the inner layer 1 and a zone on the disabled technical
    layer 40. *)
Definition outerLayersOnly : Z := Z.lor (Z.lor 1 (Z.shiftl 1 31)) (Z.shiftl 1 37).

Definition innerTrack : Layers.BOARD_ITEM :=
  Layers.mkBoardItem 30%nat 1 "In1.Cu" (mkPoint 0 0).

Definition outerTrack : Layers.BOARD_ITEM :=
  Layers.mkBoardItem 31%nat 0 "F.Cu" (mkPoint 10 10).

Definition technicalZone : Layers.BOARD_ITEM :=
  Layers.mkBoardItem 32%nat 40 "Dwgs.User" (mkPoint 20 20).

End Samples.

(** * Properties *)

(** ** Facts on 32-bit arithmetic *)

Lemma wrap_in_range z : Int32.in_range z -> Int32.wrap z = z.
Proof.
  unfold Int32.in_range, Int32.wrap, Int32.min_int, Int32.max_int. intros Hz.
  rewrite Z.mod_small; lia.
Qed.

Lemma quot2_bounds z : 0 <= z -> 0 <= Z.quot z 2 <= z.
Proof.
  intros Hz. rewrite Z.quot_div_nonneg by lia.
  pose proof (Z.div_pos z 2 Hz ltac:(lia)).
  pose proof (Z.mul_div_le z 2 ltac:(lia)). lia.
Qed.

Lemma quot2_opp z : Z.quot (- z) 2 = - Z.quot z 2.
Proof. apply Z.quot_opp_l. lia. Qed.

Lemma quot2_in_range z : Int32.in_range z -> Int32.in_range (Z.quot z 2).
Proof.
  unfold Int32.in_range, Int32.min_int, Int32.max_int. intros Hz.
  destruct (Z.le_gt_cases 0 z) as [Hp | Hn].
  - pose proof (quot2_bounds z Hp). lia.
  - pose proof (quot2_bounds (- z) ltac:(lia)) as Hb.
    rewrite quot2_opp in Hb. lia.
Qed.

Lemma int_div2 z : Int32.in_range z -> Int32.div z 2 = Z.quot z 2.
Proof. intros Hz. unfold Int32.div. apply wrap_in_range, quot2_in_range, Hz. Qed.

(** ** Net classes *)

Lemma commitMarkers_app g a b ms :
  commitMarkers g (a ++ b) ms = commitMarkers g b (commitMarkers g a ms).
Proof. unfold commitMarkers. apply fold_left_app. Qed.

(** [doNetClass] hands over the violations of the class, field by field, and
    returns whether there were none. *)
Lemma doNetClass_spec g nc :
  doNetClass g nc
  = (bool_decide (netclassViolations g nc = []), netclassViolations g nc).
Proof.
  unfold doNetClass, netclassViolations, netclassConstraints, checkField.
  cbn [flat_map].
  destruct (GetClearance nc <? m_MinClearance g);
  destruct (GetTrackWidth nc <? m_TrackMinWidth g);
  destruct (GetViaDiameter nc <? m_ViasMinSize g);
  destruct (GetViaDrill nc <? m_MinThroughDrill g);
  destruct (ncViaAnnulus nc <? m_ViasMinAnnulus g);
  destruct (GetuViaDiameter nc <? m_MicroViasMinSize g);
  destruct (GetuViaDrill nc <? m_MicroViasMinDrill g);
  reflexivity.
Qed.

Lemma testNetClasses_loop_spec g ncs st :
  testNetClasses_loop g ncs st
  = (fst st && forallb (fun nc => bool_decide (netclassViolations g nc = [])) ncs,
     snd st ++ flat_map (netclassViolations g) ncs).
Proof.
  revert st.
  induction ncs as [| nc rest IH]; intros [ret ms];
    cbn [testNetClasses_loop forallb flat_map fst snd].
  - rewrite andb_true_r, app_nil_r. reflexivity.
  - rewrite IH, doNetClass_spec. cbn [fst snd].
    rewrite <- app_assoc.
    destruct (bool_decide (netclassViolations g nc = [])), ret; reflexivity.
Qed.

Lemma testNetClasses_spec g netclasses :
  testNetClasses g netclasses
  = (forallb (fun nc => bool_decide (netclassViolations g nc = []))
             (allClasses netclasses),
     flat_map (netclassViolations g) (allClasses netclasses)).
Proof.
  unfold testNetClasses, allClasses.
  rewrite testNetClasses_loop_spec, doNetClass_spec.
  cbn [forallb flat_map fst snd].
  destruct (bool_decide (netclassViolations g (GetDefault netclasses) = []));
    reflexivity.
Qed.

Lemma flat_map_nil_forallb {X Y : Type} `{EqDecision Y} (f : X -> list Y) (l : list X) :
  flat_map f l = [] <-> forallb (fun x => bool_decide (f x = [])) l = true.
Proof.
  induction l as [| x l IH]; cbn [flat_map forallb].
  - tauto.
  - rewrite andb_true_iff, bool_decide_eq_true, <- IH.
    split.
    + intros H. apply app_eq_nil in H. exact H.
    + intros [H1 H2]. rewrite H1, H2. reflexivity.
Qed.

(** C1: the net-class check hands over one violation for every field below
    its floor, for the Default class and every user class, all seven fields
    each time; it returns false exactly when there is such a violation; and
    in that case [RunTests] returns after the steps "outline" and "net
    classes", with nothing but their markers added. *)
Theorem C1_netclass_violations_all_reported_then_abort
    (opts : DRC_OPTIONS) (board : BOARD) (before : DRC_RESULTS) :
  let g := GetDesignSettings board in
  let ncs := m_NetClasses board in
  let found := flat_map (netclassViolations g) (allClasses ncs) in
  snd (testNetClasses g ncs) = found
  /\ (forall nc, length (netclassConstraints g nc) = 7%nat)
  /\ (forall nc code floor value,
        In nc (allClasses ncs) ->
        In (code, floor, value) (netclassConstraints g nc) ->
        value < floor ->
        In (netclassMarker code floor nc value) (snd (testNetClasses g ncs)))
  /\ (fst (testNetClasses g ncs) = false <-> found <> [])
  /\ (found <> [] ->
        RunTests opts board before
        = ({| markers := commitMarkers g (testOutline board ++ found) (markers before);
              m_unconnected := m_unconnected before;
              m_footprints := m_footprints before;
              m_drcRun := m_drcRun before;
              m_footprintsTested := m_footprintsTested before |},
           [PhOutline; PhNetclasses])
        /\ forallb (fun ph => negb (afterNetclasses ph))
                   (snd (RunTests opts board before)) = true).
Proof.
  intros g ncs found.
  assert (Hspec := testNetClasses_spec g ncs). fold found in Hspec.
  assert (Hfst : fst (testNetClasses g ncs) = false <-> found <> []).
  { rewrite Hspec. cbn [fst]. unfold found.
    rewrite flat_map_nil_forallb.
    destruct (forallb _ (allClasses ncs)); split; congruence. }
  split; [rewrite Hspec; reflexivity |].
  split; [reflexivity |].
  split.
  { intros nc code floor value Hnc Hin Hlt.
    rewrite Hspec. cbn [snd]. unfold found.
    apply in_flat_map. exists nc. split; [exact Hnc |].
    unfold netclassViolations. apply in_flat_map.
    exists (code, floor, value). split; [exact Hin |].
    apply Z.ltb_lt in Hlt. rewrite Hlt. left. reflexivity. }
  split; [exact Hfst |].
  intros Hne.
  assert (Heq : RunTests opts board before
                = ({| markers := commitMarkers g (testOutline board ++ found) (markers before);
                      m_unconnected := m_unconnected before;
                      m_footprints := m_footprints before;
                      m_drcRun := m_drcRun before;
                      m_footprintsTested := m_footprintsTested before |},
                   [PhOutline; PhNetclasses])).
  { unfold RunTests. fold g. fold ncs.
    apply Hfst in Hne. rewrite Hne. cbn [negb].
    rewrite Hspec. cbn [snd]. unfold runChecker. cbn.
    rewrite commitMarkers_app. reflexivity. }
  split; [exact Heq |].
  rewrite Heq. reflexivity.
Qed.

(** The scenario of the design: a Default class at 0.15 mm against a floor
    of 0.2 mm stops the run after the net classes. *)
Lemma C1_witness :
  snd (RunTests Samples.allTests
         (Samples.board Samples.ignoreNothing Samples.ncLowClearance [])
         Samples.fresh)
  = [PhOutline; PhNetclasses].
Proof.
  pose proof (C1_netclass_violations_all_reported_then_abort Samples.allTests
                (Samples.board Samples.ignoreNothing Samples.ncLowClearance [])
                Samples.fresh) as H.
  cbv zeta in H.
  destruct H as (_ & _ & _ & _ & H).
  destruct H as [Heq _]; [vm_compute; discriminate |].
  rewrite Heq. reflexivity.
Defined.

(** C9 (as amended): the annulus the check uses is the difference of via
    diameter and drill halved with truncation toward zero; it is the floor
    of the exact half whenever the drill is not wider than the via; and the
    annulus violation is handed over exactly when that value is below the
    board minimum. *)
Theorem C9_via_annulus_truncates (g : BOARD_DESIGN_SETTINGS) (nc : NETCLASS) :
  Int32.in_range (GetViaDiameter nc - GetViaDrill nc) ->
  ncViaAnnulus nc = Z.quot (GetViaDiameter nc - GetViaDrill nc) 2
  /\ (GetViaDrill nc <= GetViaDiameter nc ->
      ncViaAnnulus nc = (GetViaDiameter nc - GetViaDrill nc) / 2)
  /\ ((exists m, In m (snd (doNetClass g nc))
                 /\ GetErrorCode (GetRCItem m) = DRCE_NETCLASS_VIAANNULUS)
      <-> ncViaAnnulus nc < m_ViasMinAnnulus g)
  /\ (ncViaAnnulus nc < m_ViasMinAnnulus g ->
      In (netclassMarker DRCE_NETCLASS_VIAANNULUS (m_ViasMinAnnulus g) nc
                         (ncViaAnnulus nc))
         (snd (doNetClass g nc))).
Proof.
  intros Hrange.
  assert (Hquot : ncViaAnnulus nc = Z.quot (GetViaDiameter nc - GetViaDrill nc) 2).
  { unfold ncViaAnnulus, Int32.sub. rewrite wrap_in_range by exact Hrange.
    apply int_div2, Hrange. }
  split; [exact Hquot |].
  split.
  { intros Hle. rewrite Hquot. apply Z.quot_div_nonneg; lia. }
  rewrite doNetClass_spec. cbn [snd].
  assert (Hin : forall m, In m (netclassViolations g nc) ->
                  GetErrorCode (GetRCItem m) = DRCE_NETCLASS_VIAANNULUS ->
                  ncViaAnnulus nc < m_ViasMinAnnulus g).
  { intros m Hm Hcode. unfold netclassViolations in Hm.
    apply in_flat_map in Hm. destruct Hm as [[[code floor] value] [Hc Hm]].
    destruct (value <? floor) eqn:Hlt; [| destruct Hm].
    destruct Hm as [<- | []]. cbn in Hcode. subst code.
    cbn in Hc.
    destruct Hc as [Hc | [Hc | [Hc | [Hc | [Hc | [Hc | [Hc | []]]]]]]];
      inversion Hc; subst floor value.
    apply Z.ltb_lt. exact Hlt. }
  assert (Hout : ncViaAnnulus nc < m_ViasMinAnnulus g ->
                 In (netclassMarker DRCE_NETCLASS_VIAANNULUS (m_ViasMinAnnulus g)
                       nc (ncViaAnnulus nc))
                    (netclassViolations g nc)).
  { intros Hlt. unfold netclassViolations. apply in_flat_map.
    exists (DRCE_NETCLASS_VIAANNULUS, m_ViasMinAnnulus g, ncViaAnnulus nc).
    split; [cbn; tauto |].
    apply Z.ltb_lt in Hlt. rewrite Hlt. left. reflexivity. }
  split; [| exact Hout].
  split.
  - intros [m [Hm Hcode]]. exact (Hin m Hm Hcode).
  - intros Hlt. eexists. split; [exact (Hout Hlt) | reflexivity].
Qed.

Lemma C9_witness :
  ncViaAnnulus (Samples.ncGood "Power") = 200000.
Proof.
  pose proof (C9_via_annulus_truncates (Samples.floors Samples.ignoreNothing)
                (Samples.ncGood "Power")) as H.
  destruct H as [H _]; [vm_compute; split; discriminate |].
  rewrite H. reflexivity.
Defined.

(** C9, the claim as written fails: with a drill one unit wider than the
    via the code computes an annulus of 0, the floor of the exact half is
    -1, and no annulus violation is raised against a board minimum of 0
    although the floor is below it. *)
Lemma C9_floor_counterexample :
  let nc := Samples.ncDrillWider in
  let g := Samples.floorsNoAnnulus in
  ncViaAnnulus nc = 0
  /\ (GetViaDiameter nc - GetViaDrill nc) / 2 = -1
  /\ (GetViaDiameter nc - GetViaDrill nc) / 2 < m_ViasMinAnnulus g
  /\ ~ (exists m, In m (snd (doNetClass g nc))
                  /\ GetErrorCode (GetRCItem m) = DRCE_NETCLASS_VIAANNULUS).
Proof.
  cbv zeta. split; [reflexivity |]. split; [reflexivity |].
  split; [reflexivity |].
  intros [m [Hm Hcode]]. vm_compute in Hm. exact Hm.
Qed.

(** ** The orchestrator *)

Lemma commitMarkers_filter g emitted ms :
  commitMarkers g emitted ms
  = ms ++ List.filter (fun m => negb (Ignore g (GetErrorCode (GetRCItem m)))) emitted.
Proof.
  unfold commitMarkers. revert ms.
  induction emitted as [| m rest IH]; intros ms; cbn [fold_left List.filter].
  - rewrite app_nil_r. reflexivity.
  - rewrite IH. unfold addMarkerToPcb.
    destruct (Ignore g (GetErrorCode (GetRCItem m))); cbn [negb].
    + reflexivity.
    + rewrite <- app_assoc. reflexivity.
Qed.

Lemma members_runChecker g ph emitted st :
  members (fst (runChecker g ph emitted st)) = members (fst st).
Proof. destruct st. reflexivity. Qed.

Lemma members_zoneFill st : members (fst (zoneFill st)) = members (fst st).
Proof. reflexivity. Qed.

Lemma members_when_runChecker c g ph emitted st :
  members (fst (when c (runChecker g ph emitted) st)) = members (fst st).
Proof. destruct c; [apply members_runChecker | reflexivity]. Qed.

Lemma markers_runChecker g ph emitted st :
  markers (fst st) `prefix_of` markers (fst (runChecker g ph emitted st)).
Proof.
  destruct st as [r log]. cbn. rewrite commitMarkers_filter.
  apply prefix_app_r. reflexivity.
Qed.

Lemma markers_when_runChecker c g ph emitted st :
  markers (fst st) `prefix_of` markers (fst (when c (runChecker g ph emitted) st)).
Proof. destruct c; [apply markers_runChecker | reflexivity]. Qed.

Lemma markers_testUnconnected c board st :
  markers (fst (when c (testUnconnected board) st)) = markers (fst st).
Proof. destruct c, st; reflexivity. Qed.

Lemma markers_runTestFootprints c board st :
  markers (fst (when c (runTestFootprints board) st)) = markers (fst st).
Proof. destruct c, st; reflexivity. Qed.

Lemma markers_clearFootprints st :
  markers (fst (clearFootprints st)) = markers (fst st).
Proof. destruct st; reflexivity. Qed.

Lemma markers_setDrcRun st : markers (fst (setDrcRun st)) = markers (fst st).
Proof. destruct st; reflexivity. Qed.

(** The part of [RunTests] after a net-class test that passed, from the
    state [st] reached so far. *)
Lemma RunTests_unfold opts board before :
  RunTests opts board before
  = let g := GetDesignSettings board in
    let nc := testNetClasses g (m_NetClasses board) in
    let st := runChecker g PhNetclasses (snd nc)
                (runChecker g PhOutline (testOutline board) (before, [])) in
    if negb (fst nc) then st
    else
      setDrcRun
        (when (negb (Ignore g DRCE_UNRESOLVED_VARIABLE))
           (runChecker g PhTextVars (testTextVars board))
        (when (negb (Ignore g DRCE_DISABLED_LAYER_ITEM))
           (runChecker g PhDisabledLayers (testDisabledLayers board))
        (when (m_testFootprints opts && negb (Kiface_IsSingle board))
           (runTestFootprints board)
        (clearFootprints
        (when (negb (Ignore g DRCE_OVERLAPPING_FOOTPRINTS)
               || negb (Ignore g DRCE_MISSING_COURTYARD)
               || negb (Ignore g DRCE_MALFORMED_COURTYARD)
               || negb (Ignore g DRCE_PTH_IN_COURTYARD)
               || negb (Ignore g DRCE_NPTH_IN_COURTYARD))
           (runChecker g PhCourtyards (doCourtyardsDrc board))
        (runChecker g PhCopperText (testCopperTextAndGraphics board)
        (when (m_doKeepoutTest opts)
           (runChecker g PhKeepout (testKeepoutAreas board))
        (when (m_doUnconnectedTest opts && negb (Ignore g DRCE_UNCONNECTED_ITEMS))
           (testUnconnected board)
        (runChecker g PhZones (testZones board)
        (runChecker g PhTracks (testTracks board)
        (zoneFill
        (runChecker g PhDrilledHoles (testDrilledHoles board)
        (when (m_doPad2PadTest opts)
           (runChecker g PhPad2Pad (testPad2Pad board)) st))))))))))))).
Proof. reflexivity. Qed.

Lemma members_eq r u f d t :
  members r = (u, f, d, t) ->
  m_unconnected r = u /\ m_footprints r = f /\ m_drcRun r = d /\ m_footprintsTested r = t.
Proof. unfold members. intros H. injection H as -> -> -> ->. tauto. Qed.

Lemma members_testUnconnected c board st :
  members (fst (when c (testUnconnected board) st))
  = let '(u, f, d, t) := members (fst st) in
    (if c then map (fun edge => mkItem DRCE_UNCONNECTED_ITEMS MsgDefault
                                       [fst edge; snd edge])
                   (GetUnconnectedEdges board)
     else u, f, d, t).
Proof. destruct c, st; reflexivity. Qed.

Lemma members_clearFootprints st :
  members (fst (clearFootprints st))
  = let '(u, f, d, t) := members (fst st) in (u, [], d, false).
Proof. destruct st; reflexivity. Qed.

Lemma members_runTestFootprints c board st :
  members (fst (when c (runTestFootprints board) st))
  = let '(u, f, d, t) := members (fst st) in
    (u,
     if c then f ++ Footprints.TestFootprints (GetDesignSettings board)
                      (FetchNetlistFromSchematic board) (Modules board)
     else f,
     d, if c then true else t).
Proof. destruct c, st; reflexivity. Qed.

Lemma members_setDrcRun st :
  members (fst (setDrcRun st))
  = let '(u, f, d, t) := members (fst st) in (u, f, true, t).
Proof. destruct st; reflexivity. Qed.

(** C6 (as amended): [RunTests] only appends to the board's markers.  When
    the net-class test fails, the unconnected list, the footprint list and
    both flags are left as the previous run set them.  When it passes, the
    footprint list is emptied and refilled by the footprint test if that
    test runs, [m_footprintsTested] tells whether it ran, the unconnected
    list is rebuilt from the current unconnected edges if the unconnected
    test runs and is left as it was otherwise, and [m_drcRun] is set. *)
Theorem C6_results_lifecycle
    (opts : DRC_OPTIONS) (board : BOARD) (before : DRC_RESULTS) :
  let g := GetDesignSettings board in
  let passed := fst (testNetClasses g (m_NetClasses board)) in
  let after := fst (RunTests opts board before) in
  let doUnconnected :=
    m_doUnconnectedTest opts && negb (Ignore g DRCE_UNCONNECTED_ITEMS) in
  let doFootprints := m_testFootprints opts && negb (Kiface_IsSingle board) in
  markers before `prefix_of` markers after
  /\ (passed = false -> members after = members before)
  /\ (passed = true ->
      m_unconnected after
      = (if doUnconnected
         then map (fun edge => mkItem DRCE_UNCONNECTED_ITEMS MsgDefault
                                      [fst edge; snd edge])
                  (GetUnconnectedEdges board)
         else m_unconnected before)
      /\ m_footprints after
         = (if doFootprints
            then Footprints.TestFootprints g (FetchNetlistFromSchematic board)
                                           (Modules board)
            else [])
      /\ m_drcRun after = true
      /\ m_footprintsTested after = doFootprints).
Proof.
  intros g passed after doUnconnected doFootprints.
  subst after. rewrite RunTests_unfold. cbv zeta. fold g. fold passed.
  split.
  { destruct passed; cbn [negb].
    - rewrite markers_setDrcRun.
      repeat first
        [ rewrite markers_runTestFootprints
        | rewrite markers_clearFootprints
        | rewrite markers_testUnconnected
        | (etrans; [| apply markers_when_runChecker])
        | (etrans; [| apply markers_runChecker]) ].
      reflexivity.
    - etrans; [| apply markers_runChecker].
      etrans; [| apply markers_runChecker]. reflexivity. }
  split.
  { intros Hp. rewrite Hp. cbn [negb].
    rewrite !members_runChecker. reflexivity. }
  intros Hp. rewrite Hp. cbn [negb].
  apply members_eq.
  rewrite members_setDrcRun.
  rewrite !members_when_runChecker.
  rewrite members_runTestFootprints, members_clearFootprints.
  rewrite members_when_runChecker, members_runChecker, members_when_runChecker.
  rewrite members_testUnconnected.
  rewrite !members_runChecker, members_zoneFill, members_runChecker.
  rewrite members_when_runChecker, !members_runChecker.
  fold doUnconnected. fold doFootprints. unfold members. cbn [fst].
  destruct doFootprints; reflexivity.
Qed.

Lemma C6_witness :
  m_unconnected
    (fst (RunTests Samples.allTests
            (Samples.board Samples.ignoreNothing (Samples.ncGood "Default")
                           [(30, 31)%nat])
            Samples.fresh))
  = [mkItem DRCE_UNCONNECTED_ITEMS MsgDefault [30; 31]%nat]
  /\ members
       (fst (RunTests Samples.allTests
               (Samples.board Samples.ignoreNothing Samples.ncLowClearance [])
               Samples.fresh))
     = members Samples.fresh.
Proof.
  split.
  - pose proof (C6_results_lifecycle Samples.allTests
                  (Samples.board Samples.ignoreNothing (Samples.ncGood "Default")
                                 [(30, 31)%nat])
                  Samples.fresh) as H.
    cbv zeta in H. destruct H as (_ & _ & H).
    destruct H as [H _]; [reflexivity |].
    rewrite H. reflexivity.
  - pose proof (C6_results_lifecycle Samples.allTests
                  (Samples.board Samples.ignoreNothing Samples.ncLowClearance [])
                  Samples.fresh) as H.
    cbv zeta in H. destruct H as (_ & H & _).
    apply H. reflexivity.
Defined.

(** C6, the claim as written fails.  A first run on a board with an
    unconnected edge and a footprint unknown to the netlist fills the
    collections; a second run, on the board with the edge connected but a
    net class below the floor, returns after the net classes: the
    unconnected item, the footprint item, both flags and the markers of the
    first run are all still there. *)
Lemma C6_stale_results_survive :
  let board1 := Samples.board Samples.ignoreNothing (Samples.ncGood "Default")
                              [(30, 31)%nat] in
  let board2 := Samples.board Samples.ignoreNothing Samples.ncLowClearance [] in
  let run1 := fst (RunTests Samples.allTests board1 Samples.fresh) in
  let run2 := fst (RunTests Samples.allTests board2 run1) in
  GetUnconnectedEdges board2 = []
  /\ m_unconnected run2 = [mkItem DRCE_UNCONNECTED_ITEMS MsgDefault [30; 31]%nat]
  /\ m_footprints run2 = [mkItem DRCE_EXTRA_FOOTPRINT MsgDefault [1%nat]]
  /\ m_drcRun run2 = true
  /\ m_footprintsTested run2 = true
  /\ markers run1 = [Samples.marker DRCE_PAD_NEAR_PAD [10; 11]%nat;
                     Samples.marker DRCE_DANGLING_TRACK [20%nat]]
  /\ markers run2
     = markers run1
         ++ [netclassMarker DRCE_NETCLASS_CLEARANCE 200000
               Samples.ncLowClearance 150000].
Proof. vm_compute. repeat split. Qed.

(** ** Zone-to-zone outlines *)

Section ZoneFacts.

Import Zones.

Variable GetClearanceBetweenSegments : SEG -> SEG -> Z -> Z * wxPoint.

Local Abbreviation recordConflict := (recordConflict GetClearanceBetweenSegments).
Local Abbreviation collectConflicts := (collectConflicts GetClearanceBetweenSegments).
Local Abbreviation observation := (observation GetClearanceBetweenSegments).
Local Abbreviation observations := (observations GetClearanceBetweenSegments).

(** The nested loops visit the segment pairs of [segmentPairs]. *)
Lemma collectConflicts_pairs (clearance : Z) refPoly testPoly :
  collectConflicts clearance refPoly testPoly
  = fold_left (fun acc segs => recordConflict clearance (fst segs) (snd segs) acc)
              (segmentPairs refPoly testPoly) ∅.
Proof.
  unfold Zones.collectConflicts, segmentPairs.
  generalize (∅ : gmap (Z * Z) Z).
  induction (IterateSegmentsWithHoles refPoly) as [| r rest IH]; intros m;
    cbn [fold_left flat_map].
  - reflexivity.
  - rewrite fold_left_app, IH. f_equal.
    generalize m. clear.
    induction (IterateSegmentsWithHoles testPoly) as [| t ts IHt]; intros m;
      cbn [fold_left map]; [reflexivity | apply IHt].
Qed.

(** What [conflictPoints] holds for a point after a run of the loop body
    over a list of segment pairs: the least separation below the clearance
    seen at that point, if there is one. *)
Lemma fold_recordConflict_lookup (clearance : Z) (pairs : list (SEG * SEG))
    (m : gmap (Z * Z) Z) (pt : Z * Z) :
  match fold_left (fun acc segs => recordConflict clearance (fst segs) (snd segs) acc)
                  pairs m !! pt with
  | Some d =>
      (m !! pt = Some d
       \/ (In (d, pt) (map (observation clearance) pairs) /\ d < clearance))
      /\ (forall d0, m !! pt = Some d0 -> d <= d0)
      /\ (forall d', In (d', pt) (map (observation clearance) pairs) ->
                     d' < clearance -> d <= d')
  | None =>
      m !! pt = None
      /\ (forall d', In (d', pt) (map (observation clearance) pairs) ->
                     ~ d' < clearance)
  end.
Proof.
  revert m. induction pairs as [| [r t] rest IH]; intros m; cbn [fold_left map].
  - destruct (m !! pt) as [d |] eqn:Hm.
    + split; [left; reflexivity |]. split.
      * intros d0 H0. injection H0 as <-. lia.
      * intros d' [].
    + split; [reflexivity | intros d' []].
  - specialize (IH (recordConflict clearance r t m)).
    cbn [fst snd] in *.
    set (m1 := recordConflict clearance r t m) in *.
    set (o := observation clearance (r, t)).
    assert (Hm1 : forall k,
              m1 !! k
              = if bool_decide (snd o = k) && (fst o <? clearance)
                then Some (match m !! k with
                           | Some old => Z.min old (fst o)
                           | None => fst o
                           end)
                else m !! k).
    { intros k. subst m1 o. unfold Zones.recordConflict, Zones.observation.
      cbn [fst snd].
      set (res := GetClearanceBetweenSegments t r clearance).
      destruct (fst res <? clearance) eqn:Hlt.
      - rewrite andb_true_r. case_bool_decide as Hk.
        + subst k. destruct (m !! (px (snd res), py (snd res)));
            apply lookup_insert_eq.
        + destruct (m !! (px (snd res), py (snd res)));
            apply lookup_insert_ne; exact Hk.
      - rewrite andb_false_r. reflexivity. }
    specialize (Hm1 pt). clearbody o m1.
    destruct (fold_left _ rest m1 !! pt) as [d |] eqn:Hfold.
    + destruct IH as (Hsrc & Hold & Hobs).
      destruct (bool_decide (snd o = pt) && (fst o <? clearance)) eqn:Hc.
      * apply andb_true_iff in Hc. destruct Hc as [Hk Hlt].
        apply bool_decide_eq_true in Hk. apply Z.ltb_lt in Hlt.
        assert (Ho : o = (fst o, pt)) by (rewrite <- Hk; destruct o; reflexivity).
        destruct (m !! pt) as [old |] eqn:Hm.
        -- specialize (Hold _ Hm1).
           split; [| split].
           ++ destruct Hsrc as [Hsrc | [Hin Hd]].
              ** rewrite Hm1 in Hsrc. injection Hsrc as Hd.
                 destruct (Z.min_spec old (fst o)) as [[_ Hmin] | [_ Hmin]].
                 --- left. f_equal. lia.
                 --- right. split; [left; rewrite Ho; f_equal; lia | lia].
              ** right. split; [right; exact Hin | exact Hd].
           ++ intros d0 H0. injection H0 as <-. lia.
           ++ intros d' [Hd' | Hd'] Hlt'.
              ** rewrite Ho in Hd'. injection Hd' as Hd'. lia.
              ** apply Hobs; assumption.
        -- specialize (Hold _ Hm1).
           split; [| split].
           ++ right. destruct Hsrc as [Hsrc | [Hin Hd]].
              ** rewrite Hm1 in Hsrc. injection Hsrc as Hd.
                 split; [left; rewrite Ho; f_equal; lia | lia].
              ** split; [right; exact Hin | exact Hd].
           ++ intros d0 H0. discriminate H0.
           ++ intros d' [Hd' | Hd'] Hlt'.
              ** rewrite Ho in Hd'. injection Hd' as Hd'. lia.
              ** apply Hobs; assumption.
      * rewrite Hm1 in Hsrc, Hold.
        split; [| split].
        -- destruct Hsrc as [Hsrc | [Hin Hd]];
             [left; exact Hsrc | right; split; [right; exact Hin | exact Hd]].
        -- exact Hold.
        -- intros d' [Hd' | Hd'] Hlt'; [| apply Hobs; assumption].
           exfalso. apply andb_false_iff in Hc.
           rewrite Hd' in Hc. cbn [fst snd] in Hc.
           destruct Hc as [Hc | Hc].
           ++ apply bool_decide_eq_false in Hc. apply Hc. reflexivity.
           ++ apply Z.ltb_ge in Hc. lia.
    + destruct IH as (Hnone & Hobs).
      rewrite Hm1 in Hnone.
      destruct (bool_decide (snd o = pt) && (fst o <? clearance)) eqn:Hc;
        [discriminate Hnone |].
      split; [exact Hnone |].
      intros d' [Hd' | Hd']; [| apply Hobs; assumption].
      intros Hlt'. apply andb_false_iff in Hc.
      rewrite Hd' in Hc. cbn [fst snd] in Hc.
      destruct Hc as [Hc | Hc].
      * apply bool_decide_eq_false in Hc. apply Hc. reflexivity.
      * apply Z.ltb_ge in Hc. lia.
Qed.

(** The entry of a point in [conflictPoints]: the least separation below the
    clearance among those observed at that point. *)
Lemma collectConflicts_lookup (clearance : Z) refPoly testPoly (pt : Z * Z) (d : Z) :
  collectConflicts clearance refPoly testPoly !! pt = Some d
  <-> (In (d, pt) (observations clearance refPoly testPoly)
       /\ d < clearance
       /\ forall d', In (d', pt) (observations clearance refPoly testPoly) ->
                     d' < clearance -> d <= d').
Proof.
  rewrite collectConflicts_pairs.
  pose proof (fold_recordConflict_lookup clearance
                (segmentPairs refPoly testPoly) ∅ pt) as H.
  fold (observations clearance refPoly testPoly) in H.
  destruct (fold_left _ _ _ !! pt) as [d1 |].
  - destruct H as ([H | [Hin Hlt]] & _ & Hmin);
      [rewrite lookup_empty in H; discriminate H |].
    split.
    + intros Heq. injection Heq as <-. tauto.
    + intros (Hin' & Hlt' & Hmin'). f_equal.
      specialize (Hmin _ Hin' Hlt'). specialize (Hmin' _ Hin Hlt). lia.
  - destruct H as [_ Hno]. split; [discriminate |].
    intros (Hin & Hlt & _). exfalso. exact (Hno _ Hin Hlt).
Qed.

Lemma In_conflictMarkers (source : string) (clearance : Z)
    (zoneRef zoneToTest : ZONE_CONTAINER) (m : gmap (Z * Z) Z) (x y d : Z) :
  m !! (x, y) = Some d ->
  In (conflictMarker source clearance zoneRef zoneToTest (x, y, d))
     (map (conflictMarker source clearance zoneRef zoneToTest) (map_to_list m)).
Proof.
  intros Hm. apply in_map. apply list_elem_of_In.
  apply elem_of_map_to_list. exact Hm.
Qed.

Lemma conflictMarker_pos source (clearance : Z) zoneRef zoneToTest c :
  GetPos (conflictMarker source clearance zoneRef zoneToTest c)
  = mkPoint (fst (fst c)) (snd (fst c)).
Proof. destruct c as [[x y] d]. reflexivity. Qed.

End ZoneFacts.

(** C4 (as amended): a candidate pair is passed over exactly when the two
    zones are the same zone, or lie on different layers, or have the same
    net code and that code is 0 or more, or have different priorities, or
    one is a keepout and the other is not; every other pair whose reference
    zone is on copper goes through the containment and separation tests. *)
Theorem C4_zone_pair_skip_conditions
    (GetClearance : Zones.ZONE_CONTAINER -> Zones.ZONE_CONTAINER -> Z * string)
    (Contains : Zones.SHAPE_POLY_SET -> wxPoint -> bool)
    (GetClearanceBetweenSegments : Zones.SEG -> Zones.SEG -> Z -> Z * wxPoint)
    (areas : list (Zones.ZONE_CONTAINER * Zones.SHAPE_POLY_SET)) :
  (forall zoneRef zoneToTest,
     Zones.pairSkipped zoneRef zoneToTest = true
     <-> (Zones.zoneId zoneRef = Zones.zoneId zoneToTest
          \/ Zones.GetLayer zoneRef <> Zones.GetLayer zoneToTest
          \/ (Zones.GetNetCode zoneRef = Zones.GetNetCode zoneToTest
              /\ 0 <= Zones.GetNetCode zoneRef)
          \/ Zones.GetPriority zoneRef <> Zones.GetPriority zoneToTest
          \/ Zones.GetIsKeepout zoneRef <> Zones.GetIsKeepout zoneToTest))
  /\ fst (Zones.TestZoneToZoneOutlines GetClearance Contains
            GetClearanceBetweenSegments areas)
     = flat_map
         (fun pair =>
            if Zones.IsOnCopperLayer (fst (fst pair))
               && negb (Zones.pairSkipped (fst (fst pair)) (fst (snd pair)))
            then Zones.examinePair GetClearance Contains
                   GetClearanceBetweenSegments
                   (snd (fst pair)) (snd (snd pair))
                   (fst (fst pair)) (fst (snd pair))
            else [])
         (Zones.zonePairs areas).
Proof.
  split.
  - intros zoneRef zoneToTest. unfold Zones.pairSkipped.
    case_bool_decide as Hid; [tauto |].
    destruct (Z.eqb_spec (Zones.GetLayer zoneRef) (Zones.GetLayer zoneToTest))
      as [Hl | Hl]; cbn [negb]; [| tauto].
    destruct (Z.eqb_spec (Zones.GetNetCode zoneRef) (Zones.GetNetCode zoneToTest))
      as [Hn | Hn]; cbn [andb].
    + destruct (Z.geb_spec (Zones.GetNetCode zoneRef) 0) as [Hge | Hlt].
      * split; [intros _ | reflexivity].
        right. right. left. split; [exact Hn | lia].
      * destruct (Z.eqb_spec (Zones.GetPriority zoneRef)
                             (Zones.GetPriority zoneToTest)) as [Hp | Hp];
          cbn [negb]; [| tauto].
        destruct (Zones.GetIsKeepout zoneRef), (Zones.GetIsKeepout zoneToTest);
          cbn;
          (split;
           [ intros H;
             first [ discriminate H
                   | right; right; right; right; discriminate ]
           | intros [H | [H | [[H1 H2] | [H | H]]]];
             first [ reflexivity
                   | exfalso; first [ contradiction | lia | congruence ] ] ]).
    + destruct (Z.eqb_spec (Zones.GetPriority zoneRef)
                           (Zones.GetPriority zoneToTest)) as [Hp | Hp];
        cbn [negb]; [| tauto].
      destruct (Zones.GetIsKeepout zoneRef), (Zones.GetIsKeepout zoneToTest);
          cbn;
          (split;
           [ intros H;
             first [ discriminate H
                   | right; right; right; right; discriminate ]
           | intros [H | [H | [[H1 H2] | [H | H]]]];
             first [ reflexivity
                   | exfalso; first [ contradiction | lia | congruence ] ] ]).
  - unfold Zones.TestZoneToZoneOutlines. cbn [fst].
    induction areas as [| zoneRef rest IH];
      cbn [Zones.outerLoop Zones.zonePairs flat_map]; [reflexivity |].
    rewrite flat_map_app, <- IH. f_equal.
    destruct (Zones.IsOnCopperLayer (fst zoneRef)) eqn:Hcu; cbn [negb].
    + clear IH. induction rest as [| zoneToTest rest IH];
        cbn [Zones.innerLoop map flat_map fst snd]; [reflexivity |].
      rewrite IH, Hcu. cbn [andb].
      destruct (Zones.pairSkipped (fst zoneRef) (fst zoneToTest)); reflexivity.
    + clear IH. induction rest as [| zoneToTest rest IH];
        cbn [map flat_map fst snd]; [reflexivity |].
      rewrite <- IH, Hcu. reflexivity.
Qed.

Lemma C4_witness :
  Zones.pairSkipped (Samples.zone 1%nat 1 false) (Samples.zone 2%nat 1 false) = true.
Proof.
  apply (proj1 (C4_zone_pair_skip_conditions Samples.zoneClearance
                  Samples.containsNone Samples.verticalDistance [])).
  right. right. left. split; [reflexivity | cbn; lia].
Defined.

(** C4, the claim as written fails: two distinct zones of net code 0 on one
    layer, with the same priority and both not keepouts, meet none of the
    conditions of the claim (their net is not greater than 0), yet the pair
    is passed over and nothing is reported for it, although the outlines
    coincide. *)
Lemma C4_same_net_zero_skipped :
  let zoneRef := Samples.zone 1%nat 0 false in
  let zoneToTest := Samples.zone 2%nat 0 false in
  ~ (Zones.zoneId zoneRef = Zones.zoneId zoneToTest
     \/ Zones.GetLayer zoneRef <> Zones.GetLayer zoneToTest
     \/ (Zones.GetNetCode zoneRef = Zones.GetNetCode zoneToTest
         /\ 0 < Zones.GetNetCode zoneRef)
     \/ Zones.GetPriority zoneRef <> Zones.GetPriority zoneToTest
     \/ Zones.GetIsKeepout zoneRef <> Zones.GetIsKeepout zoneToTest)
  /\ Zones.pairSkipped zoneRef zoneToTest = true
  /\ Zones.TestZoneToZoneOutlines Samples.zoneClearance Samples.containsNone
       Samples.verticalDistance
       [(zoneRef, Samples.outlineAt 0); (zoneToTest, Samples.outlineAt 0)]
     = ([], 0)
  /\ Zones.examinePair Samples.zoneClearance Samples.containsNone
       Samples.verticalDistance (Samples.outlineAt 0) (Samples.outlineAt 0)
       zoneRef zoneToTest
     <> [].
Proof.
  cbv zeta. split.
  - cbn. intros [H | [H | [[_ H] | [H | H]]]];
      try discriminate H; try lia; try (apply H; reflexivity).
  - split; [reflexivity |]. split; [reflexivity |].
    vm_compute. discriminate.
Qed.

(** The markers of the whole test, pair by pair: each area with every area
    after it, the pair being examined when the first is on copper and the
    five tests let it through. *)
Lemma TestZoneToZoneOutlines_by_pairs
    (GetClearance : Zones.ZONE_CONTAINER -> Zones.ZONE_CONTAINER -> Z * string)
    (Contains : Zones.SHAPE_POLY_SET -> wxPoint -> bool)
    (GetClearanceBetweenSegments : Zones.SEG -> Zones.SEG -> Z -> Z * wxPoint)
    (areas : list (Zones.ZONE_CONTAINER * Zones.SHAPE_POLY_SET)) :
  fst (Zones.TestZoneToZoneOutlines GetClearance Contains
         GetClearanceBetweenSegments areas)
  = flat_map
      (fun pair =>
         if Zones.IsOnCopperLayer (fst (fst pair))
            && negb (Zones.pairSkipped (fst (fst pair)) (fst (snd pair)))
         then Zones.examinePair GetClearance Contains
                GetClearanceBetweenSegments
                (snd (fst pair)) (snd (snd pair))
                (fst (fst pair)) (fst (snd pair))
         else [])
      (Zones.zonePairs areas).
Proof.
  unfold Zones.TestZoneToZoneOutlines. cbn [fst].
  induction areas as [| zoneRef rest IH];
    cbn [Zones.outerLoop Zones.zonePairs flat_map]; [reflexivity |].
  rewrite flat_map_app, <- IH. f_equal.
  destruct (Zones.IsOnCopperLayer (fst zoneRef)) eqn:Hcu; cbn [negb].
  - clear IH. induction rest as [| zoneToTest rest IH];
      cbn [Zones.innerLoop map flat_map fst snd]; [reflexivity |].
    rewrite IH, Hcu. cbn [andb].
    destruct (Zones.pairSkipped (fst zoneRef) (fst zoneToTest)); reflexivity.
  - clear IH. induction rest as [| zoneToTest rest IH];
      cbn [map flat_map fst snd]; [reflexivity |].
    rewrite <- IH, Hcu. reflexivity.
Qed.

Lemma zonePairs_later
    (pre mid post : list (Zones.ZONE_CONTAINER * Zones.SHAPE_POLY_SET))
    (a b : Zones.ZONE_CONTAINER * Zones.SHAPE_POLY_SET) :
  In (a, b) (Zones.zonePairs (pre ++ a :: mid ++ b :: post)).
Proof.
  induction pre as [| c pre IH]; cbn [app Zones.zonePairs].
  - apply in_or_app. left. apply in_map. apply in_or_app. right. left. reflexivity.
  - apply in_or_app. right. exact IH.
Qed.

(** What is done for a pair that is examined reaches the board: the markers
    of the pair are among those the whole test hands over. *)
Lemma examinePair_handed_over
    (GetClearance : Zones.ZONE_CONTAINER -> Zones.ZONE_CONTAINER -> Z * string)
    (Contains : Zones.SHAPE_POLY_SET -> wxPoint -> bool)
    (GetClearanceBetweenSegments : Zones.SEG -> Zones.SEG -> Z -> Z * wxPoint)
    (pre mid post : list (Zones.ZONE_CONTAINER * Zones.SHAPE_POLY_SET))
    (refPoly testPoly : Zones.SHAPE_POLY_SET)
    (zoneRef zoneToTest : Zones.ZONE_CONTAINER) (m : MARKER_PCB) :
  Zones.IsOnCopperLayer zoneRef = true ->
  Zones.pairSkipped zoneRef zoneToTest = false ->
  In m (Zones.examinePair GetClearance Contains GetClearanceBetweenSegments
          refPoly testPoly zoneRef zoneToTest) ->
  In m (fst (Zones.TestZoneToZoneOutlines GetClearance Contains
               GetClearanceBetweenSegments
               (pre ++ (zoneRef, refPoly) :: mid ++ (zoneToTest, testPoly) :: post))).
Proof.
  intros Hcu Hkept Hm. rewrite TestZoneToZoneOutlines_by_pairs.
  apply in_flat_map.
  exists ((zoneRef, refPoly), (zoneToTest, testPoly)).
  split; [apply zonePairs_later |].
  cbn [fst snd]. rewrite Hcu, Hkept. exact Hm.
Qed.

(** C3: for a pair of zones of the board that is examined (the reference
    zone comes first, is on copper, and the pair passes the five tests), the
    conflict points of the segment test are keyed by witness point and each
    holds the least separation below the clearance observed at that point;
    every conflict point yields exactly one marker, at that point, and that
    marker is among those [TestZoneToZoneOutlines] hands over; a separation
    of zero (or less) is reported as an intersection, and a positive
    separation (below the clearance) as a too-close violation whose message
    carries the clearance source, the clearance and the measured
    separation. *)
Theorem C3_zone_conflict_points
    (GetClearance : Zones.ZONE_CONTAINER -> Zones.ZONE_CONTAINER -> Z * string)
    (Contains : Zones.SHAPE_POLY_SET -> wxPoint -> bool)
    (GetClearanceBetweenSegments : Zones.SEG -> Zones.SEG -> Z -> Z * wxPoint)
    (pre mid post : list (Zones.ZONE_CONTAINER * Zones.SHAPE_POLY_SET))
    (refPoly testPoly : Zones.SHAPE_POLY_SET)
    (zoneRef zoneToTest : Zones.ZONE_CONTAINER) :
  Zones.IsOnCopperLayer zoneRef = true ->
  Zones.pairSkipped zoneRef zoneToTest = false ->
  let areas := pre ++ (zoneRef, refPoly) :: mid ++ (zoneToTest, testPoly) :: post in
  let handedOver := fst (Zones.TestZoneToZoneOutlines GetClearance Contains
                           GetClearanceBetweenSegments areas) in
  let clearance := Zones.zone2zoneClearance GetClearance zoneRef zoneToTest in
  let source := snd (GetClearance zoneRef zoneToTest) in
  let seen := Zones.observations GetClearanceBetweenSegments clearance
                refPoly testPoly in
  let conflictPoints := Zones.collectConflicts GetClearanceBetweenSegments
                          clearance refPoly testPoly in
  let reported := Zones.conflictMarkers GetClearance GetClearanceBetweenSegments
                    refPoly testPoly zoneRef zoneToTest in
  let both := [Zones.zoneId zoneRef; Zones.zoneId zoneToTest] in
  (forall x y d,
     conflictPoints !! (x, y) = Some d
     <-> (In (d, (x, y)) seen /\ d < clearance
          /\ forall d', In (d', (x, y)) seen -> d' < clearance -> d <= d'))
  /\ NoDup (map GetPos reported)
  /\ length reported = size conflictPoints
  /\ (forall m, In m reported ->
        In m handedOver
        /\ In m (Zones.examinePair GetClearance Contains GetClearanceBetweenSegments
                   refPoly testPoly zoneRef zoneToTest)
        /\ exists x y d, conflictPoints !! (x, y) = Some d
                         /\ GetPos m = mkPoint x y)
  /\ (forall x y d,
        conflictPoints !! (x, y) = Some d -> d <= 0 ->
        In (mkMarker (mkItem DRCE_ZONES_INTERSECT MsgDefault both) (mkPoint x y))
           reported
        /\ In (mkMarker (mkItem DRCE_ZONES_INTERSECT MsgDefault both) (mkPoint x y))
              handedOver)
  /\ (forall x y d,
        conflictPoints !! (x, y) = Some d -> 0 < d ->
        d < clearance
        /\ In (mkMarker (mkItem DRCE_ZONES_TOO_CLOSE
                                (MsgClearance source clearance d) both)
                        (mkPoint x y))
              reported
        /\ In (mkMarker (mkItem DRCE_ZONES_TOO_CLOSE
                                (MsgClearance source clearance d) both)
                        (mkPoint x y))
              handedOver).
Proof.
  intros Hcu Hkept areas handedOver clearance source seen conflictPoints
         reported both.
  assert (Hlookup := fun x y d =>
            collectConflicts_lookup GetClearanceBetweenSegments clearance
              refPoly testPoly (x, y) d).
  fold seen in Hlookup. fold conflictPoints in Hlookup.
  assert (Hrep : reported
                 = map (Zones.conflictMarker source clearance zoneRef zoneToTest)
                       (map_to_list conflictPoints)) by reflexivity.
  assert (Hpair : forall m, In m reported ->
            In m (Zones.examinePair GetClearance Contains
                    GetClearanceBetweenSegments refPoly testPoly zoneRef zoneToTest)).
  { intros m Hm. unfold Zones.examinePair. apply in_or_app. right.
    apply in_or_app. right. exact Hm. }
  assert (Hover : forall m, In m reported -> In m handedOver).
  { intros m Hm.
    apply (examinePair_handed_over GetClearance Contains
             GetClearanceBetweenSegments pre mid post refPoly testPoly
             zoneRef zoneToTest m Hcu Hkept (Hpair m Hm)). }
  split; [exact Hlookup |].
  split.
  { rewrite Hrep, map_map.
    assert (Hpos : map (fun c => GetPos (Zones.conflictMarker source clearance
                                            zoneRef zoneToTest c))
                       (map_to_list conflictPoints)
                   = (fun k : Z * Z => mkPoint (fst k) (snd k))
                       <$> (map_to_list conflictPoints).*1).
    { rewrite <- list_fmap_compose. apply map_ext. intros c.
      apply conflictMarker_pos. }
    rewrite Hpos. apply NoDup_fmap_2.
    - intros [x1 y1] [x2 y2] Heq. cbn in Heq. injection Heq as -> ->. reflexivity.
    - apply NoDup_fst_map_to_list. }
  split.
  { rewrite Hrep, length_map. apply length_map_to_list. }
  split.
  { intros m Hm. split; [exact (Hover m Hm) |]. split; [exact (Hpair m Hm) |].
    rewrite Hrep in Hm. apply in_map_iff in Hm.
    destruct Hm as [[[x y] d] [<- Hin]].
    exists x, y, d. split; [| reflexivity].
    apply list_elem_of_In in Hin. apply elem_of_map_to_list in Hin. exact Hin. }
  split.
  { intros x y d Hd Hz.
    assert (Hin : In (mkMarker (mkItem DRCE_ZONES_INTERSECT MsgDefault both)
                               (mkPoint x y)) reported).
    { rewrite Hrep.
      pose proof (In_conflictMarkers source clearance zoneRef zoneToTest
                    conflictPoints x y d Hd) as Hin.
      unfold Zones.conflictMarker in Hin.
      destruct (Z.leb_spec d 0) as [_ | Hgt]; [exact Hin | lia]. }
    split; [exact Hin | exact (Hover _ Hin)]. }
  intros x y d Hd Hpos.
  split; [apply (Hlookup x y d), Hd |].
  assert (Hin : In (mkMarker (mkItem DRCE_ZONES_TOO_CLOSE
                                     (MsgClearance source clearance d) both)
                             (mkPoint x y)) reported).
  { rewrite Hrep.
    pose proof (In_conflictMarkers source clearance zoneRef zoneToTest
                  conflictPoints x y d Hd) as Hin.
    unfold Zones.conflictMarker in Hin.
    destruct (Z.leb_spec d 0) as [Hle | _]; [lia |]. exact Hin. }
  split; [exact Hin | exact (Hover _ Hin)].
Qed.

(** Two zones of different nets whose outlines run 0.1 mm apart under a
    clearance of 0.2 mm: the test of the board hands over a too-close
    violation with the separation measured. *)
Lemma C3_witness :
  In (mkMarker (mkItem DRCE_ZONES_TOO_CLOSE
                       (MsgClearance "board minimum" 200000 100000) [1; 2]%nat)
               (mkPoint 0 100000))
     (fst (Zones.TestZoneToZoneOutlines Samples.zoneClearance Samples.containsNone
             Samples.verticalDistance
             [(Samples.zone 1%nat 1 false, Samples.outlineAt 0);
              (Samples.zone 2%nat 2 false, Samples.outlineAt 100000)])).
Proof.
  pose proof (C3_zone_conflict_points Samples.zoneClearance Samples.containsNone
                Samples.verticalDistance [] [] [] (Samples.outlineAt 0)
                (Samples.outlineAt 100000)
                (Samples.zone 1%nat 1 false) (Samples.zone 2%nat 2 false)
                eq_refl eq_refl) as H.
  cbv zeta in H.
  destruct H as (_ & _ & _ & _ & _ & H).
  apply (H 0 100000 100000); [vm_compute; reflexivity | lia].
Defined.

(** C10: when the reference zone of a pair is a keepout, the segment test
    runs with a clearance of 1 whatever clearance the zones resolve to;
    every conflict point then has a separation of 0 or less (of 0 exactly,
    the segment test returning no negative distance), and every marker of
    the pair is an intersection: no too-close violation is raised. *)
Theorem C10_keepout_pairs_report_intersections_only
    (GetClearance : Zones.ZONE_CONTAINER -> Zones.ZONE_CONTAINER -> Z * string)
    (Contains : Zones.SHAPE_POLY_SET -> wxPoint -> bool)
    (GetClearanceBetweenSegments : Zones.SEG -> Zones.SEG -> Z -> Z * wxPoint)
    (refPoly testPoly : Zones.SHAPE_POLY_SET)
    (zoneRef zoneToTest : Zones.ZONE_CONTAINER) :
  Zones.GetIsKeepout zoneRef = true ->
  let clearance := Zones.zone2zoneClearance GetClearance zoneRef zoneToTest in
  let conflictPoints := Zones.collectConflicts GetClearanceBetweenSegments
                          clearance refPoly testPoly in
  clearance = 1
  /\ (forall x y d,
        conflictPoints !! (x, y) = Some d ->
        d <= 0
        /\ ((forall s1 s2 max_cl, 0 <= fst (GetClearanceBetweenSegments s1 s2 max_cl))
            -> d = 0))
  /\ (forall m,
        In m (Zones.examinePair GetClearance Contains GetClearanceBetweenSegments
                refPoly testPoly zoneRef zoneToTest) ->
        GetErrorCode (GetRCItem m) = DRCE_ZONES_INTERSECT).
Proof.
  intros Hkeepout clearance conflictPoints.
  assert (Hcl : clearance = 1).
  { unfold clearance, Zones.zone2zoneClearance. rewrite Hkeepout. reflexivity. }
  assert (Hpts : forall x y d, conflictPoints !! (x, y) = Some d ->
                   d <= 0 /\ In (d, (x, y))
                               (Zones.observations GetClearanceBetweenSegments
                                  clearance refPoly testPoly)).
  { intros x y d Hd.
    apply (collectConflicts_lookup GetClearanceBetweenSegments clearance
             refPoly testPoly (x, y) d) in Hd.
    destruct Hd as (Hin & Hlt & _). split; [lia | exact Hin]. }
  split; [exact Hcl |].
  split.
  { intros x y d Hd. destruct (Hpts x y d Hd) as [Hle Hin].
    split; [exact Hle |].
    intros Hnonneg. unfold Zones.observations in Hin.
    apply in_map_iff in Hin. destruct Hin as [[r t] [Hobs _]].
    unfold Zones.observation in Hobs. injection Hobs as Hobs _.
    specialize (Hnonneg t r clearance). cbn [fst snd] in Hobs. lia. }
  intros m Hm. unfold Zones.examinePair in Hm.
  apply in_app_or in Hm. destruct Hm as [Hm | Hm].
  { unfold Zones.cornersInside in Hm. apply in_map_iff in Hm.
    destruct Hm as [v [<- _]]. reflexivity. }
  apply in_app_or in Hm. destruct Hm as [Hm | Hm].
  { unfold Zones.cornersInside in Hm. apply in_map_iff in Hm.
    destruct Hm as [v [<- _]]. reflexivity. }
  unfold Zones.conflictMarkers in Hm. apply in_map_iff in Hm.
  destruct Hm as [[[x y] d] [<- Hin]].
  apply list_elem_of_In in Hin. apply elem_of_map_to_list in Hin.
  fold clearance in Hin. fold conflictPoints in Hin.
  destruct (Hpts x y d Hin) as [Hle _].
  unfold Zones.conflictMarker.
  destruct (Z.leb_spec d 0) as [_ | Hgt]; [reflexivity | lia].
Qed.

(** Two keepouts whose outlines run 0.1 mm apart: far below the 0.2 mm the
    zones resolve to, yet nothing is reported as too close. *)
Lemma C10_witness :
  Zones.zone2zoneClearance Samples.zoneClearance
    (Samples.zone 1%nat 1 true) (Samples.zone 2%nat 2 true) = 1
  /\ Zones.examinePair Samples.zoneClearance Samples.containsNone
       Samples.verticalDistance (Samples.outlineAt 0) (Samples.outlineAt 100000)
       (Samples.zone 1%nat 1 true) (Samples.zone 2%nat 2 true) = [].
Proof.
  split.
  - apply (C10_keepout_pairs_report_intersections_only Samples.zoneClearance
             Samples.containsNone Samples.verticalDistance
             (Samples.outlineAt 0) (Samples.outlineAt 100000)
             (Samples.zone 1%nat 1 true) (Samples.zone 2%nat 2 true)).
    reflexivity.
  - vm_compute. reflexivity.
Defined.

(** ** Pad-to-pad clearances *)

Section PadFacts.

Import Pads.

Variable all_cu : Z.
Variable newDummyPad : D_PAD.
Variable boundingRadiusOf : PAD_SHAPE_T -> wxSize -> Z.
Variable checkClearancePadToPad : D_PAD -> D_PAD -> Z -> bool * Z.

Local Abbreviation scanStep :=
  (scanStep all_cu newDummyPad boundingRadiusOf checkClearancePadToPad).
Local Abbreviation doPadToPadsDrc :=
  (doPadToPadsDrc all_cu newDummyPad boundingRadiusOf checkClearancePadToPad).


(** A scan that returns false stopped at one candidate, the first that does
    not say [continue], and handed over the marker of that candidate. *)
Lemma doPadToPadsDrc_false aRefPad (pad_list : list D_PAD) (x_limit : Z) :
  fst (doPadToPadsDrc aRefPad pad_list x_limit) = false ->
  exists before pad after m,
    pad_list = before ++ pad :: after
    /\ (forall p, In p before -> scanStep aRefPad x_limit p = Continue)
    /\ scanStep aRefPad x_limit pad = ReturnFalse m
    /\ snd (doPadToPadsDrc aRefPad pad_list x_limit) = [m].
Proof.
  induction pad_list as [| pad rest IH]; cbn [Pads.doPadToPadsDrc fst snd].
  - discriminate.
  - destruct (scanStep aRefPad x_limit pad) as [| | m] eqn:Hstep;
      cbn [fst snd].
    + intros Hf. destruct (IH Hf) as (before & q & after & m & -> & Hall & Hq & Hm).
      exists (pad :: before), q, after, m.
      split; [reflexivity |]. split; [| split; assumption].
      intros p [<- | Hp]; [exact Hstep | apply Hall, Hp].
    + discriminate.
    + intros _. exists [], pad, rest, m.
      split; [reflexivity |]. split; [intros p [] |]. split; [exact Hstep | reflexivity].
Qed.

Lemma doPadToPadsDrc_count aRefPad (pad_list : list D_PAD) (x_limit : Z) :
  (fst (doPadToPadsDrc aRefPad pad_list x_limit) = true
   /\ snd (doPadToPadsDrc aRefPad pad_list x_limit) = [])
  \/ (fst (doPadToPadsDrc aRefPad pad_list x_limit) = false
      /\ length (snd (doPadToPadsDrc aRefPad pad_list x_limit)) = 1%nat).
Proof.
  induction pad_list as [| pad rest IH]; cbn [Pads.doPadToPadsDrc].
  - left. split; reflexivity.
  - destruct (scanStep aRefPad x_limit pad); [exact IH | |].
    + left. split; reflexivity.
    + right. split; reflexivity.
Qed.

End PadFacts.

(** *** Which candidates a scan reports

    The tests of the loop body, read as conditions on the two pads and on
    the answers of [checkClearancePadToPad]. *)

Section PadSteps.

Import Pads.

Variable all_cu : Z.
Variable newDummyPad : D_PAD.
Variable boundingRadiusOf : PAD_SHAPE_T -> wxSize -> Z.
Variable checkClearancePadToPad : D_PAD -> D_PAD -> Z -> bool * Z.





End PadSteps.



(** *** What the early exit may skip

    For the tests made with the clearance of the reference pad the limit
    is a valid one, given what the design says of the clearance primitive:
    pads whose centres are farther apart than the clearance plus their two
    bounding radii respect the clearance. *)

Section EarlyExit.

Import Pads.

Variable all_cu : Z.
Variable newDummyPad : D_PAD.
Variable boundingRadiusOf : PAD_SHAPE_T -> wxSize -> Z.
Variable checkClearancePadToPad : D_PAD -> D_PAD -> Z -> bool * Z.

Hypothesis far_pads_clear :
  forall (a b : D_PAD) (minClearance : Z),
    0 <= minClearance + GetBoundingRadius a + GetBoundingRadius b ->
    (minClearance + GetBoundingRadius a + GetBoundingRadius b)
    * (minClearance + GetBoundingRadius a + GetBoundingRadius b)
    < centreDistance2 a b ->
    fst (checkClearancePadToPad a b minClearance) = true.

Local Abbreviation candidateTests :=
  (candidateTests all_cu newDummyPad boundingRadiusOf checkClearancePadToPad).
Local Abbreviation doPadToPadsDrc :=
  (doPadToPadsDrc all_cu newDummyPad boundingRadiusOf checkClearancePadToPad).
Local Abbreviation fullScan :=
  (fullScan all_cu newDummyPad boundingRadiusOf checkClearancePadToPad).

Lemma holeTests_not_Break aRefPad pad :
  holeTests all_cu newDummyPad boundingRadiusOf checkClearancePadToPad aRefPad pad
  <> Break.
Proof.
  unfold holeTests.
  repeat match goal with
         | |- context [if ?c then _ else _] => destruct c
         end; discriminate.
Qed.

Lemma candidateTests_not_Break aRefPad pad : candidateTests aRefPad pad <> Break.
Proof.
  unfold Pads.candidateTests.
  destruct (onDisjointCopper all_cu aRefPad pad); [apply holeTests_not_Break |].
  repeat match goal with
         | |- context [if ?c then _ else _] => destruct c
         end; discriminate.
Qed.

(** A candidate beyond the limit of the reference pad that shares a copper
    layer with it, or has none, passes the tests of the loop body. *)
Lemma copper_test_passes_beyond_limit (max_size : Z) (aRefPad pad : D_PAD) :
  0 <= GetClearance aRefPad -> 0 <= GetBoundingRadius aRefPad ->
  0 <= GetBoundingRadius pad <= max_size ->
  Int32.in_range (GetClearance aRefPad + GetBoundingRadius aRefPad) ->
  Int32.in_range (GetClearance aRefPad + GetBoundingRadius aRefPad
                  + px (GetPosition aRefPad)) ->
  Int32.in_range (max_size + (GetClearance aRefPad + GetBoundingRadius aRefPad
                              + px (GetPosition aRefPad))) ->
  px (GetPosition pad) > xLimit max_size aRefPad ->
  onDisjointCopper all_cu aRefPad pad = false ->
  candidateTests aRefPad pad = Continue.
Proof.
  intros Hcl Hr Hrp H1 H2 H3 Hbeyond Hshared.
  unfold xLimit, Int32.add in Hbeyond.
  rewrite (wrap_in_range _ H1), (wrap_in_range _ H2), (wrap_in_range _ H3)
    in Hbeyond.
  unfold Pads.candidateTests. rewrite Hshared.
  repeat match goal with
         | |- (if ?c then Continue else _) = Continue =>
             destruct c; [reflexivity |]
         end.
  cbv zeta. rewrite far_pads_clear; [reflexivity | lia |].
  unfold centreDistance2.
  set (reach := GetClearance aRefPad + GetBoundingRadius aRefPad
                + GetBoundingRadius pad).
  set (dx := px (GetPosition pad) - px (GetPosition aRefPad)).
  assert (Hreach : 0 <= reach < dx) by (unfold reach, dx; lia).
  pose proof (Z.square_nonneg (py (GetPosition pad) - py (GetPosition aRefPad))).
  assert (reach * reach < dx * dx) by (apply Z.mul_lt_mono_nonneg; lia).
  lia.
Qed.

Lemma fullScan_all_continue aRefPad (pads : list D_PAD) :
  (forall p, In p pads -> candidateTests aRefPad p = Continue) ->
  fullScan aRefPad pads = (true, []).
Proof.
  induction pads as [| p rest IH]; intros Hall; cbn [Pads.fullScan].
  - reflexivity.
  - rewrite (Hall p) by (left; reflexivity).
    rewrite IH by (intros q Hq; apply Hall; right; exact Hq).
    destruct (bool_decide (padRef p = padRef aRefPad)); reflexivity.
Qed.

(** On a list sorted by x, stopping at the first candidate beyond the limit
    gives the result of the scan of all candidates, as long as the
    candidates beyond the limit pass the tests. *)
Lemma early_exit_agrees aRefPad (pads : list D_PAD) (x_limit : Z) :
  sortedByX pads ->
  (forall p, In p pads -> px (GetPosition p) > x_limit ->
             candidateTests aRefPad p = Continue) ->
  doPadToPadsDrc aRefPad pads x_limit = fullScan aRefPad pads.
Proof.
  unfold sortedByX.
  induction pads as [| p rest IH]; intros Hsorted Hpass;
    cbn [Pads.doPadToPadsDrc Pads.fullScan].
  - reflexivity.
  - apply StronglySorted_inv in Hsorted. destruct Hsorted as [Hrest Hp].
    assert (IH' := IH Hrest (fun q Hq => Hpass q (or_intror Hq))).
    unfold Pads.scanStep.
    destruct (bool_decide (padRef p = padRef aRefPad)); [exact IH' |].
    destruct (Z.gtb_spec (px (GetPosition p)) x_limit) as [Hgt | Hle].
    + rewrite (Hpass p) by (try left; try reflexivity; lia).
      symmetry. apply fullScan_all_continue.
      intros q Hq. apply Hpass; [right; exact Hq |].
      rewrite List.Forall_forall in Hp. specialize (Hp q Hq). lia.
    + destruct (candidateTests aRefPad p) eqn:Hstep.
      * exact IH'.
      * exfalso. exact (candidateTests_not_Break aRefPad p Hstep).
      * reflexivity.
Qed.

(** The limit of [testPad2Pad] is valid for a reference pad that shares a
    copper layer with each of its candidates. *)
Lemma early_exit_sound_on_shared_copper (sortedPads pads : list D_PAD)
    (aRefPad : D_PAD) :
  let max_size := maxBoundingRadius sortedPads in
  sortedByX pads ->
  0 <= GetClearance aRefPad -> 0 <= GetBoundingRadius aRefPad ->
  Int32.in_range (GetClearance aRefPad + GetBoundingRadius aRefPad) ->
  Int32.in_range (GetClearance aRefPad + GetBoundingRadius aRefPad
                  + px (GetPosition aRefPad)) ->
  Int32.in_range (max_size + (GetClearance aRefPad + GetBoundingRadius aRefPad
                              + px (GetPosition aRefPad))) ->
  (forall p, In p pads ->
             0 <= GetBoundingRadius p <= max_size
             /\ onDisjointCopper all_cu aRefPad p = false) ->
  doPadToPadsDrc aRefPad pads (xLimit max_size aRefPad) = fullScan aRefPad pads.
Proof.
  intros max_size Hsorted Hcl Hr H1 H2 H3 Hpads.
  apply early_exit_agrees; [exact Hsorted |].
  intros p Hp Hbeyond. destruct (Hpads p Hp) as [Hrad Hshared].
  apply (copper_test_passes_beyond_limit max_size); assumption.
Qed.

End EarlyExit.

(** C2, on the pads [padWithHole] and [padFarRight]: the second pad lies
    beyond the x limit of the first, so the scan of the first pad stops
    before it and [testPad2Pad] reports nothing; the scan without the early
    exit tests the hole of the first pad against the second pad with the
    second pad's clearance, and reports it as soon as the clearance
    primitive finds that pair too close. *)
Theorem C2_early_exit_skips_hole_violation
    (checkClearancePadToPad : Pads.D_PAD -> Pads.D_PAD -> Z -> bool * Z) :
  let R := Samples.padWithHole in
  let P := Samples.padFarRight in
  let sortedPads := [R; P] in
  let hole := Pads.holeAsPad Samples.all_cu Samples.newDummyPad
                Samples.boundingRadiusOf R in
  let x_limit := Pads.xLimit (Pads.maxBoundingRadius sortedPads) R in
  fst (checkClearancePadToPad P hole (Pads.GetClearance P)) = false ->
  x_limit = 2200000
  /\ px (Pads.GetPosition P) = 2300000
  /\ Pads.doPadToPadsDrc Samples.all_cu Samples.newDummyPad
       Samples.boundingRadiusOf checkClearancePadToPad R sortedPads x_limit
     = (true, [])
  /\ Pads.testPad2Pad Samples.all_cu Samples.newDummyPad
       Samples.boundingRadiusOf checkClearancePadToPad sortedPads
     = []
  /\ Pads.fullScan Samples.all_cu Samples.newDummyPad
       Samples.boundingRadiusOf checkClearancePadToPad R sortedPads
     = (false,
        [Pads.clearanceMarker DRCE_HOLE_NEAR_PAD (Pads.GetClearanceSource P)
           (Pads.GetClearance P)
           (snd (checkClearancePadToPad P hole (Pads.GetClearance P)))
           R P (Pads.GetPosition R)]).
Proof.
  intros R P sortedPads hole x_limit Hclose.
  assert (Hlimit : x_limit = 2200000) by reflexivity.
  split; [exact Hlimit |]. split; [reflexivity |].
  split; [| split].
  - reflexivity.
  - reflexivity.
  - unfold sortedPads, Pads.fullScan.
    change (bool_decide (Pads.padRef R = Pads.padRef R)) with true.
    change (bool_decide (Pads.padRef P = Pads.padRef R)) with false.
    cbv iota.
    change (Pads.candidateTests Samples.all_cu Samples.newDummyPad
              Samples.boundingRadiusOf checkClearancePadToPad R P)
      with (if negb (fst (checkClearancePadToPad P hole (Pads.GetClearance P)))
            then Pads.ReturnFalse
                   (Pads.clearanceMarker DRCE_HOLE_NEAR_PAD
                      (Pads.GetClearanceSource P) (Pads.GetClearance P)
                      (snd (checkClearancePadToPad P hole (Pads.GetClearance P)))
                      R P (Pads.GetPosition R))
            else Pads.Continue).
    rewrite Hclose. reflexivity.
Qed.

(** The pair is too close for round shapes: 1.3 mm between the hole and the
    pad, where the pad asks for 2 mm. *)
Lemma C2_witness :
  Pads.testPad2Pad Samples.all_cu Samples.newDummyPad Samples.boundingRadiusOf
    Samples.circleClearance [Samples.padWithHole; Samples.padFarRight] = []
  /\ Pads.fullScan Samples.all_cu Samples.newDummyPad Samples.boundingRadiusOf
       Samples.circleClearance Samples.padWithHole
       [Samples.padWithHole; Samples.padFarRight]
     = (false,
        [mkMarker (mkItem DRCE_HOLE_NEAR_PAD
                          (MsgClearance "netclass" 2000000 1300000)
                          [1; 2]%nat)
                  (mkPoint 0 0)]).
Proof.
  pose proof (C2_early_exit_skips_hole_violation Samples.circleClearance) as H.
  cbv zeta in H.
  destruct H as (_ & _ & _ & Htest & Hfull); [vm_compute; reflexivity |].
  split; [exact Htest |].
  rewrite Hfull. vm_compute. reflexivity.
Defined.

(** ** Footprints against the netlist *)

(** With the duplicate test ignored, [mods] stays empty and the loop over it
    finds no extra footprint, whatever the board and the netlist. *)
Lemma TestFootprints_no_extra_without_duplicate_test
    (g : BOARD_DESIGN_SETTINGS) (aNetlist : list Footprints.COMPONENT)
    (modules : list Footprints.MODULE) (item : DRC_ITEM) :
  Ignore g DRCE_DUPLICATE_FOOTPRINT = true ->
  In item (Footprints.TestFootprints g aNetlist modules) ->
  GetErrorCode item = DRCE_MISSING_FOOTPRINT.
Proof.
  intros Hign Hin. unfold Footprints.TestFootprints in Hin.
  rewrite Hign in Hin. cbn [negb fst snd app] in Hin.
  apply in_app_or in Hin. destruct Hin as [Hin | Hin].
  - destruct (negb (Ignore g DRCE_MISSING_FOOTPRINT)); [| destruct Hin].
    unfold Footprints.missingLoop in Hin. apply in_flat_map in Hin.
    destruct Hin as [c [_ Hin]].
    destruct (Footprints.FindModuleByReference modules (Footprints.compReference c));
      [destruct Hin |].
    destruct Hin as [<- | []]. reflexivity.
  - destruct (negb (Ignore g DRCE_EXTRA_FOOTPRINT)); destruct Hin.
Qed.

(** C8: with the duplicate test ignored, [TestFootprints] reports no extra
    footprint on any board, the extra test being on or not.  On the board
    with the footprints U1 and u1 and an empty netlist: with every test on,
    u1 is flagged as a duplicate of U1, inserted first, U1 is reported once
    as an extra footprint and nothing is reported missing; with the
    duplicate test ignored and the extra test still on, nothing at all is
    reported. *)
Theorem C8_extra_footprint_lost_without_duplicate_test :
  (forall g aNetlist modules item,
     Ignore g DRCE_DUPLICATE_FOOTPRINT = true ->
     In item (Footprints.TestFootprints g aNetlist modules) ->
     GetErrorCode item <> DRCE_EXTRA_FOOTPRINT)
  /\ (let modules := [Samples.U1; Samples.u1] in
      let aNetlist : list Footprints.COMPONENT := [] in
      let g := Samples.floors Samples.ignoreDuplicates in
      Footprints.GetComponentByReference aNetlist
        (Footprints.GetReference Samples.U1) = None
      /\ Footprints.TestFootprints (Samples.floors Samples.ignoreNothing)
           aNetlist modules
         = [mkItem DRCE_DUPLICATE_FOOTPRINT MsgDefault
                   [Footprints.moduleId Samples.u1; Footprints.moduleId Samples.U1];
            mkItem DRCE_EXTRA_FOOTPRINT MsgDefault
                   [Footprints.moduleId Samples.U1]]
      /\ Ignore g DRCE_EXTRA_FOOTPRINT = false
      /\ Ignore g DRCE_MISSING_FOOTPRINT = false
      /\ Footprints.TestFootprints g aNetlist modules = []).
Proof.
  split.
  - intros g aNetlist modules item Hign Hin.
    rewrite (TestFootprints_no_extra_without_duplicate_test g aNetlist modules
               item Hign Hin).
    discriminate.
  - cbv zeta. repeat split.
Qed.

Lemma C8_witness :
  Forall (fun item => GetErrorCode item <> DRCE_EXTRA_FOOTPRINT)
         (Footprints.TestFootprints (Samples.floors Samples.ignoreDuplicates)
            [] [Samples.U1; Samples.u1]).
Proof.
  apply List.Forall_forall. intros item.
  apply (proj1 C8_extra_footprint_lost_without_duplicate_test
           (Samples.floors Samples.ignoreDuplicates) [] [Samples.U1; Samples.u1]).
  reflexivity.
Defined.

(** ** Marker location *)

Lemma EPSILON_value : Location.EPSILON = 127000.
Proof. reflexivity. Qed.

(** Halving with truncation: the quotient is within half a unit of the
    exact half, on the side of zero. *)
Lemma quot2_near z :
  - 1 <= z - 2 * Z.quot z 2 <= 1
  /\ (0 <= z -> 0 <= z - 2 * Z.quot z 2)
  /\ (z <= 0 -> z - 2 * Z.quot z 2 <= 0).
Proof.
  destruct (Z.le_gt_cases 0 z) as [Hp | Hn].
  - pose proof (Z.quot_rem' z 2) as Hqr.
    pose proof (Z.rem_bound_pos z 2 Hp ltac:(lia)). lia.
  - pose proof (Z.quot_rem' (- z) 2) as Hqr.
    pose proof (Z.rem_bound_pos (- z) 2 ltac:(lia) ltac:(lia)).
    pose proof (quot2_opp z). lia.
Qed.

Lemma midPoint_coords (pt1 pt2 : wxPoint) :
  Location.onBoard pt1 -> Location.onBoard pt2 ->
  px (Location.midPoint pt1 pt2) = Z.quot (px pt1 + px pt2) 2
  /\ py (Location.midPoint pt1 pt2) = Z.quot (py pt1 + py pt2) 2.
Proof.
  unfold Location.onBoard. intros [Hx1 Hy1] [Hx2 Hy2].
  unfold Location.midPoint, Int32.add. cbn [px py].
  rewrite !wrap_in_range
    by (unfold Int32.in_range, Int32.min_int, Int32.max_int; lia).
  split; apply int_div2;
    unfold Int32.in_range, Int32.min_int, Int32.max_int; lia.
Qed.

Lemma longerThanEpsilon_spec (pt1 pt2 : wxPoint) :
  Location.onBoard pt1 -> Location.onBoard pt2 ->
  Location.longerThanEpsilon pt1 pt2
  = ((px pt2 - px pt1) * (px pt2 - px pt1)
     + (py pt2 - py pt1) * (py pt2 - py pt1) >? 127000 * 127000).
Proof.
  unfold Location.onBoard. intros [Hx1 Hy1] [Hx2 Hy2].
  unfold Location.longerThanEpsilon, Int32.sub.
  rewrite !wrap_in_range
    by (unfold Int32.in_range, Int32.min_int, Int32.max_int; lia).
  rewrite EPSILON_value. f_equal. ring.
Qed.

(** One coordinate of a mid-point: inside the interval of the two ends, at
    half their distance (rounded), and twice it within a unit of their
    sum. *)
Lemma half_step (u v : Z) :
  let m := Z.quot (u + v) 2 in
  Z.min u v <= m <= Z.max u v
  /\ 2 * Z.abs (m - u) <= Z.abs (v - u) + 1
  /\ 2 * Z.abs (v - m) <= Z.abs (v - u) + 1
  /\ - 1 <= u + v - 2 * m <= 1.
Proof.
  intros m. pose proof (quot2_near (u + v)) as (Hr & Hp & Hn). fold m in Hr, Hp, Hn.
  lia.
Qed.

Lemma between_trans (u v lo hi w : Z) :
  Location.between u v lo -> Location.between u v hi ->
  Z.min lo hi <= w <= Z.max lo hi -> Location.between u v w.
Proof. unfold Location.between. lia. Qed.

Lemma between_onBoard (a b p : wxPoint) :
  Location.onBoard a -> Location.onBoard b ->
  Location.between (px a) (px b) (px p) ->
  Location.between (py a) (py b) (py p) ->
  Location.onBoard p.
Proof. unfold Location.onBoard, Location.between. lia. Qed.

Lemma unit_product_bound (d r : Z) : - 1 <= r <= 1 -> - Z.abs d <= d * r <= Z.abs d.
Proof. intros Hr. assert (r = -1 \/ r = 0 \/ r = 1) as [-> | [-> | ->]] by lia; lia. Qed.

Lemma halved_difference (n d d' bound : Z) :
  0 < n -> 2 * d' <= d + 1 -> n * d <= bound + n - 1 ->
  2 * n * d' <= bound + 2 * n - 1.
Proof.
  intros Hn Hhalf Hd.
  assert (n * (2 * d') <= n * (d + 1)) by (apply Z.mul_le_mono_nonneg_l; lia).
  lia.
Qed.

Lemma bisectInvariant_start (a b : wxPoint) : Location.bisectInvariant a b 0 a b.
Proof.
  unfold Location.bisectInvariant, Location.between, Location.cross.
  cbn [Z.of_nat Z.pow].
  repeat split; lia.
Qed.

(** Both halves of a turn keep the invariant, one turn further. *)
Lemma bisectInvariant_step (a b : wxPoint) (j : nat) (pt1 pt2 : wxPoint) :
  Location.onBoard a -> Location.onBoard b ->
  Location.bisectInvariant a b j pt1 pt2 ->
  Location.bisectInvariant a b (S j) pt1 (Location.midPoint pt1 pt2)
  /\ Location.bisectInvariant a b (S j) (Location.midPoint pt1 pt2) pt2.
Proof.
  intros Ha Hb ((Hx1 & Hy1) & (Hx2 & Hy2) & (Hdx & Hdy) & (Hc1 & Hc2)).
  assert (Hb1 : Location.onBoard pt1) by (apply (between_onBoard a b); assumption).
  assert (Hb2 : Location.onBoard pt2) by (apply (between_onBoard a b); assumption).
  destruct (midPoint_coords pt1 pt2 Hb1 Hb2) as [Hmx Hmy].
  set (m := Location.midPoint pt1 pt2) in *.
  pose proof (half_step (px pt1) (px pt2)) as (Hbx & Hlx & Hrx & Hex).
  pose proof (half_step (py pt1) (py pt2)) as (Hby & Hly & Hry & Hey).
  rewrite <- Hmx in Hbx, Hlx, Hrx, Hex. rewrite <- Hmy in Hby, Hly, Hry, Hey.
  clear Hmx Hmy.
  assert (Hmbx : Location.between (px a) (px b) (px m))
    by (apply (between_trans _ _ (px pt1) (px pt2)); assumption).
  assert (Hmby : Location.between (py a) (py b) (py m))
    by (apply (between_trans _ _ (py pt1) (py pt2)); assumption).
  assert (Hpow : 2 ^ Z.of_nat (S j) = 2 * 2 ^ Z.of_nat j).
  { rewrite Nat2Z.inj_succ, Z.pow_succ_r by lia. reflexivity. }
  assert (Hn : 0 < 2 ^ Z.of_nat j) by (apply Z.pow_pos_nonneg; lia).
  set (n := 2 ^ Z.of_nat j) in *.
  set (s := Z.abs (px b - px a) + Z.abs (py b - py a)) in *.
  assert (Hcm : 2 * Z.abs (Location.cross a b m) <= Z.of_nat (S j) * s).
  { assert (E : 2 * Location.cross a b m
                = Location.cross a b pt1 + Location.cross a b pt2
                  - (px b - px a) * (py pt1 + py pt2 - 2 * py m)
                  + (py b - py a) * (px pt1 + px pt2 - 2 * px m))
      by (unfold Location.cross; ring).
    pose proof (unit_product_bound (px b - px a) _ Hey).
    pose proof (unit_product_bound (py b - py a) _ Hex).
    rewrite Nat2Z.inj_succ. unfold s. lia. }
  assert (Hs : 0 <= s) by (unfold s; lia).
  assert (Hj : Z.of_nat (S j) * s = Z.of_nat j * s + s)
    by (rewrite Nat2Z.inj_succ; ring).
  assert (Hmx1 : Z.abs (px m - px pt1) = Z.abs (px pt1 - px m)) by lia.
  unfold Location.bisectInvariant. cbv zeta. fold s. rewrite Hpow. fold n.
  split; (split; [split; assumption |]); (split; [split; assumption |]).
  - split; [split |].
    + apply (halved_difference n (Z.abs (px pt2 - px pt1))); assumption.
    + apply (halved_difference n (Z.abs (py pt2 - py pt1))); assumption.
    + rewrite Hj. split; [lia | rewrite <- Hj; exact Hcm].
  - split; [split |].
    + apply (halved_difference n (Z.abs (px pt2 - px pt1))); assumption.
    + apply (halved_difference n (Z.abs (py pt2 - py pt1))); assumption.
    + rewrite Hj. split; [rewrite <- Hj; exact Hcm | lia].
Qed.

Lemma square_le_mono (u v : Z) : 0 <= u <= v -> u * u <= v * v.
Proof. intros H. apply Z.mul_le_mono_nonneg; lia. Qed.

Lemma square_sum_bound (u v : Z) : (u + v) * (u + v) <= 2 * (u * u) + 2 * (v * v).
Proof. pose proof (Z.square_nonneg (u - v)). lia. Qed.

Lemma pow4_square (j : nat) : 4 ^ Z.of_nat j = 2 ^ Z.of_nat j * 2 ^ Z.of_nat j.
Proof. change 4 with (2 * 2). apply Z.pow_mul_l. Qed.

(** A turn is taken only while the segment is longer than epsilon: after
    [j] halvings this bounds [j] by the length of the track. *)
Lemma turn_bound (a b : wxPoint) (j : nat) (pt1 pt2 : wxPoint) :
  Location.bisectInvariant a b j pt1 pt2 ->
  127000 * 127000 < (px pt2 - px pt1) * (px pt2 - px pt1)
                    + (py pt2 - py pt1) * (py pt2 - py pt1) ->
  127000 * 127000 * 4 ^ Z.of_nat j
  < 4 * ((px b - px a) * (px b - px a) + (py b - py a) * (py b - py a)).
Proof.
  intros (_ & _ & (Hdx & Hdy) & _) Hlong.
  rewrite pow4_square.
  assert (Hn : 0 < 2 ^ Z.of_nat j) by (apply Z.pow_pos_nonneg; lia).
  set (n := 2 ^ Z.of_nat j) in *.
  set (x := Z.abs (px pt2 - px pt1)) in *.
  set (y := Z.abs (py pt2 - py pt1)) in *.
  set (dx := Z.abs (px b - px a)) in *.
  set (dy := Z.abs (py b - py a)) in *.
  assert (Hx : (px pt2 - px pt1) * (px pt2 - px pt1) = x * x)
    by (unfold x; symmetry; apply Z.abs_square).
  assert (Hy : (py pt2 - py pt1) * (py pt2 - py pt1) = y * y)
    by (unfold y; symmetry; apply Z.abs_square).
  assert (Hdx2 : (px b - px a) * (px b - px a) = dx * dx)
    by (unfold dx; symmetry; apply Z.abs_square).
  assert (Hdy2 : (py b - py a) * (py b - py a) = dy * dy)
    by (unfold dy; symmetry; apply Z.abs_square).
  rewrite Hx, Hy in Hlong. rewrite Hdx2, Hdy2.
  assert (H0x : 0 <= x) by (unfold x; lia).
  assert (H0y : 0 <= y) by (unfold y; lia).
  assert (H0dx : 0 <= dx) by (unfold dx; lia).
  assert (H0dy : 0 <= dy) by (unfold dy; lia).
  clearbody n x y dx dy.
  assert (Hnx : 0 <= n * x) by (apply Z.mul_nonneg_nonneg; lia).
  assert (Hny : 0 <= n * y) by (apply Z.mul_nonneg_nonneg; lia).
  pose proof (square_le_mono (n * x) (dx + n) ltac:(lia)) as Sx.
  pose proof (square_le_mono (n * y) (dy + n) ltac:(lia)) as Sy.
  pose proof (square_sum_bound dx n) as Bx.
  pose proof (square_sum_bound dy n) as By.
  assert (Hnn : 0 < n * n) by (apply Z.mul_pos_pos; lia).
  assert (Hscale : n * n * (127000 * 127000) < n * n * (x * x + y * y))
    by (apply Z.mul_lt_mono_pos_l; assumption).
  replace (n * n * (x * x + y * y)) with (n * x * (n * x) + n * y * (n * y))
    in Hscale by ring.
  lia.
Qed.

Lemma bisect_done (SquaredDistance : wxPoint -> Z) (fuel : nat) (pt1 pt2 : wxPoint) :
  Location.longerThanEpsilon pt1 pt2 = false ->
  Location.bisect SquaredDistance fuel pt1 pt2 = Some (pt1, pt2, O).
Proof. intros H. destruct fuel; cbn [Location.bisect]; rewrite H; reflexivity. Qed.

(** The loop ends: started [j] turns into the bisection of the track from
    [a] to [b] with coordinate differences of at most [2 ^ n], it takes at
    most [n] further turns. *)
Lemma bisect_runs (SquaredDistance : wxPoint -> Z) (a b : wxPoint) :
  Location.onBoard a -> Location.onBoard b ->
  forall (n j : nat) (pt1 pt2 : wxPoint) (fuel : nat),
    Location.bisectInvariant a b j pt1 pt2 ->
    Z.abs (px pt2 - px pt1) <= 2 ^ Z.of_nat n ->
    Z.abs (py pt2 - py pt1) <= 2 ^ Z.of_nat n ->
    (n <= fuel)%nat ->
    exists q1 q2 k,
      Location.bisect SquaredDistance fuel pt1 pt2 = Some (q1, q2, k)
      /\ (k <= n)%nat
      /\ Location.bisectInvariant a b (j + k) q1 q2
      /\ Location.longerThanEpsilon q1 q2 = false
      /\ ((1 <= k)%nat ->
          127000 * 127000 * 4 ^ Z.of_nat (j + k - 1)
          < 4 * ((px b - px a) * (px b - px a) + (py b - py a) * (py b - py a))).
Proof.
  intros Ha Hb.
  induction n as [| n IH]; intros j pt1 pt2 fuel Hinv Hx Hy Hfuel.
  - assert (Hb1 : Location.onBoard pt1)
      by (apply (between_onBoard a b); try assumption; apply Hinv).
    assert (Hb2 : Location.onBoard pt2)
      by (apply (between_onBoard a b); try assumption; apply Hinv).
    assert (Hshort : Location.longerThanEpsilon pt1 pt2 = false).
    { rewrite longerThanEpsilon_spec by assumption.
      cbn [Z.of_nat Z.pow] in Hx, Hy.
      rewrite Z.gtb_ltb. apply Z.ltb_ge.
      pose proof (square_le_mono (Z.abs (px pt2 - px pt1)) 1 ltac:(lia)).
      pose proof (square_le_mono (Z.abs (py pt2 - py pt1)) 1 ltac:(lia)).
      rewrite Z.abs_square in *. lia. }
    exists pt1, pt2, O. rewrite Nat.add_0_r.
    split; [apply bisect_done, Hshort |].
    split; [lia |]. split; [exact Hinv |]. split; [exact Hshort | lia].
  - assert (Hb1 : Location.onBoard pt1)
      by (apply (between_onBoard a b); try assumption; apply Hinv).
    assert (Hb2 : Location.onBoard pt2)
      by (apply (between_onBoard a b); try assumption; apply Hinv).
    destruct (Location.longerThanEpsilon pt1 pt2) eqn:Hlong.
    + destruct fuel as [| fuel]; [lia |].
      destruct (bisectInvariant_step a b j pt1 pt2 Ha Hb Hinv) as [Hleft Hright].
      destruct (midPoint_coords pt1 pt2 Hb1 Hb2) as [Hmx Hmy].
      pose proof (half_step (px pt1) (px pt2)) as (_ & Hlx & Hrx & _).
      pose proof (half_step (py pt1) (py pt2)) as (_ & Hly & Hry & _).
      rewrite <- Hmx in Hlx, Hrx. rewrite <- Hmy in Hly, Hry.
      assert (Hpow : 2 ^ Z.of_nat (S n) = 2 * 2 ^ Z.of_nat n).
      { rewrite Nat2Z.inj_succ, Z.pow_succ_r by lia. reflexivity. }
      rewrite Hpow in Hx, Hy.
      assert (Hturn := turn_bound a b j pt1 pt2 Hinv).
      cbn [Location.bisect]. rewrite Hlong.
      rewrite longerThanEpsilon_spec in Hlong by assumption.
      apply Z.gtb_lt in Hlong. specialize (Hturn Hlong).
      destruct (SquaredDistance pt1 <? SquaredDistance pt2).
      * destruct (IH (S j) pt1 (Location.midPoint pt1 pt2) fuel Hleft
                    ltac:(lia) ltac:(lia) ltac:(lia))
          as (q1 & q2 & k & Hrun & Hk & Hq & Hshort & Hbound).
        exists q1, q2, (S k). rewrite Hrun.
        split; [reflexivity |]. split; [lia |].
        replace (j + S k)%nat with (S j + k)%nat by lia.
        split; [exact Hq |]. split; [exact Hshort |].
        intros _. destruct k as [| k].
        -- replace (S j + 0 - 1)%nat with j by lia. exact Hturn.
        -- apply Hbound. lia.
      * destruct (IH (S j) (Location.midPoint pt1 pt2) pt2 fuel Hright
                    ltac:(lia) ltac:(lia) ltac:(lia))
          as (q1 & q2 & k & Hrun & Hk & Hq & Hshort & Hbound).
        exists q1, q2, (S k). rewrite Hrun.
        split; [reflexivity |]. split; [lia |].
        replace (j + S k)%nat with (S j + k)%nat by lia.
        split; [exact Hq |]. split; [exact Hshort |].
        intros _. destruct k as [| k].
        -- replace (S j + 0 - 1)%nat with j by lia. exact Hturn.
        -- apply Hbound. lia.
    + exists pt1, pt2, O. rewrite Nat.add_0_r.
      split; [apply bisect_done, Hlong |].
      split; [lia |]. split; [exact Hinv |]. split; [exact Hlong | lia].
Qed.

Lemma between_dot (u v w : Z) :
  Location.between u v w -> 0 <= (w - u) * (v - u) <= (v - u) * (v - u).
Proof.
  unfold Location.between. intros H.
  destruct (Z.le_gt_cases u v) as [Hle | Hgt].
  - rewrite Z.min_l, Z.max_r in H by lia. split.
    + apply Z.mul_nonneg_nonneg; lia.
    + apply Z.mul_le_mono_nonneg_r; lia.
  - rewrite Z.min_r, Z.max_l in H by lia.
    replace ((w - u) * (v - u)) with ((u - w) * (u - v)) by ring.
    replace ((v - u) * (v - u)) with ((u - v) * (u - v)) by ring.
    split.
    + apply Z.mul_nonneg_nonneg; lia.
    + apply Z.mul_le_mono_nonneg_r; lia.
Qed.

(** After at most 31 turns both points are within epsilon of the track. *)
Lemma within_of_invariant (a b : wxPoint) (j : nat) (pt1 pt2 : wxPoint) :
  (j <= 31)%nat ->
  Location.bisectInvariant a b j pt1 pt2 ->
  Location.withinOfTrack Location.EPSILON a b pt1
  /\ Location.withinOfTrack Location.EPSILON a b pt2.
Proof.
  intros Hj ((Hx1 & Hy1) & (Hx2 & Hy2) & _ & (Hc1 & Hc2)).
  rewrite EPSILON_value.
  set (s := Z.abs (px b - px a) + Z.abs (py b - py a)) in *.
  assert (Hs : 0 <= s) by (unfold s; lia).
  assert (Hss : s * s <= 2 * ((px b - px a) * (px b - px a))
                         + 2 * ((py b - py a) * (py b - py a))).
  { unfold s. pose proof (square_sum_bound (Z.abs (px b - px a))
                                           (Z.abs (py b - py a))) as Hsq.
    rewrite !Z.abs_square in Hsq. exact Hsq. }
  assert (Hjs : Z.of_nat j * s <= 31 * s)
    by (apply Z.mul_le_mono_nonneg_r; lia).
  assert (Hcross : forall c, 2 * Z.abs c <= Z.of_nat j * s ->
            c * c <= 127000 * 127000
                     * ((px b - px a) * (px b - px a)
                        + (py b - py a) * (py b - py a))).
  { intros c Hc.
    pose proof (square_le_mono (2 * Z.abs c) (31 * s) ltac:(lia)) as Hsq.
    replace (2 * Z.abs c * (2 * Z.abs c)) with (4 * (Z.abs c * Z.abs c)) in Hsq
      by ring.
    rewrite Z.abs_square in Hsq.
    replace (31 * s * (31 * s)) with (961 * (s * s)) in Hsq by ring.
    pose proof (Z.square_nonneg (px b - px a)).
    pose proof (Z.square_nonneg (py b - py a)).
    lia. }
  pose proof (between_dot _ _ _ Hx1). pose proof (between_dot _ _ _ Hy1).
  pose proof (between_dot _ _ _ Hx2). pose proof (between_dot _ _ _ Hy2).
  unfold Location.withinOfTrack. cbv zeta.
  split; (split; [lia |]).
  - apply (Hcross (Location.cross a b pt1) Hc1).
  - apply (Hcross (Location.cross a b pt2) Hc2).
Qed.

(** The variant for a conflicting zone returns a point as well: the
    mid-point of the track, or the result of the same loop. *)
Lemma getLocation_zone_returns (SquaredDistance : wxPoint -> Z)
    (aTrack : Location.TRACK) (fuel : nat) :
  Location.onBoard (Location.GetPosition aTrack) ->
  Location.onBoard (Location.GetEnd aTrack) ->
  (31 <= fuel)%nat ->
  exists pt, Location.getLocation_zone SquaredDistance fuel aTrack = Some pt.
Proof.
  intros Ha Hb Hfuel. unfold Location.getLocation_zone.
  destruct (SquaredDistance _ =? 0); [eexists; reflexivity |].
  assert (Hdiff : Z.abs (px (Location.GetEnd aTrack)
                         - px (Location.GetPosition aTrack)) <= 2 ^ Z.of_nat 31
                  /\ Z.abs (py (Location.GetEnd aTrack)
                            - py (Location.GetPosition aTrack)) <= 2 ^ Z.of_nat 31).
  { unfold Location.onBoard in Ha, Hb.
    change (2 ^ Z.of_nat 31) with 2147483648.
    change (2 ^ 30) with 1073741824 in Ha, Hb. lia. }
  destruct (bisect_runs SquaredDistance _ _ Ha Hb 31 0 _ _ fuel
              (bisectInvariant_start _ _) (proj1 Hdiff) (proj2 Hdiff) Hfuel)
    as (pt1 & pt2 & k & Hrun & _).
  exists pt1. unfold Location.getLocation. rewrite Hrun. reflexivity.
Qed.

(** C7 (as amended): on a track whose end points leave room for their sum
    in an [int], the bisection ends after at most 31 turns; the number of
    turns [k] is 0 exactly when the track is no longer than epsilon (the
    start point is then returned), and otherwise satisfies
    [2 ^ (k - 1) * EPSILON < 2 * length], that is
    [k < log2 (length / EPSILON) + 2]; each turn keeps the half at the end
    point nearer to the conflicting shape (the second half on a tie); at the
    end the two points are at most epsilon apart, and the point returned
    lies within epsilon of the track. *)
Theorem C7_bisection_terminates_near_track
    (SquaredDistance : wxPoint -> Z) (aTrack : Location.TRACK) (fuel : nat) :
  let a := Location.GetPosition aTrack in
  let b := Location.GetEnd aTrack in
  let length2 := (px b - px a) * (px b - px a) + (py b - py a) * (py b - py a) in
  Location.onBoard a -> Location.onBoard b -> (31 <= fuel)%nat ->
  (forall n pt1 pt2,
     Location.longerThanEpsilon pt1 pt2 = true ->
     Location.bisect SquaredDistance (S n) pt1 pt2
     = match (if SquaredDistance pt1 <? SquaredDistance pt2
              then Location.bisect SquaredDistance n pt1
                     (Location.midPoint pt1 pt2)
              else Location.bisect SquaredDistance n
                     (Location.midPoint pt1 pt2) pt2) with
       | Some (q1, q2, k) => Some (q1, q2, S k)
       | None => None
       end)
  /\ exists pt1 pt2 k,
       Location.bisect SquaredDistance fuel a b = Some (pt1, pt2, k)
       /\ Location.getLocation SquaredDistance fuel aTrack = Some pt1
       /\ (k <= 31)%nat
       /\ (k = 0%nat <-> length2 <= Location.EPSILON * Location.EPSILON)
       /\ (k = 0%nat -> pt1 = a /\ pt2 = b)
       /\ ((1 <= k)%nat ->
           Location.EPSILON * Location.EPSILON * 4 ^ Z.of_nat (k - 1)
           < 4 * length2)
       /\ Location.longerThanEpsilon pt1 pt2 = false
       /\ Location.withinOfTrack Location.EPSILON a b pt1.
Proof.
  intros a b length2 Ha Hb Hfuel.
  split.
  { intros n pt1 pt2 Hlong. cbn [Location.bisect]. rewrite Hlong. reflexivity. }
  assert (Hdiff : Z.abs (px b - px a) <= 2 ^ Z.of_nat 31
                  /\ Z.abs (py b - py a) <= 2 ^ Z.of_nat 31).
  { unfold Location.onBoard in Ha, Hb.
    change (2 ^ Z.of_nat 31) with 2147483648.
    change (2 ^ 30) with 1073741824 in Ha, Hb. lia. }
  destruct (bisect_runs SquaredDistance a b Ha Hb 31 0 a b fuel
              (bisectInvariant_start a b) (proj1 Hdiff) (proj2 Hdiff) Hfuel)
    as (pt1 & pt2 & k & Hrun & Hk & Hinv & Hshort & Hbound).
  exists pt1, pt2, k.
  split; [exact Hrun |].
  split; [unfold Location.getLocation; fold a; fold b; rewrite Hrun; reflexivity |].
  split; [exact Hk |].
  assert (Hzero : (k = 0%nat <-> length2 <= Location.EPSILON * Location.EPSILON)
                  /\ (k = 0%nat -> pt1 = a /\ pt2 = b)).
  { pose proof (longerThanEpsilon_spec a b Ha Hb) as Hlong.
    fold length2 in Hlong. rewrite EPSILON_value.
    destruct (Z.gtb_spec length2 (127000 * 127000)) as [Hgt | Hle].
    - destruct fuel as [| fuel']; [lia |].
      cbn [Location.bisect] in Hrun. rewrite Hlong in Hrun.
      destruct (if SquaredDistance a <? SquaredDistance b
                then Location.bisect SquaredDistance fuel' a (Location.midPoint a b)
                else Location.bisect SquaredDistance fuel' (Location.midPoint a b) b)
        as [[[q1 q2] n] |]; [| discriminate Hrun].
      injection Hrun as <- <- <-.
      split; [split; [discriminate | lia] | discriminate].
    - rewrite (bisect_done SquaredDistance fuel a b Hlong) in Hrun.
      injection Hrun as <- <- <-.
      split; [split; [intros _; exact Hle | reflexivity] |].
      intros _. split; reflexivity. }
  split; [exact (proj1 Hzero) |].
  split; [exact (proj2 Hzero) |].
  split; [rewrite EPSILON_value; exact Hbound |].
  split; [exact Hshort |].
  apply (within_of_invariant a b (0 + k) pt1 pt2 Hk Hinv).
Qed.

(** A track of 1 mm by 0.5 mm: four turns, and a point on the track. *)
Lemma C7_witness :
  exists pt1 pt2 k,
    Location.bisect Samples.equidistant 31 (mkPoint 0 0) (mkPoint 1000000 500000)
    = Some (pt1, pt2, k)
    /\ Location.getLocation Samples.equidistant 31
         (Location.mkTrack (mkPoint 0 0) (mkPoint 1000000 500000)) = Some pt1
    /\ (k <= 31)%nat
    /\ (k = 0%nat
        <-> (1000000 - 0) * (1000000 - 0) + (500000 - 0) * (500000 - 0)
            <= Location.EPSILON * Location.EPSILON)
    /\ (k = 0%nat -> pt1 = mkPoint 0 0 /\ pt2 = mkPoint 1000000 500000)
    /\ ((1 <= k)%nat ->
        Location.EPSILON * Location.EPSILON * 4 ^ Z.of_nat (k - 1)
        < 4 * ((1000000 - 0) * (1000000 - 0) + (500000 - 0) * (500000 - 0)))
    /\ Location.longerThanEpsilon pt1 pt2 = false
    /\ Location.withinOfTrack Location.EPSILON (mkPoint 0 0)
         (mkPoint 1000000 500000) pt1.
Proof.
  apply (C7_bisection_terminates_near_track Samples.equidistant
           (Location.mkTrack (mkPoint 0 0) (mkPoint 1000000 500000)) 31).
  - unfold Location.onBoard. cbn. lia.
  - unfold Location.onBoard. cbn. lia.
  - lia.
Defined.

(** C7, the bound of the claim as written fails: a track of 190500 units,
    one and a half times epsilon, takes one turn, more than the logarithm
    of 1.5; and a diagonal track whose length is below twice epsilon takes
    two turns, more than that logarithm rounded up. *)
Lemma C7_log_bound_counterexample :
  Location.iterations
    (Location.bisect Samples.equidistant 31 (mkPoint 0 0) (mkPoint 190500 0))
  = Some 1%nat
  /\ ~ (2 ^ 1 * Location.EPSILON <= 190500)
  /\ Location.iterations
       (Location.bisect Samples.equidistant 31 (mkPoint 0 0)
          (mkPoint 179605 179605))
     = Some 2%nat
  /\ 179605 * 179605 + 179605 * 179605
     <= (2 ^ 1 * Location.EPSILON) * (2 ^ 1 * Location.EPSILON).
Proof.
  split; [vm_compute; reflexivity |].
  split; [vm_compute; intros H; apply H; reflexivity |].
  split; [vm_compute; reflexivity |].
  vm_compute. discriminate.
Qed.

(** The bounding-circle test of the samples is a clearance primitive of the
    kind [EarlyExit] assumes. *)
Lemma circleClearance_far_pads_clear (a b : Pads.D_PAD) (minClearance : Z) :
  0 <= minClearance + Pads.GetBoundingRadius a + Pads.GetBoundingRadius b ->
  (minClearance + Pads.GetBoundingRadius a + Pads.GetBoundingRadius b)
  * (minClearance + Pads.GetBoundingRadius a + Pads.GetBoundingRadius b)
  < Pads.centreDistance2 a b ->
  fst (Samples.circleClearance a b minClearance) = true.
Proof.
  intros _ Hfar. unfold Samples.circleClearance, Pads.centreDistance2 in *.
  cbn [fst]. apply orb_true_iff. right. apply Z.leb_le.
  replace (minClearance + (Pads.GetBoundingRadius a + Pads.GetBoundingRadius b))
    with (minClearance + Pads.GetBoundingRadius a + Pads.GetBoundingRadius b)
    by ring.
  lia.
Qed.

(** * Further properties of the checker *)

(** ** Net classes and markers *)

(** The seven comparisons of [doNetClass], read together. *)
Lemma doNetClass_floors (g : BOARD_DESIGN_SETTINGS) (nc : NETCLASS) :
  fst (doNetClass g nc) = true
  <-> (m_MinClearance g <= GetClearance nc
       /\ m_TrackMinWidth g <= GetTrackWidth nc
       /\ m_ViasMinSize g <= GetViaDiameter nc
       /\ m_MinThroughDrill g <= GetViaDrill nc
       /\ m_ViasMinAnnulus g <= ncViaAnnulus nc
       /\ m_MicroViasMinSize g <= GetuViaDiameter nc
       /\ m_MicroViasMinDrill g <= GetuViaDrill nc).
Proof.
  rewrite doNetClass_spec. cbn [fst]. rewrite bool_decide_eq_true.
  unfold netclassViolations, netclassConstraints. cbn [flat_map].
  destruct (Z.ltb_spec (GetClearance nc) (m_MinClearance g));
  destruct (Z.ltb_spec (GetTrackWidth nc) (m_TrackMinWidth g));
  destruct (Z.ltb_spec (GetViaDiameter nc) (m_ViasMinSize g));
  destruct (Z.ltb_spec (GetViaDrill nc) (m_MinThroughDrill g));
  destruct (Z.ltb_spec (ncViaAnnulus nc) (m_ViasMinAnnulus g));
  destruct (Z.ltb_spec (GetuViaDiameter nc) (m_MicroViasMinSize g));
  destruct (Z.ltb_spec (GetuViaDrill nc) (m_MicroViasMinDrill g));
  cbn [app]; split; first [discriminate | lia | tauto].
Qed.

(** X1: a net class passes [doNetClass] exactly when each of its seven
    values, the annulus among them, is at least the board floor. *)
Theorem doNetClass_passes_iff (g : BOARD_DESIGN_SETTINGS) (nc : NETCLASS) :
  fst (doNetClass g nc) = true
  <-> (m_MinClearance g <= GetClearance nc
       /\ m_TrackMinWidth g <= GetTrackWidth nc
       /\ m_ViasMinSize g <= GetViaDiameter nc
       /\ m_MinThroughDrill g <= GetViaDrill nc
       /\ m_ViasMinAnnulus g <= ncViaAnnulus nc
       /\ m_MicroViasMinSize g <= GetuViaDiameter nc
       /\ m_MicroViasMinDrill g <= GetuViaDrill nc).
Proof. exact (doNetClass_floors g nc). Qed.

Lemma netclassViolations_length (g : BOARD_DESIGN_SETTINGS) (nc : NETCLASS) :
  (length (netclassViolations g nc) <= 7)%nat.
Proof.
  unfold netclassViolations, netclassConstraints. cbn [flat_map].
  destruct (GetClearance nc <? m_MinClearance g);
  destruct (GetTrackWidth nc <? m_TrackMinWidth g);
  destruct (GetViaDiameter nc <? m_ViasMinSize g);
  destruct (GetViaDrill nc <? m_MinThroughDrill g);
  destruct (ncViaAnnulus nc <? m_ViasMinAnnulus g);
  destruct (GetuViaDiameter nc <? m_MicroViasMinSize g);
  destruct (GetuViaDrill nc <? m_MicroViasMinDrill g);
  cbn; lia.
Qed.

(** X2: [testNetClasses] hands over at most seven markers per class, the
    Default class included; every one of them is placed at the origin, names
    no board item, and is the violation of one of the seven fields of a
    class of the board: it has the code of that field, and its message
    carries the board minimum of the field, the name of the class and the
    value of the class, which is below the minimum. *)
Theorem testNetClasses_markers_bounded
    (g : BOARD_DESIGN_SETTINGS) (netclasses : NETCLASSES) :
  (length (snd (testNetClasses g netclasses))
   <= 7 * S (length (userClasses netclasses)))%nat
  /\ Forall (fun m =>
               GetPos m = mkPoint 0 0
               /\ GetItems (GetRCItem m) = []
               /\ exists nc floor value,
                    In nc (GetDefault netclasses :: userClasses netclasses)
                    /\ In (GetErrorCode (GetRCItem m), floor, value)
                          [ (DRCE_NETCLASS_CLEARANCE, m_MinClearance g,
                             GetClearance nc);
                            (DRCE_NETCLASS_TRACKWIDTH, m_TrackMinWidth g,
                             GetTrackWidth nc);
                            (DRCE_NETCLASS_VIASIZE, m_ViasMinSize g,
                             GetViaDiameter nc);
                            (DRCE_NETCLASS_VIADRILLSIZE, m_MinThroughDrill g,
                             GetViaDrill nc);
                            (DRCE_NETCLASS_VIAANNULUS, m_ViasMinAnnulus g,
                             ncViaAnnulus nc);
                            (DRCE_NETCLASS_uVIASIZE, m_MicroViasMinSize g,
                             GetuViaDiameter nc);
                            (DRCE_NETCLASS_uVIADRILLSIZE, m_MicroViasMinDrill g,
                             GetuViaDrill nc) ]
                    /\ GetErrorMessage (GetRCItem m)
                       = MsgNetclass floor (GetName nc) value
                    /\ value < floor)
            (snd (testNetClasses g netclasses)).
Proof.
  rewrite testNetClasses_spec. cbn [snd]. split.
  - change (S (length (userClasses netclasses)))
      with (length (allClasses netclasses)).
    induction (allClasses netclasses) as [| nc rest IH]; cbn [flat_map length].
    + lia.
    + rewrite length_app. pose proof (netclassViolations_length g nc). lia.
  - apply List.Forall_forall. intros m Hm.
    apply in_flat_map in Hm. destruct Hm as [nc [Hnc Hm]].
    unfold netclassViolations in Hm. apply in_flat_map in Hm.
    destruct Hm as [[[code floor] value] [Hfield Hm]].
    destruct (Z.ltb_spec value floor) as [Hlt |]; [| destruct Hm].
    destruct Hm as [<- | []]. cbn [netclassMarker GetPos GetRCItem GetItems
                                   GetErrorCode GetErrorMessage].
    split; [reflexivity |]. split; [reflexivity |].
    exists nc, floor, value.
    split; [exact Hnc |]. split; [exact Hfield |].
    split; [reflexivity | exact Hlt].
Qed.

(** The seven floors of [g'] are at most those of [g]. *)
Lemma netclass_passes_lower_floors (g g' : BOARD_DESIGN_SETTINGS) (nc : NETCLASS) :
  m_MinClearance g' <= m_MinClearance g ->
  m_TrackMinWidth g' <= m_TrackMinWidth g ->
  m_ViasMinSize g' <= m_ViasMinSize g ->
  m_MinThroughDrill g' <= m_MinThroughDrill g ->
  m_ViasMinAnnulus g' <= m_ViasMinAnnulus g ->
  m_MicroViasMinSize g' <= m_MicroViasMinSize g ->
  m_MicroViasMinDrill g' <= m_MicroViasMinDrill g ->
  fst (doNetClass g nc) = true -> fst (doNetClass g' nc) = true.
Proof.
  intros H1 H2 H3 H4 H5 H6 H7. rewrite !doNetClass_floors. lia.
Qed.

(** X3: lowering board floors never makes the net-class test fail: classes
    that pass under [g] pass under any [g'] whose seven floors are no
    higher. *)
Theorem testNetClasses_lower_floors
    (g g' : BOARD_DESIGN_SETTINGS) (netclasses : NETCLASSES) :
  m_MinClearance g' <= m_MinClearance g ->
  m_TrackMinWidth g' <= m_TrackMinWidth g ->
  m_ViasMinSize g' <= m_ViasMinSize g ->
  m_MinThroughDrill g' <= m_MinThroughDrill g ->
  m_ViasMinAnnulus g' <= m_ViasMinAnnulus g ->
  m_MicroViasMinSize g' <= m_MicroViasMinSize g ->
  m_MicroViasMinDrill g' <= m_MicroViasMinDrill g ->
  fst (testNetClasses g netclasses) = true ->
  fst (testNetClasses g' netclasses) = true
  /\ snd (testNetClasses g' netclasses) = [].
Proof.
  intros H1 H2 H3 H4 H5 H6 H7.
  rewrite !testNetClasses_spec. cbn [fst snd]. intros Hpass.
  assert (Hall : forallb (fun nc => bool_decide (netclassViolations g' nc = []))
                         (allClasses netclasses) = true).
  { rewrite forallb_forall in Hpass |- *. intros nc Hnc.
    specialize (Hpass nc Hnc).
    pose proof (netclass_passes_lower_floors g g' nc H1 H2 H3 H4 H5 H6 H7) as Hlow.
    rewrite !doNetClass_spec in Hlow. cbn [fst] in Hlow. exact (Hlow Hpass). }
  split; [exact Hall |].
  apply flat_map_nil_forallb. exact Hall.
Qed.

Lemma testNetClasses_lower_floors_witness :
  fst (testNetClasses Samples.floorsNoAnnulus
         (mkNetclasses (Samples.ncGood "Default") [Samples.ncGood "Power"]))
  = true
  /\ snd (testNetClasses Samples.floorsNoAnnulus
            (mkNetclasses (Samples.ncGood "Default") [Samples.ncGood "Power"]))
     = [].
Proof.
  apply (testNetClasses_lower_floors (Samples.floors Samples.ignoreNothing)
           Samples.floorsNoAnnulus);
    try (cbn; lia).
  reflexivity.
Defined.

(** ** The orchestrator, run after run *)

Lemma markers_runChecker_eq g ph emitted st :
  markers (fst (runChecker g ph emitted st))
  = markers (fst st)
    ++ List.filter (fun m => negb (Ignore g (GetErrorCode (GetRCItem m)))) emitted.
Proof. destruct st as [r log]. cbn. apply commitMarkers_filter. Qed.

Lemma markers_when_runChecker_eq c g ph emitted st :
  markers (fst (when c (runChecker g ph emitted) st))
  = markers (fst st)
    ++ (if c
        then List.filter (fun m => negb (Ignore g (GetErrorCode (GetRCItem m))))
                         emitted
        else []).
Proof.
  destruct c; cbn [when]; [apply markers_runChecker_eq |].
  rewrite app_nil_r. reflexivity.
Qed.

Lemma markers_zoneFill st : markers (fst (zoneFill st)) = markers (fst st).
Proof. reflexivity. Qed.

Lemma unignored_filter g (emitted : list MARKER_PCB) :
  Forall (fun m => Ignore g (GetErrorCode (GetRCItem m)) = false)
         (List.filter (fun m => negb (Ignore g (GetErrorCode (GetRCItem m))))
                      emitted).
Proof.
  apply List.Forall_forall. intros m Hm. apply filter_In in Hm.
  destruct Hm as [_ Hm]. apply negb_true_iff in Hm. exact Hm.
Qed.

Lemma unignored_when_filter g (c : bool) (emitted : list MARKER_PCB) :
  Forall (fun m => Ignore g (GetErrorCode (GetRCItem m)) = false)
         (if c
          then List.filter (fun m => negb (Ignore g (GetErrorCode (GetRCItem m))))
                           emitted
          else []).
Proof. destruct c; [apply unignored_filter | constructor]. Qed.

(** X4: what a run does to the board's markers depends on the board and
    the options only: it appends one list of markers, none of them of an
    ignored code, after those already there and removes nothing.  Run twice
    in a row on an unchanged board, it leaves every one of its markers
    twice. *)
Theorem RunTests_appends_unignored_markers (opts : DRC_OPTIONS) (board : BOARD) :
  exists added,
    Forall (fun m => Ignore (GetDesignSettings board)
                            (GetErrorCode (GetRCItem m)) = false) added
    /\ (forall before,
          markers (fst (RunTests opts board before)) = markers before ++ added)
    /\ (forall before,
          markers (fst (RunTests opts board
                          (fst (RunTests opts board before))))
          = markers before ++ added ++ added).
Proof.
  assert (Hone : exists added,
            Forall (fun m => Ignore (GetDesignSettings board)
                                    (GetErrorCode (GetRCItem m)) = false) added
            /\ forall before,
                 markers (fst (RunTests opts board before))
                 = markers before ++ added).
  { set (g := GetDesignSettings board).
    destruct (fst (testNetClasses g (m_NetClasses board))) eqn:Hpassed.
    - eexists. split.
      2: { intros before. rewrite RunTests_unfold. cbv zeta. fold g.
           rewrite Hpassed. cbn [negb].
           rewrite markers_setDrcRun.
           rewrite !markers_when_runChecker_eq.
           rewrite markers_runTestFootprints, markers_clearFootprints.
           rewrite markers_when_runChecker_eq, markers_runChecker_eq,
             markers_when_runChecker_eq.
           rewrite markers_testUnconnected.
           rewrite !markers_runChecker_eq, markers_zoneFill, markers_runChecker_eq.
           rewrite markers_when_runChecker_eq, !markers_runChecker_eq.
           cbn [fst]. rewrite <- !app_assoc. reflexivity. }
      repeat (apply Forall_app; split);
        first [apply unignored_filter | apply unignored_when_filter].
    - eexists. split.
      2: { intros before. rewrite RunTests_unfold. cbv zeta. fold g.
           rewrite Hpassed. cbn [negb].
           rewrite !markers_runChecker_eq. cbn [fst].
           rewrite <- !app_assoc. reflexivity. }
      repeat (apply Forall_app; split); apply unignored_filter. }
  destruct Hone as (added & Hok & Happ).
  exists added. split; [exact Hok |]. split; [exact Happ |].
  intros before. rewrite !Happ. rewrite <- app_assoc. reflexivity.
Qed.

(** The members of [DRC] after a run, from those before it. *)
Lemma RunTests_members (opts : DRC_OPTIONS) (board : BOARD) (before : DRC_RESULTS) :
  members (fst (RunTests opts board before))
  = if fst (testNetClasses (GetDesignSettings board) (m_NetClasses board))
    then
      (if m_doUnconnectedTest opts
          && negb (Ignore (GetDesignSettings board) DRCE_UNCONNECTED_ITEMS)
       then map (fun edge => mkItem DRCE_UNCONNECTED_ITEMS MsgDefault
                                    [fst edge; snd edge])
                (GetUnconnectedEdges board)
       else m_unconnected before,
       if m_testFootprints opts && negb (Kiface_IsSingle board)
       then Footprints.TestFootprints (GetDesignSettings board)
              (FetchNetlistFromSchematic board) (Modules board)
       else [],
       true,
       m_testFootprints opts && negb (Kiface_IsSingle board))
    else members before.
Proof.
  rewrite RunTests_unfold. cbv zeta.
  destruct (fst (testNetClasses (GetDesignSettings board) (m_NetClasses board)));
    cbn [negb].
  - rewrite members_setDrcRun.
    rewrite !members_when_runChecker.
    rewrite members_runTestFootprints, members_clearFootprints.
    rewrite members_when_runChecker, members_runChecker, members_when_runChecker.
    rewrite members_testUnconnected.
    rewrite !members_runChecker, members_zoneFill, members_runChecker.
    rewrite members_when_runChecker, !members_runChecker.
    unfold members. cbn [fst].
    destruct (m_testFootprints opts && negb (Kiface_IsSingle board)); reflexivity.
  - rewrite !members_runChecker. reflexivity.
Qed.

(** X5: a second run on an unchanged board, with the same options, leaves
    the unconnected items, the footprint items and the two flags as the
    first run left them: these collections do not pile up from run to run
    (the board's markers do). *)
Theorem RunTests_rerun_keeps_members
    (opts : DRC_OPTIONS) (board : BOARD) (before : DRC_RESULTS) :
  members (fst (RunTests opts board (fst (RunTests opts board before))))
  = members (fst (RunTests opts board before)).
Proof.
  rewrite (RunTests_members opts board (fst (RunTests opts board before))).
  pose proof (RunTests_members opts board before) as H1.
  destruct (fst (testNetClasses (GetDesignSettings board) (m_NetClasses board))).
  - rewrite H1.
    destruct (m_doUnconnectedTest opts
              && negb (Ignore (GetDesignSettings board) DRCE_UNCONNECTED_ITEMS));
      [reflexivity |].
    apply (f_equal (fun x => fst (fst (fst x)))) in H1. cbn [fst members] in H1.
    rewrite H1. reflexivity.
  - reflexivity.
Qed.

(** ** The pad sweep *)

Lemma maxBoundingRadius_from (pads : list Pads.D_PAD) (start : Z) :
  let result :=
    fold_left (fun max_size pad =>
                 if Pads.GetBoundingRadius pad >? max_size
                 then Pads.GetBoundingRadius pad else max_size)
              pads start in
  start <= result
  /\ (forall p, In p pads -> Pads.GetBoundingRadius p <= result)
  /\ (result = start \/ exists p, In p pads /\ Pads.GetBoundingRadius p = result).
Proof.
  revert start. induction pads as [| pad rest IH]; intros start; cbn [fold_left].
  - split; [lia |]. split; [intros p [] | left; reflexivity].
  - specialize (IH (if Pads.GetBoundingRadius pad >? start
                    then Pads.GetBoundingRadius pad else start)).
    cbv zeta in IH. destruct IH as (Hle & Hall & Hmax).
    destruct (Z.gtb_spec (Pads.GetBoundingRadius pad) start) as [Hgt | Hngt].
    + split; [lia |]. split.
      * intros p [<- | Hp]; [exact Hle | apply Hall, Hp].
      * right. destruct Hmax as [Heq | (p & Hp & Heq)].
        -- exists pad. split; [left; reflexivity | symmetry; exact Heq].
        -- exists p. split; [right; exact Hp | exact Heq].
    + split; [exact Hle |]. split.
      * intros p [<- | Hp]; [lia | apply Hall, Hp].
      * destruct Hmax as [Heq | (p & Hp & Heq)]; [left; exact Heq |].
        right. exists p. split; [right; exact Hp | exact Heq].
Qed.

(** X6: [max_size] as [testPad2Pad] computes it is never negative, is at
    least the bounding radius of every pad, and is 0 or the radius of one of
    the pads. *)
Theorem maxBoundingRadius_is_largest (sortedPads : list Pads.D_PAD) :
  0 <= Pads.maxBoundingRadius sortedPads
  /\ (forall p, In p sortedPads ->
                Pads.GetBoundingRadius p <= Pads.maxBoundingRadius sortedPads)
  /\ (Pads.maxBoundingRadius sortedPads = 0
      \/ exists p, In p sortedPads
                   /\ Pads.GetBoundingRadius p = Pads.maxBoundingRadius sortedPads).
Proof. exact (maxBoundingRadius_from sortedPads 0). Qed.

Section SweepFacts.

Import Pads.

Variable all_cu : Z.
Variable newDummyPad : D_PAD.
Variable boundingRadiusOf : PAD_SHAPE_T -> wxSize -> Z.
Variable checkClearancePadToPad : D_PAD -> D_PAD -> Z -> bool * Z.

Local Abbreviation scanStep :=
  (scanStep all_cu newDummyPad boundingRadiusOf checkClearancePadToPad).
Local Abbreviation candidateTests :=
  (candidateTests all_cu newDummyPad boundingRadiusOf checkClearancePadToPad).
Local Abbreviation doPadToPadsDrc :=
  (doPadToPadsDrc all_cu newDummyPad boundingRadiusOf checkClearancePadToPad).
Local Abbreviation testPad2Pad_loop :=
  (testPad2Pad_loop all_cu newDummyPad boundingRadiusOf checkClearancePadToPad).

Lemma testPad2Pad_loop_length (max_size : Z) (pads : list D_PAD) :
  (length (testPad2Pad_loop max_size pads) <= length pads)%nat.
Proof.
  induction pads as [| pad rest IH]; cbn [Pads.testPad2Pad_loop length].
  - lia.
  - rewrite length_app.
    destruct (doPadToPadsDrc_count all_cu newDummyPad boundingRadiusOf
                checkClearancePadToPad pad (pad :: rest) (xLimit max_size pad))
      as [[_ ->] | [_ ->]]; cbn [length]; lia.
Qed.

(** What a marker of the hole branch or of the copper test looks like. *)
Lemma candidateTests_marker (aRefPad pad : D_PAD) (m : MARKER_PCB) :
  candidateTests aRefPad pad = ReturnFalse m ->
  (GetErrorCode (GetRCItem m) = DRCE_HOLE_NEAR_PAD
   /\ onDisjointCopper all_cu aRefPad pad = true
   /\ (GetItems (GetRCItem m) = [padRef pad; padRef aRefPad]
       \/ GetItems (GetRCItem m) = [padRef aRefPad; padRef pad]))
  \/ (GetErrorCode (GetRCItem m) = DRCE_PAD_NEAR_PAD
      /\ onDisjointCopper all_cu aRefPad pad = false
      /\ GetItems (GetRCItem m) = [padRef aRefPad; padRef pad]
      /\ GetPos m = GetPosition aRefPad).
Proof.
  unfold Pads.candidateTests.
  destruct (onDisjointCopper all_cu aRefPad pad).
  - intros H. left. unfold holeTests in H.
    repeat match type of H with
           | (if ?c then _ else _) = _ => destruct c
           | match (if ?c then _ else _) with _ => _ end = _ => destruct c
           end;
      try discriminate H; injection H as <-; cbn; tauto.
  - intros H. right.
    repeat match type of H with
           | (if ?c then _ else _) = _ => destruct c
           end;
      try discriminate H; injection H as <-; cbn; tauto.
Qed.

End SweepFacts.

(** X7: [testPad2Pad] hands over at most one marker per pad of the board. *)
Theorem testPad2Pad_at_most_one_per_pad
    (all_cu : Z) (newDummyPad : Pads.D_PAD)
    (boundingRadiusOf : Pads.PAD_SHAPE_T -> Pads.wxSize -> Z)
    (checkClearancePadToPad : Pads.D_PAD -> Pads.D_PAD -> Z -> bool * Z)
    (sortedPads : list Pads.D_PAD) :
  (length (Pads.testPad2Pad all_cu newDummyPad boundingRadiusOf
             checkClearancePadToPad sortedPads)
   <= length sortedPads)%nat.
Proof. apply testPad2Pad_loop_length. Qed.

(** X8: a marker of [doPadToPadsDrc] always names the reference pad and one
    candidate of the list that is another pad and does not lie beyond the x
    limit; it is a hole violation exactly when the two pads have copper
    layers and none in common, and a pad violation, placed on the reference
    pad, otherwise. *)
Theorem doPadToPadsDrc_marker_names_a_candidate
    (all_cu : Z) (newDummyPad : Pads.D_PAD)
    (boundingRadiusOf : Pads.PAD_SHAPE_T -> Pads.wxSize -> Z)
    (checkClearancePadToPad : Pads.D_PAD -> Pads.D_PAD -> Z -> bool * Z)
    (aRefPad : Pads.D_PAD) (pad_list : list Pads.D_PAD) (x_limit : Z) :
  Forall
    (fun m =>
       exists pad,
         In pad pad_list
         /\ Pads.padRef pad <> Pads.padRef aRefPad
         /\ px (Pads.GetPosition pad) <= x_limit
         /\ ((GetErrorCode (GetRCItem m) = DRCE_HOLE_NEAR_PAD
              /\ Pads.onDisjointCopper all_cu aRefPad pad = true
              /\ (GetItems (GetRCItem m) = [Pads.padRef pad; Pads.padRef aRefPad]
                  \/ GetItems (GetRCItem m)
                     = [Pads.padRef aRefPad; Pads.padRef pad]))
             \/ (GetErrorCode (GetRCItem m) = DRCE_PAD_NEAR_PAD
                 /\ Pads.onDisjointCopper all_cu aRefPad pad = false
                 /\ GetItems (GetRCItem m)
                    = [Pads.padRef aRefPad; Pads.padRef pad]
                 /\ GetPos m = Pads.GetPosition aRefPad)))
    (snd (Pads.doPadToPadsDrc all_cu newDummyPad boundingRadiusOf
            checkClearancePadToPad aRefPad pad_list x_limit)).
Proof.
  destruct (doPadToPadsDrc_count all_cu newDummyPad boundingRadiusOf
              checkClearancePadToPad aRefPad pad_list x_limit)
    as [[_ ->] | [Hf _]]; [constructor |].
  destruct (doPadToPadsDrc_false all_cu newDummyPad boundingRadiusOf
              checkClearancePadToPad aRefPad pad_list x_limit Hf)
    as (before & pad & after & m & -> & _ & Hstep & ->).
  constructor; [| constructor].
  exists pad. split; [apply in_or_app; right; left; reflexivity |].
  unfold Pads.scanStep in Hstep.
  case_bool_decide as Hid; [discriminate Hstep |].
  destruct (Z.gtb_spec (px (Pads.GetPosition pad)) x_limit) as [| Hle];
    [discriminate Hstep |].
  split; [exact Hid |]. split; [exact Hle |].
  apply (candidateTests_marker all_cu newDummyPad boundingRadiusOf
           checkClearancePadToPad aRefPad pad m Hstep).
Qed.

Lemma padInRange_sums (max_size : Z) (p : Pads.D_PAD) :
  Sweep.padInRange p -> 0 <= max_size <= 2 ^ 28 ->
  Int32.in_range (Pads.GetClearance p + Pads.GetBoundingRadius p)
  /\ Int32.in_range (Pads.GetClearance p + Pads.GetBoundingRadius p
                     + px (Pads.GetPosition p))
  /\ Int32.in_range (max_size + (Pads.GetClearance p + Pads.GetBoundingRadius p
                                 + px (Pads.GetPosition p))).
Proof.
  unfold Sweep.padInRange, Int32.in_range, Int32.min_int, Int32.max_int.
  change (2 ^ 28) with 268435456. change (2 ^ 29) with 536870912.
  change (2 ^ 31) with 2147483648. lia.
Qed.

(** X9: on a list sorted by x of pads that pairwise share a copper layer (or
    have none), with clearances, radii and abscissas that do not overflow,
    the sweep with its early exit hands over what the sweep without it
    would, provided the clearance primitive accepts pads whose centres are
    farther apart than the clearance plus their two bounding radii. *)
Theorem testPad2Pad_early_exit_sound
    (all_cu : Z) (newDummyPad : Pads.D_PAD)
    (boundingRadiusOf : Pads.PAD_SHAPE_T -> Pads.wxSize -> Z)
    (checkClearancePadToPad : Pads.D_PAD -> Pads.D_PAD -> Z -> bool * Z)
    (sortedPads : list Pads.D_PAD) :
  (forall (a b : Pads.D_PAD) (minClearance : Z),
     0 <= minClearance + Pads.GetBoundingRadius a + Pads.GetBoundingRadius b ->
     (minClearance + Pads.GetBoundingRadius a + Pads.GetBoundingRadius b)
     * (minClearance + Pads.GetBoundingRadius a + Pads.GetBoundingRadius b)
     < Pads.centreDistance2 a b ->
     fst (checkClearancePadToPad a b minClearance) = true) ->
  Pads.sortedByX sortedPads ->
  (forall p, In p sortedPads -> Sweep.padInRange p) ->
  (forall p q, In p sortedPads -> In q sortedPads ->
               Pads.onDisjointCopper all_cu p q = false) ->
  Pads.testPad2Pad all_cu newDummyPad boundingRadiusOf checkClearancePadToPad
    sortedPads
  = Sweep.testPad2Pad_full all_cu newDummyPad boundingRadiusOf
      checkClearancePadToPad sortedPads.
Proof.
  intros Hfar Hsorted Hrange Hshared.
  unfold Pads.testPad2Pad.
  pose proof (maxBoundingRadius_from sortedPads 0) as Hfrom. cbv zeta in Hfrom.
  fold (Pads.maxBoundingRadius sortedPads) in Hfrom.
  destruct Hfrom as (Hmax0 & Hmax & Hatt).
  set (max_size := Pads.maxBoundingRadius sortedPads) in *.
  assert (Hmax28 : 0 <= max_size <= 2 ^ 28).
  { split; [exact Hmax0 |].
    destruct Hatt as [-> | (p & Hp & <-)]; [cbn; lia | apply (Hrange p Hp)]. }
  enough (Hgen : forall pads,
            Pads.sortedByX pads ->
            (forall p, In p pads -> In p sortedPads) ->
            Pads.testPad2Pad_loop all_cu newDummyPad boundingRadiusOf
              checkClearancePadToPad max_size pads
            = Sweep.testPad2Pad_full all_cu newDummyPad boundingRadiusOf
                checkClearancePadToPad pads)
    by (apply Hgen; [exact Hsorted | tauto]).
  clear Hsorted.
  induction pads as [| pad rest IH]; intros Hsorted Hsub;
    cbn [Pads.testPad2Pad_loop Sweep.testPad2Pad_full]; [reflexivity |].
  assert (Hpad : In pad sortedPads) by (apply Hsub; left; reflexivity).
  destruct (padInRange_sums max_size pad (Hrange pad Hpad) Hmax28)
    as (H1 & H2 & H3).
  rewrite (early_exit_agrees all_cu newDummyPad boundingRadiusOf
             checkClearancePadToPad pad (pad :: rest)
             (Pads.xLimit max_size pad) Hsorted).
  - f_equal. apply IH.
    + apply StronglySorted_inv in Hsorted. apply Hsorted.
    + intros p Hp. apply Hsub. right. exact Hp.
  - intros p Hp Hbeyond.
    assert (Hin : In p sortedPads) by (apply Hsub, Hp).
    destruct (Hrange pad Hpad) as (Hcl & Hr & _).
    destruct (Hrange p Hin) as (_ & Hrp & _).
    apply (copper_test_passes_beyond_limit all_cu newDummyPad boundingRadiusOf
             checkClearancePadToPad Hfar max_size pad p);
      try assumption; try lia.
    + split; [lia | apply Hmax, Hin].
    + apply Hshared; assumption.
Qed.

(** Three pads on the front copper layer, sorted by x. *)
Lemma testPad2Pad_early_exit_sound_witness :
  Pads.testPad2Pad Samples.all_cu Samples.newDummyPad Samples.boundingRadiusOf
    Samples.circleClearance [Samples.padA; Samples.padB; Samples.padC]
  = Sweep.testPad2Pad_full Samples.all_cu Samples.newDummyPad
      Samples.boundingRadiusOf Samples.circleClearance
      [Samples.padA; Samples.padB; Samples.padC].
Proof.
  apply testPad2Pad_early_exit_sound.
  - exact circleClearance_far_pads_clear.
  - unfold Pads.sortedByX.
    repeat (constructor; cbn; try lia).
  - intros p [<- | [<- | [<- | []]]]; unfold Sweep.padInRange;
      vm_compute; repeat split; intros H; discriminate H.
  - intros p q [<- | [<- | [<- | []]]] [<- | [<- | [<- | []]]]; reflexivity.
Defined.

(** ** Zones *)

(** The five tests on a pair read the two zones alike. *)
Lemma pairSkipped_swap (zoneRef zoneToTest : Zones.ZONE_CONTAINER) :
  Zones.pairSkipped zoneRef zoneToTest = Zones.pairSkipped zoneToTest zoneRef.
Proof.
  unfold Zones.pairSkipped.
  repeat case_bool_decide; try congruence; try reflexivity.
  rewrite (Z.eqb_sym (Zones.GetLayer zoneToTest)).
  destruct (Zones.GetLayer zoneRef =? Zones.GetLayer zoneToTest);
    cbn [negb]; [| reflexivity].
  rewrite (Z.eqb_sym (Zones.GetNetCode zoneToTest)).
  destruct (Z.eqb_spec (Zones.GetNetCode zoneRef) (Zones.GetNetCode zoneToTest))
    as [Hnet | _]; cbn [andb].
  - rewrite Hnet.
    destruct (Zones.GetNetCode zoneToTest >=? 0); [reflexivity |].
    rewrite (Z.eqb_sym (Zones.GetPriority zoneToTest)).
    destruct (Zones.GetPriority zoneRef =? Zones.GetPriority zoneToTest);
      cbn [negb]; [| reflexivity].
    destruct (Zones.GetIsKeepout zoneRef), (Zones.GetIsKeepout zoneToTest);
      reflexivity.
  - rewrite (Z.eqb_sym (Zones.GetPriority zoneToTest)).
    destruct (Zones.GetPriority zoneRef =? Zones.GetPriority zoneToTest);
      cbn [negb]; [| reflexivity].
    destruct (Zones.GetIsKeepout zoneRef), (Zones.GetIsKeepout zoneToTest);
      reflexivity.
Qed.

(** X10: the five tests that pass over a pair of zones do not depend on
    which of the two is taken as the reference; the copper-layer test is
    made on the reference alone.  On a board of two zones the pair is
    examined exactly when the zone that comes first is on a copper layer and
    the pair passes the five tests, and then with that zone as the
    reference: the order of the two zones matters through the copper-layer
    test and through the roles in the examination, not through the five
    tests. *)
Theorem pairSkipped_symmetric
    (GetClearance : Zones.ZONE_CONTAINER -> Zones.ZONE_CONTAINER -> Z * string)
    (Contains : Zones.SHAPE_POLY_SET -> wxPoint -> bool)
    (GetClearanceBetweenSegments : Zones.SEG -> Zones.SEG -> Z -> Z * wxPoint)
    (refPoly testPoly : Zones.SHAPE_POLY_SET)
    (zoneRef zoneToTest : Zones.ZONE_CONTAINER) :
  Zones.pairSkipped zoneRef zoneToTest = Zones.pairSkipped zoneToTest zoneRef
  /\ fst (Zones.TestZoneToZoneOutlines GetClearance Contains
            GetClearanceBetweenSegments
            [(zoneRef, refPoly); (zoneToTest, testPoly)])
     = (if Zones.IsOnCopperLayer zoneRef
           && negb (Zones.pairSkipped zoneRef zoneToTest)
        then Zones.examinePair GetClearance Contains GetClearanceBetweenSegments
               refPoly testPoly zoneRef zoneToTest
        else [])
  /\ fst (Zones.TestZoneToZoneOutlines GetClearance Contains
            GetClearanceBetweenSegments
            [(zoneToTest, testPoly); (zoneRef, refPoly)])
     = (if Zones.IsOnCopperLayer zoneToTest
           && negb (Zones.pairSkipped zoneRef zoneToTest)
        then Zones.examinePair GetClearance Contains GetClearanceBetweenSegments
               testPoly refPoly zoneToTest zoneRef
        else []).
Proof.
  split; [apply pairSkipped_swap |].
  split.
  - rewrite TestZoneToZoneOutlines_by_pairs.
    cbn [Zones.zonePairs map flat_map app fst snd].
    rewrite !app_nil_r. reflexivity.
  - rewrite TestZoneToZoneOutlines_by_pairs.
    cbn [Zones.zonePairs map flat_map app fst snd].
    rewrite !app_nil_r, (pairSkipped_swap zoneToTest zoneRef). reflexivity.
Qed.

Lemma In_observations (GetClearanceBetweenSegments : Zones.SEG -> Zones.SEG -> Z -> Z * wxPoint)
    (clearance : Z) (refPoly testPoly : Zones.SHAPE_POLY_SET) (o : Z * (Z * Z)) :
  In o (Zones.observations GetClearanceBetweenSegments clearance refPoly testPoly)
  <-> exists refSegment testSegment,
        In refSegment (Zones.IterateSegmentsWithHoles refPoly)
        /\ In testSegment (Zones.IterateSegmentsWithHoles testPoly)
        /\ Zones.observation GetClearanceBetweenSegments clearance
             (refSegment, testSegment) = o.
Proof.
  unfold Zones.observations, Zones.segmentPairs. rewrite in_map_iff. split.
  - intros [[r t] [Ho Hin]]. apply in_flat_map in Hin.
    destruct Hin as [r' [Hr Hin]]. apply in_map_iff in Hin.
    destruct Hin as [t' [Heq Ht]]. injection Heq as -> ->.
    exists r, t. tauto.
  - intros (r & t & Hr & Ht & Ho). exists (r, t). split; [exact Ho |].
    apply in_flat_map. exists r. split; [exact Hr |].
    apply in_map_iff. exists t. tauto.
Qed.

(** X11: the conflict points of a zone pair, and so the markers of its
    segment test, do not depend on the order in which the segments of either
    outline are visited. *)
Theorem conflicts_independent_of_segment_order
    (GetClearance : Zones.ZONE_CONTAINER -> Zones.ZONE_CONTAINER -> Z * string)
    (GetClearanceBetweenSegments : Zones.SEG -> Zones.SEG -> Z -> Z * wxPoint)
    (refPoly refPoly' testPoly testPoly' : Zones.SHAPE_POLY_SET)
    (zoneRef zoneToTest : Zones.ZONE_CONTAINER) (clearance : Z) :
  Permutation (Zones.IterateSegmentsWithHoles refPoly)
              (Zones.IterateSegmentsWithHoles refPoly') ->
  Permutation (Zones.IterateSegmentsWithHoles testPoly)
              (Zones.IterateSegmentsWithHoles testPoly') ->
  Zones.collectConflicts GetClearanceBetweenSegments clearance refPoly testPoly
  = Zones.collectConflicts GetClearanceBetweenSegments clearance refPoly' testPoly'
  /\ Zones.conflictMarkers GetClearance GetClearanceBetweenSegments
       refPoly testPoly zoneRef zoneToTest
     = Zones.conflictMarkers GetClearance GetClearanceBetweenSegments
         refPoly' testPoly' zoneRef zoneToTest.
Proof.
  intros Href Htest.
  assert (Hobs : forall c o,
            In o (Zones.observations GetClearanceBetweenSegments c refPoly testPoly)
            <-> In o (Zones.observations GetClearanceBetweenSegments c
                        refPoly' testPoly')).
  { intros c o. rewrite !In_observations.
    split; intros (r & t & Hr & Ht & Ho); exists r, t;
      (split; [| split; [| exact Ho]]).
    - apply (Permutation_in _ Href), Hr.
    - apply (Permutation_in _ Htest), Ht.
    - apply (Permutation_in _ (Permutation_sym Href)), Hr.
    - apply (Permutation_in _ (Permutation_sym Htest)), Ht. }
  assert (Hmap : forall c,
            Zones.collectConflicts GetClearanceBetweenSegments c refPoly testPoly
            = Zones.collectConflicts GetClearanceBetweenSegments c
                refPoly' testPoly').
  { intros c. apply map_eq. intros [x y]. apply option_eq. intros d.
    rewrite !collectConflicts_lookup.
    split; intros (Hin & Hlt & Hmin); (split; [| split; [exact Hlt |]]).
    - apply Hobs, Hin.
    - intros d' Hd'. apply Hmin, Hobs, Hd'.
    - apply Hobs, Hin.
    - intros d' Hd'. apply Hmin, Hobs, Hd'. }
  split; [apply Hmap |].
  unfold Zones.conflictMarkers. rewrite Hmap. reflexivity.
Qed.

Lemma conflicts_independent_of_segment_order_witness :
  Zones.conflictMarkers Samples.zoneClearance Samples.verticalDistance
    (Samples.twoSegments 0 50000) (Samples.twoSegments 100000 150000)
    (Samples.zone 1%nat 1 false) (Samples.zone 2%nat 2 false)
  = Zones.conflictMarkers Samples.zoneClearance Samples.verticalDistance
      (Samples.twoSegments 50000 0) (Samples.twoSegments 150000 100000)
      (Samples.zone 1%nat 1 false) (Samples.zone 2%nat 2 false).
Proof.
  apply (conflicts_independent_of_segment_order Samples.zoneClearance
           Samples.verticalDistance
           (Samples.twoSegments 0 50000) (Samples.twoSegments 50000 0)
           (Samples.twoSegments 100000 150000) (Samples.twoSegments 150000 100000)
           (Samples.zone 1%nat 1 false) (Samples.zone 2%nat 2 false) 0);
    apply perm_swap.
Defined.

(** The outline test raises intersections and too-close violations only. *)
Lemma outline_marker_codes
    (GetClearance : Zones.ZONE_CONTAINER -> Zones.ZONE_CONTAINER -> Z * string)
    (Contains : Zones.SHAPE_POLY_SET -> wxPoint -> bool)
    (GetClearanceBetweenSegments : Zones.SEG -> Zones.SEG -> Z -> Z * wxPoint)
    (areas : list (Zones.ZONE_CONTAINER * Zones.SHAPE_POLY_SET)) (m : MARKER_PCB) :
  In m (fst (Zones.TestZoneToZoneOutlines GetClearance Contains
               GetClearanceBetweenSegments areas)) ->
  GetErrorCode (GetRCItem m) = DRCE_ZONES_INTERSECT
  \/ GetErrorCode (GetRCItem m) = DRCE_ZONES_TOO_CLOSE.
Proof.
  unfold Zones.TestZoneToZoneOutlines. cbn [fst].
  induction areas as [| zoneRef rest IH]; cbn [Zones.outerLoop]; [intros [] |].
  intros Hm. apply in_app_or in Hm. destruct Hm as [Hm | Hm]; [| exact (IH Hm)].
  clear IH. destruct (negb (Zones.IsOnCopperLayer (fst zoneRef))); [destruct Hm |].
  induction rest as [| zoneToTest rest IH]; cbn [Zones.innerLoop] in Hm;
    [destruct Hm |].
  apply in_app_or in Hm. destruct Hm as [Hm | Hm]; [| exact (IH Hm)].
  destruct (Zones.pairSkipped (fst zoneRef) (fst zoneToTest)); [destruct Hm |].
  unfold Zones.examinePair in Hm.
  apply in_app_or in Hm. destruct Hm as [Hm | Hm].
  { unfold Zones.cornersInside in Hm. apply in_map_iff in Hm.
    destruct Hm as [v [<- _]]. left. reflexivity. }
  apply in_app_or in Hm. destruct Hm as [Hm | Hm].
  { unfold Zones.cornersInside in Hm. apply in_map_iff in Hm.
    destruct Hm as [v [<- _]]. left. reflexivity. }
  unfold Zones.conflictMarkers in Hm. apply in_map_iff in Hm.
  destruct Hm as [[[x y] d] [<- _]]. unfold Zones.conflictMarker.
  destruct (d <=? 0); [left | right]; reflexivity.
Qed.

(** X12: [testZones] reports a zone for an empty net exactly when that code
    is not ignored, the zone is on a copper layer, and its net code is
    negative, or positive with no pad in the net; a zone of net code 0 is
    never reported for it. *)
Theorem testZones_empty_net
    (GetClearance : Zones.ZONE_CONTAINER -> Zones.ZONE_CONTAINER -> Z * string)
    (Contains : Zones.SHAPE_POLY_SET -> wxPoint -> bool)
    (GetClearanceBetweenSegments : Zones.SEG -> Zones.SEG -> Z -> Z * wxPoint)
    (GetPosition : Zones.ZONE_CONTAINER -> wxPoint) (GetPadCount : Z -> Z)
    (g : BOARD_DESIGN_SETTINGS)
    (areas : list (Zones.ZONE_CONTAINER * Zones.SHAPE_POLY_SET))
    (m : MARKER_PCB) :
  (In m (ZoneNets.testZones GetClearance Contains GetClearanceBetweenSegments
           GetPosition GetPadCount g areas)
   /\ GetErrorCode (GetRCItem m) = DRCE_ZONE_HAS_EMPTY_NET)
  <-> (Ignore g DRCE_ZONE_HAS_EMPTY_NET = false
       /\ exists zone,
            In zone (map fst areas)
            /\ m = ZoneNets.emptyNetMarker GetPosition zone
            /\ Zones.IsOnCopperLayer zone = true
            /\ (Zones.GetNetCode zone < 0
                \/ (0 < Zones.GetNetCode zone
                    /\ GetPadCount (Zones.GetNetCode zone) = 0))).
Proof.
  unfold ZoneNets.testZones. split.
  - intros [Hin Hcode]. apply in_app_or in Hin. destruct Hin as [Hin | Hin].
    + destruct (Ignore g DRCE_ZONE_HAS_EMPTY_NET); [destruct Hin |].
      split; [reflexivity |].
      apply in_flat_map in Hin. destruct Hin as [area [Harea Hin]].
      exists (fst area). split; [apply in_map, Harea |].
      unfold ZoneNets.testEmptyNet in Hin.
      destruct (Zones.IsOnCopperLayer (fst area)); [| destruct Hin].
      cbn [negb] in Hin. cbv zeta in Hin.
      destruct (Z.ltb_spec (Zones.GetNetCode (fst area)) 0) as [Hneg | Hnonneg];
        cbn [orb] in Hin.
      * destruct Hin as [<- | []]. tauto.
      * destruct (Z.gtb_spec (Zones.GetNetCode (fst area)) 0) as [Hpos | Hzero].
        -- destruct (Z.eqb_spec (GetPadCount (Zones.GetNetCode (fst area))) 0)
             as [Hnone |]; [| destruct Hin].
           destruct Hin as [<- | []]. tauto.
        -- destruct Hin.
    + exfalso.
      destruct (outline_marker_codes _ _ _ _ _ Hin) as [H | H];
        rewrite H in Hcode; discriminate Hcode.
  - intros (Hign & zone & Hzone & -> & Hcu & Hnet).
    split; [| reflexivity].
    apply in_or_app. left. rewrite Hign. cbn [negb].
    apply in_map_iff in Hzone. destruct Hzone as [area [<- Harea]].
    apply in_flat_map. exists area. split; [exact Harea |].
    unfold ZoneNets.testEmptyNet. rewrite Hcu. cbn [negb]. cbv zeta.
    destruct Hnet as [Hneg | [Hpos Hnone]].
    + apply Z.ltb_lt in Hneg. rewrite Hneg. left. reflexivity.
    + apply Z.gtb_lt in Hpos. rewrite Hpos, Hnone.
      rewrite orb_true_r. left. reflexivity.
Qed.

(** ** Tracks *)

Lemma countsFrom_succ (first : Z) (n : nat) :
  Tracks.countsFrom first (S n) = first :: Tracks.countsFrom (first + 1) n.
Proof.
  unfold Tracks.countsFrom. cbn [seq map]. f_equal; [lia |].
  rewrite <- seq_shift, map_map. apply map_ext. intros i. lia.
Qed.


Section TrackFacts.

Import Tracks.

Variable doTrackDrc : TRACK -> list TRACK -> bool -> list MARKER_PCB.
Variable TestTrackEndpointDangling : TRACK -> bool * wxPoint.
Variable Update : Z -> bool.
Variable settings : BOARD_DESIGN_SETTINGS.
Variable m_doZonesTest : bool.

Local Abbreviation loop :=
  (testTracks_loop doTrackDrc TestTrackEndpointDangling Update settings
     m_doZonesTest).
Local Abbreviation segmentMarkers :=
  (segmentMarkers doTrackDrc TestTrackEndpointDangling settings m_doZonesTest).
Local Abbreviation allSegmentMarkers :=
  (allSegmentMarkers doTrackDrc TestTrackEndpointDangling settings m_doZonesTest).

(** One turn of the loop without a call to the dialog. *)
Lemma loop_quiet (progressDialog : bool) seg rest (ii count : Z) :
  ii <= 500 ->
  loop progressDialog (seg :: rest) ii count
  = let r := loop progressDialog rest (ii + 1) count in
    mkScan (segmentMarkers seg rest ++ scanMarkers r) (scanUpdates r)
           (seg :: scanTested r).
Proof.
  intros Hii. cbn [Tracks.testTracks_loop]. unfold delta.
  destruct (Z.gtb_spec ii 500) as [| _]; [lia |]. reflexivity.
Qed.

(** The turn on which [ii] has passed [delta]. *)
Lemma loop_fire (progressDialog : bool) seg rest (ii count : Z) :
  500 < ii ->
  loop progressDialog (seg :: rest) ii count
  = if progressDialog && negb (Update (count + 1))
    then mkScan [] [count + 1] []
    else
      let r := loop progressDialog rest 0 (count + 1) in
      mkScan (segmentMarkers seg rest ++ scanMarkers r)
             ((if progressDialog then [count + 1] else []) ++ scanUpdates r)
             (seg :: scanTested r).
Proof.
  intros Hii. cbn [Tracks.testTracks_loop]. unfold delta.
  destruct (Z.gtb_spec ii 500) as [_ |]; [| lia]. reflexivity.
Qed.

Lemma turns_step_quiet (ii n : Z) :
  0 <= ii <= 500 -> 0 <= n -> (ii + 1 + n) / 502 = (ii + (n + 1)) / 502.
Proof. intros. f_equal. lia. Qed.

Lemma turns_step_fire (n : Z) :
  0 <= n -> (501 + (n + 1)) / 502 = 1 + (0 + n) / 502.
Proof.
  intros. replace (501 + (n + 1)) with (1 * 502 + (0 + n)) by lia.
  apply Z.div_add_l. lia.
Qed.

(** The loop when nobody aborts: every segment is examined against the
    segments after it, and the dialog, if there is one, is updated once
    every 502 segments with the next count. *)
Lemma loop_complete (progressDialog : bool) (tracks : list TRACK) (ii count : Z) :
  progressDialog = false \/ (forall c, Update c = true) ->
  0 <= ii <= 501 ->
  let r := loop progressDialog tracks ii count in
  scanTested r = tracks
  /\ scanMarkers r = allSegmentMarkers tracks
  /\ scanUpdates r
     = if progressDialog
       then countsFrom (count + 1)
              (Z.to_nat ((ii + Z.of_nat (length tracks)) / 502))
       else [].
Proof.
  intros Hquiet. revert ii count.
  induction tracks as [| seg rest IH]; intros ii count Hii.
  - cbn. rewrite Z.add_0_r, Z.div_small by lia.
    destruct progressDialog; repeat split; reflexivity.
  - cbv zeta. cbn [length Tracks.allSegmentMarkers].
    rewrite Nat2Z.inj_succ, <- Z.add_1_r.
    destruct (Z.le_gt_cases ii 500) as [Hle | Hgt].
    + rewrite loop_quiet by exact Hle. cbv zeta. cbn [scanTested scanMarkers scanUpdates].
      destruct (IH (ii + 1) count ltac:(lia)) as (Ht & Hm & Hu).
      rewrite Ht, Hm, Hu.
      rewrite (turns_step_quiet ii (Z.of_nat (length rest))) by lia.
      repeat split; reflexivity.
    + assert (ii = 501) by lia. subst ii.
      rewrite loop_fire by lia.
      assert (Hgo : progressDialog && negb (Update (count + 1)) = false).
      { destruct Hquiet as [-> | Hall]; [reflexivity |].
        rewrite Hall. apply andb_false_r. }
      rewrite Hgo. cbv zeta. cbn [scanTested scanMarkers scanUpdates].
      destruct (IH 0 (count + 1) ltac:(lia)) as (Ht & Hm & Hu).
      rewrite Ht, Hm, Hu.
      rewrite (turns_step_fire (Z.of_nat (length rest))) by lia.
      split; [reflexivity |]. split; [reflexivity |].
      destruct progressDialog; [| reflexivity].
      pose proof (Z.div_pos (0 + Z.of_nat (length rest)) 502 ltac:(lia) ltac:(lia)).
      rewrite Z2Nat.inj_add by lia.
      change (Z.to_nat 1) with 1%nat. cbn [Nat.add app].
      rewrite countsFrom_succ. reflexivity.
Qed.


(** The loop when the user aborts at the update with the count [K]: the
    segments examined are those before the one on which that update falls. *)
Lemma loop_abort (tracks : list TRACK) (ii count K : Z) :
  0 <= ii <= 501 -> count < K ->
  (forall c, count < c < K -> Update c = true) -> Update K = false ->
  502 * (K - count) - ii <= Z.of_nat (length tracks) ->
  let r := loop true tracks ii count in
  scanTested r = firstn (Z.to_nat (502 * (K - count) - ii - 1)) tracks
  /\ scanUpdates r = countsFrom (count + 1) (Z.to_nat (K - count)).
Proof.
  intros Hii Hlt Hgo Hstop. revert ii count Hii Hlt Hgo.
  induction tracks as [| seg rest IH]; intros ii count Hii Hlt Hgo Hlen.
  - cbn [length] in Hlen. lia.
  - cbn [length] in Hlen. rewrite Nat2Z.inj_succ in Hlen. cbv zeta.
    destruct (Z.le_gt_cases ii 500) as [Hle | Hgt].
    + rewrite loop_quiet by exact Hle. cbv zeta. cbn [scanTested scanUpdates].
      destruct (IH (ii + 1) count ltac:(lia) Hlt Hgo ltac:(lia)) as (Ht & Hu).
      rewrite Ht, Hu. split; [| reflexivity].
      replace (Z.to_nat (502 * (K - count) - ii - 1))
        with (S (Z.to_nat (502 * (K - count) - (ii + 1) - 1))) by lia.
      reflexivity.
    + assert (ii = 501) by lia. subst ii.
      rewrite loop_fire by lia. cbn [andb].
      destruct (Z.eq_dec (count + 1) K) as [HK | HK].
      * subst K. rewrite Hstop. cbn [negb scanTested scanUpdates].
        replace (Z.to_nat (502 * (count + 1 - count) - 501 - 1)) with O by lia.
        replace (Z.to_nat (count + 1 - count)) with 1%nat by lia.
        rewrite countsFrom_succ. split; reflexivity.
      * rewrite (Hgo (count + 1)) by lia. cbn [negb]. cbv zeta.
        cbn [scanTested scanUpdates].
        destruct (IH 0 (count + 1) ltac:(lia) ltac:(lia)
                    ltac:(intros c Hc; apply Hgo; lia) ltac:(lia)) as (Ht & Hu).
        rewrite Ht, Hu. split.
        -- replace (Z.to_nat (502 * (K - count) - 501 - 1))
             with (S (Z.to_nat (502 * (K - (count + 1)) - 0 - 1))) by lia.
           reflexivity.
        -- replace (Z.to_nat (K - count))
             with (S (Z.to_nat (K - (count + 1)))) by lia.
           rewrite countsFrom_succ. reflexivity.
Qed.

End TrackFacts.

Lemma dialog_made_iff (aShowProgressBar : bool) (n : nat) :
  aShowProgressBar && (Z.quot (Z.of_nat n) Tracks.delta >? 3)
  = aShowProgressBar && (2000 <=? Z.of_nat n).
Proof.
  f_equal. unfold Tracks.delta. rewrite Z.quot_div_nonneg by lia.
  destruct (Z.leb_spec 2000 (Z.of_nat n)) as [Hge | Hlt].
  - apply Z.gtb_lt.
    pose proof (Z.div_le_lower_bound (Z.of_nat n) 500 4 ltac:(lia) ltac:(lia)). lia.
  - destruct (Z.gtb_spec (Z.of_nat n / 500) 3) as [Hgt | _]; [| reflexivity].
    pose proof (Z.div_lt_upper_bound (Z.of_nat n) 500 4 ltac:(lia) ltac:(lia)). lia.
Qed.

(** X13: when there is no progress dialog (none asked for, or fewer than
    2000 tracks), or when the user never aborts, [testTracks] examines every
    segment, each against the segments after it, and hands over the markers
    of all of them in order. *)
Theorem testTracks_examines_every_segment
    (doTrackDrc : Tracks.TRACK -> list Tracks.TRACK -> bool -> list MARKER_PCB)
    (TestTrackEndpointDangling : Tracks.TRACK -> bool * wxPoint)
    (Update : Z -> bool) (settings : BOARD_DESIGN_SETTINGS)
    (m_doZonesTest aShowProgressBar : bool) (tracks : list Tracks.TRACK) :
  aShowProgressBar = false \/ (length tracks < 2000)%nat
  \/ (forall c, Update c = true) ->
  let r := Tracks.testTracks doTrackDrc TestTrackEndpointDangling Update
             settings m_doZonesTest aShowProgressBar tracks in
  Tracks.scanTested r = tracks
  /\ Tracks.scanMarkers r
     = Tracks.allSegmentMarkers doTrackDrc TestTrackEndpointDangling settings
         m_doZonesTest tracks.
Proof.
  intros Hquiet. unfold Tracks.testTracks. cbv zeta.
  cbn [Tracks.scanTested Tracks.scanMarkers].
  rewrite dialog_made_iff.
  assert (Hcase : aShowProgressBar && (2000 <=? Z.of_nat (length tracks)) = false
                  \/ (forall c, Update c = true)).
  { destruct Hquiet as [-> | [Hfew | Hall]]; [left; reflexivity | | right; exact Hall].
    left. destruct (Z.leb_spec 2000 (Z.of_nat (length tracks))); [lia |].
    apply andb_false_r. }
  destruct (loop_complete doTrackDrc TestTrackEndpointDangling Update settings
              m_doZonesTest _ tracks 0 0 Hcase ltac:(lia)) as (Ht & Hm & _).
  split; assumption.
Qed.

Lemma testTracks_examines_every_segment_witness :
  Tracks.scanTested
    (Tracks.testTracks Samples.noTrackMarkers Samples.noDangling
       Samples.abortAtOnce (Samples.floors Samples.ignoreNothing) true true
       (Samples.segments 3))
  = Samples.segments 3.
Proof.
  apply (testTracks_examines_every_segment Samples.noTrackMarkers
           Samples.noDangling Samples.abortAtOnce
           (Samples.floors Samples.ignoreNothing) true true (Samples.segments 3)).
  right. left. cbn. lia.
Defined.


(** X15: with a progress dialog, when the user aborts at the update with
    the count [K], [testTracks] has examined the first [502 * K - 1]
    segments and no other, and the dialog has seen the counts 0 to [K]. *)
Theorem testTracks_abort
    (doTrackDrc : Tracks.TRACK -> list Tracks.TRACK -> bool -> list MARKER_PCB)
    (TestTrackEndpointDangling : Tracks.TRACK -> bool * wxPoint)
    (Update : Z -> bool) (settings : BOARD_DESIGN_SETTINGS)
    (m_doZonesTest : bool) (tracks : list Tracks.TRACK) (K : Z) :
  (2000 <= length tracks)%nat ->
  1 <= K -> 502 * K <= Z.of_nat (length tracks) ->
  (forall c, 0 < c < K -> Update c = true) -> Update K = false ->
  let r := Tracks.testTracks doTrackDrc TestTrackEndpointDangling Update
             settings m_doZonesTest true tracks in
  Tracks.scanTested r = firstn (Z.to_nat (502 * K - 1)) tracks
  /\ Tracks.scanUpdates r = Tracks.countsFrom 0 (S (Z.to_nat K)).
Proof.
  intros Hmany HK Hlen Hgo Hstop. unfold Tracks.testTracks. cbv zeta.
  cbn [Tracks.scanTested Tracks.scanUpdates].
  rewrite dialog_made_iff. cbn [andb].
  destruct (Z.leb_spec 2000 (Z.of_nat (length tracks))) as [_ |]; [| lia].
  destruct (loop_abort doTrackDrc TestTrackEndpointDangling Update settings
              m_doZonesTest tracks 0 0 K ltac:(lia) ltac:(lia) Hgo Hstop
              ltac:(lia)) as (Ht & Hu).
  rewrite Ht, Hu. rewrite !Z.sub_0_r.
  split; [f_equal; lia |].
  rewrite countsFrom_succ. reflexivity.
Qed.

(** A board of 2000 segments and a user who aborts at the first update: 501
    segments are examined. *)
Lemma testTracks_abort_witness :
  Tracks.scanTested
    (Tracks.testTracks Samples.noTrackMarkers Samples.noDangling
       Samples.abortAtOnce (Samples.floors Samples.ignoreNothing) true true
       (Samples.segments 2000))
  = firstn 501 (Samples.segments 2000)
  /\ Tracks.scanUpdates
       (Tracks.testTracks Samples.noTrackMarkers Samples.noDangling
          Samples.abortAtOnce (Samples.floors Samples.ignoreNothing) true true
          (Samples.segments 2000))
     = [0; 1].
Proof.
  apply (testTracks_abort Samples.noTrackMarkers Samples.noDangling
           Samples.abortAtOnce (Samples.floors Samples.ignoreNothing) true
           (Samples.segments 2000) 1).
  - unfold Samples.segments. rewrite length_map, length_seq. lia.
  - lia.
  - unfold Samples.segments. rewrite length_map, length_seq. lia.
  - intros c Hc. lia.
  - reflexivity.
Defined.

(** ** Marker location, the zone variant and a point conflict *)

(** X16: on a track whose end points leave room for their sum in an [int],
    the variant of [getLocation] for a conflicting zone returns a point
    within epsilon of the track; when the mid-point of the track lies in
    the zone, that point is the mid-point, a point of the zone. *)
Theorem getLocation_zone_near_track
    (SquaredDistance : wxPoint -> Z) (aTrack : Location.TRACK) (fuel : nat) :
  let a := Location.GetPosition aTrack in
  let b := Location.GetEnd aTrack in
  Location.onBoard a -> Location.onBoard b -> (31 <= fuel)%nat ->
  exists pt,
    Location.getLocation_zone SquaredDistance fuel aTrack = Some pt
    /\ Location.withinOfTrack Location.EPSILON a b pt
    /\ (SquaredDistance (Location.midPoint a b) = 0 ->
        pt = Location.midPoint a b /\ SquaredDistance pt = 0).
Proof.
  intros a b Ha Hb Hfuel. unfold Location.getLocation_zone. fold a b.
  destruct (Z.eqb_spec (SquaredDistance (Location.midPoint a b)) 0) as [Hin | Hout].
  - exists (Location.midPoint a b).
    split; [reflexivity |]. split; [| intros _; split; [reflexivity | exact Hin]].
    destruct (bisectInvariant_step a b 0 a b Ha Hb (bisectInvariant_start a b))
      as [Hinv _].
    apply (within_of_invariant a b 1 a (Location.midPoint a b) ltac:(lia) Hinv).
  - assert (Hdiff : Z.abs (px b - px a) <= 2 ^ Z.of_nat 31
                    /\ Z.abs (py b - py a) <= 2 ^ Z.of_nat 31).
    { unfold Location.onBoard in Ha, Hb.
      change (2 ^ Z.of_nat 31) with 2147483648.
      change (2 ^ 30) with 1073741824 in Ha, Hb. lia. }
    destruct (bisect_runs SquaredDistance a b Ha Hb 31 0 a b fuel
                (bisectInvariant_start a b) (proj1 Hdiff) (proj2 Hdiff) Hfuel)
      as (pt1 & pt2 & k & Hrun & Hk & Hinv & _).
    exists pt1. unfold Location.getLocation. fold a b. rewrite Hrun.
    split; [reflexivity |]. split; [| intros Hzero; contradiction].
    apply (within_of_invariant a b (0 + k) pt1 pt2 Hk Hinv).
Qed.

(** A zone that holds every point: the marker is the mid-point of the
    track. *)
Lemma getLocation_zone_near_track_witness :
  exists pt,
    Location.getLocation_zone Samples.equidistant 31
      (Location.mkTrack (mkPoint 0 0) (mkPoint 1000000 500000)) = Some pt
    /\ Location.withinOfTrack Location.EPSILON (mkPoint 0 0)
         (mkPoint 1000000 500000) pt
    /\ (Samples.equidistant
          (Location.midPoint (mkPoint 0 0) (mkPoint 1000000 500000)) = 0 ->
        pt = Location.midPoint (mkPoint 0 0) (mkPoint 1000000 500000)
        /\ Samples.equidistant pt = 0).
Proof.
  apply (getLocation_zone_near_track Samples.equidistant
           (Location.mkTrack (mkPoint 0 0) (mkPoint 1000000 500000)) 31).
  - unfold Location.onBoard. cbn. lia.
  - unfold Location.onBoard. cbn. lia.
  - lia.
Defined.

Lemma nearer_iff (u v : Z) : (u * u <? v * v) = (Z.abs u <? Z.abs v).
Proof.
  rewrite <- (Z.abs_square u), <- (Z.abs_square v).
  pose proof (Z.abs_nonneg u). pose proof (Z.abs_nonneg v).
  destruct (Z.ltb_spec (Z.abs u) (Z.abs v)) as [Hlt | Hge].
  - apply Z.ltb_lt. apply Z.mul_lt_mono_nonneg; lia.
  - apply Z.ltb_ge. apply Z.mul_le_mono_nonneg; lia.
Qed.

(** A turn of the loop on a track parallel to the X axis keeps the half
    that holds the conflicting point. *)
Lemma bisect_tracks_point (c : wxPoint) (fuel : nat) :
  forall (pt1 pt2 q1 q2 : wxPoint) (k : nat),
    Location.onBoard pt1 -> Location.onBoard pt2 ->
    py pt1 = py c -> py pt2 = py c ->
    Location.between (px pt1) (px pt2) (px c) ->
    Location.bisect (squaredDistanceToPoint c) fuel pt1 pt2 = Some (q1, q2, k) ->
    Location.onBoard q1 /\ Location.onBoard q2
    /\ py q1 = py c /\ py q2 = py c
    /\ Location.between (px q1) (px q2) (px c)
    /\ Location.longerThanEpsilon q1 q2 = false.
Proof.
  induction fuel as [| fuel IH]; intros pt1 pt2 q1 q2 k Hb1 Hb2 Hy1 Hy2 Hc Hrun.
  - cbn [Location.bisect] in Hrun.
    destruct (Location.longerThanEpsilon pt1 pt2) eqn:Hlong; [discriminate |].
    injection Hrun as <- <- <-.
    exact (conj Hb1 (conj Hb2 (conj Hy1 (conj Hy2 (conj Hc Hlong))))).
  - cbn [Location.bisect] in Hrun.
    destruct (Location.longerThanEpsilon pt1 pt2) eqn:Hlong.
    2:{ injection Hrun as <- <- <-.
        exact (conj Hb1 (conj Hb2 (conj Hy1 (conj Hy2 (conj Hc Hlong))))). }
    destruct (midPoint_coords pt1 pt2 Hb1 Hb2) as [Hmx Hmy].
    pose proof (half_step (px pt1) (px pt2)) as (Hmid & _ & _ & Hround).
    cbv zeta in Hmid, Hround. rewrite <- Hmx in Hmid, Hround.
    assert (Hym : py (Location.midPoint pt1 pt2) = py c).
    { rewrite Hmy, Hy1, Hy2.
      replace (py c + py c) with (py c * 2) by ring.
      apply Z.quot_mul. lia. }
    assert (Hbm : Location.onBoard (Location.midPoint pt1 pt2)).
    { apply (between_onBoard pt1 pt2); try assumption.
      unfold Location.between. rewrite Hym, Hy1, Hy2. lia. }
    unfold squaredDistanceToPoint in Hrun.
    rewrite Hy1, Hy2, Z.sub_diag, Z.mul_0_r, !Z.add_0_r, nearer_iff in Hrun.
    unfold Location.between in Hc, Hmid.
    destruct (Z.ltb_spec (Z.abs (px pt1 - px c)) (Z.abs (px pt2 - px c)))
      as [Hnear | Hfar].
    + destruct (Location.bisect _ fuel pt1 (Location.midPoint pt1 pt2))
        as [[[r1 r2] n] |] eqn:Hnext; [| discriminate].
      injection Hrun as <- <- <-.
      apply (IH pt1 (Location.midPoint pt1 pt2) r1 r2 n); try assumption.
      unfold Location.between. lia.
    + destruct (Location.bisect _ fuel (Location.midPoint pt1 pt2) pt2)
        as [[[r1 r2] n] |] eqn:Hnext; [| discriminate].
      injection Hrun as <- <- <-.
      apply (IH (Location.midPoint pt1 pt2) pt2 r1 r2 n); try assumption.
      unfold Location.between. lia.
Qed.

(** X17: on a track parallel to the X axis, for a conflict that is a single
    point of the track, [getLocation] returns a point of the track at most
    epsilon away from the conflict. *)
Theorem getLocation_reaches_point_conflict
    (aTrack : Location.TRACK) (c : wxPoint) (fuel : nat) :
  let a := Location.GetPosition aTrack in
  let b := Location.GetEnd aTrack in
  Location.onBoard a -> Location.onBoard b -> (31 <= fuel)%nat ->
  py a = py c -> py b = py c -> Location.between (px a) (px b) (px c) ->
  exists pt,
    Location.getLocation (squaredDistanceToPoint c) fuel aTrack = Some pt
    /\ py pt = py c
    /\ Location.between (px a) (px b) (px pt)
    /\ Z.abs (px pt - px c) <= Location.EPSILON.
Proof.
  intros a b Ha Hb Hfuel Hya Hyb Hc.
  assert (Hdiff : Z.abs (px b - px a) <= 2 ^ Z.of_nat 31
                  /\ Z.abs (py b - py a) <= 2 ^ Z.of_nat 31).
  { unfold Location.onBoard in Ha, Hb.
    change (2 ^ Z.of_nat 31) with 2147483648.
    change (2 ^ 30) with 1073741824 in Ha, Hb. lia. }
  destruct (bisect_runs (squaredDistanceToPoint c) a b Ha Hb 31 0 a b fuel
              (bisectInvariant_start a b) (proj1 Hdiff) (proj2 Hdiff) Hfuel)
    as (pt1 & pt2 & k & Hrun & _ & Hinv & _).
  destruct (bisect_tracks_point c fuel a b pt1 pt2 k Ha Hb Hya Hyb Hc Hrun)
    as (Hb1 & Hb2 & Hy1 & Hy2 & Hc' & Hshort).
  exists pt1. unfold Location.getLocation. fold a b. rewrite Hrun.
  split; [reflexivity |]. split; [exact Hy1 |].
  split; [apply Hinv |].
  rewrite (longerThanEpsilon_spec pt1 pt2 Hb1 Hb2) in Hshort.
  rewrite Hy1, Hy2, Z.sub_diag, Z.mul_0_r, Z.add_0_r in Hshort.
  rewrite EPSILON_value.
  destruct (Z.gtb_spec ((px pt2 - px pt1) * (px pt2 - px pt1)) (127000 * 127000))
    as [| Hle]; [discriminate |].
  assert (Hwidth : Z.abs (px pt2 - px pt1) <= 127000).
  { destruct (Z.le_gt_cases (Z.abs (px pt2 - px pt1)) 127000) as [| Hgt];
      [assumption |].
    pose proof (Z.mul_lt_mono_nonneg 127000 (Z.abs (px pt2 - px pt1))
                  127000 (Z.abs (px pt2 - px pt1))
                  ltac:(lia) Hgt ltac:(lia) Hgt) as Hsq.
    rewrite Z.abs_square in Hsq. lia. }
  unfold Location.between in Hc'. lia.
Qed.

(** A track of 2 mm along the X axis and a conflict 0.3 mm from its start. *)
Lemma getLocation_reaches_point_conflict_witness :
  exists pt,
    Location.getLocation (squaredDistanceToPoint (mkPoint 300000 0)) 31
      (Location.mkTrack (mkPoint 0 0) (mkPoint 2000000 0)) = Some pt
    /\ py pt = 0
    /\ Location.between 0 2000000 (px pt)
    /\ Z.abs (px pt - 300000) <= Location.EPSILON.
Proof.
  apply (getLocation_reaches_point_conflict
           (Location.mkTrack (mkPoint 0 0) (mkPoint 2000000 0))
           (mkPoint 300000 0) 31).
  - unfold Location.onBoard. cbn. lia.
  - unfold Location.onBoard. cbn. lia.
  - lia.
  - reflexivity.
  - reflexivity.
  - unfold Location.between. cbn. lia.
Defined.

(** ** Footprints: the set of references and the duplicates *)

Lemma comp_lt (x y : Footprints.MODULE) :
  Footprints.comp x y = true
  <-> OrderedTypeEx.String_as_OT.lt (Duplicates.foldedReference x)
        (Duplicates.foldedReference y).
Proof.
  rewrite <- OrderedTypeEx.String_as_OT.cmp_lt.
  unfold Footprints.comp, Footprints.CmpNoCase, Duplicates.foldedReference.
  change OrderedTypeEx.String_as_OT.cmp with String.compare.
  destruct (String.compare _ _); split; intros H; congruence.
Qed.

Lemma comp_trans (x y z : Footprints.MODULE) :
  Footprints.comp x y = true -> Footprints.comp y z = true ->
  Footprints.comp x z = true.
Proof.
  rewrite !comp_lt. apply OrderedTypeEx.String_as_OT.lt_trans.
Qed.

Lemma comp_not_same (x y : Footprints.MODULE) :
  Footprints.comp x y = true ->
  Duplicates.foldedReference x <> Duplicates.foldedReference y.
Proof.
  unfold Footprints.comp, Footprints.CmpNoCase, Duplicates.foldedReference.
  intros Hlt Heq.
  apply OrderedTypeEx.String_as_OT.cmp_eq in Heq.
  change OrderedTypeEx.String_as_OT.cmp with String.compare in Heq.
  rewrite Heq in Hlt. discriminate.
Qed.

Lemma comp_neither_same (x y : Footprints.MODULE) :
  Footprints.comp x y = false -> Footprints.comp y x = false ->
  Duplicates.foldedReference x = Duplicates.foldedReference y.
Proof.
  unfold Footprints.comp, Footprints.CmpNoCase, Duplicates.foldedReference.
  intros Hxy Hyx. apply String.compare_eq_iff.
  rewrite String.compare_antisym in Hxy. rewrite String.compare_antisym.
  destruct (String.compare (Footprints.lowerCase (Footprints.GetReference y))
                           (Footprints.lowerCase (Footprints.GetReference x)));
    cbn in *; congruence.
Qed.

Lemma sameReference_true (x y : Footprints.MODULE) :
  Duplicates.sameReference x y = true
  <-> Duplicates.foldedReference x = Duplicates.foldedReference y.
Proof. unfold Duplicates.sameReference. apply bool_decide_eq_true. Qed.

Lemma sameReference_false (x y : Footprints.MODULE) :
  Duplicates.sameReference x y = false
  <-> Duplicates.foldedReference x <> Duplicates.foldedReference y.
Proof. unfold Duplicates.sameReference. apply bool_decide_eq_false. Qed.

Lemma sameReference_ext (x y z : Footprints.MODULE) :
  Duplicates.sameReference x y = true ->
  Duplicates.sameReference x z = Duplicates.sameReference y z.
Proof.
  intros H. apply sameReference_true in H.
  unfold Duplicates.sameReference. rewrite H. reflexivity.
Qed.

Lemma find_sameReference_ext (x y : Footprints.MODULE) (l : list Footprints.MODULE) :
  Duplicates.sameReference x y = true ->
  find (Duplicates.sameReference x) l = find (Duplicates.sameReference y) l.
Proof.
  intros H. induction l as [| m l IH]; [reflexivity |].
  cbn [find]. rewrite (sameReference_ext x y m H), IH. reflexivity.
Qed.

Lemma find_snoc {A : Type} (f : A -> bool) (l : list A) (x : A) :
  find f (l ++ [x])
  = match find f l with
    | Some e => Some e
    | None => if f x then Some x else None
    end.
Proof.
  induction l as [| a l IH]; [reflexivity |].
  cbn [app find]. destruct (f a); [reflexivity | exact IH].
Qed.

(** [mods.insert( mod )] on a set in order: the footprint already there
    with the reference of [mod_] is returned and the set is unchanged; when
    there is none, [mod_] goes in, at its place in the order. *)
Lemma set_insert_spec (x : Footprints.MODULE) (mods : list Footprints.MODULE) :
  StronglySorted Duplicates.before mods ->
  match find (Duplicates.sameReference x) mods with
  | Some e => Footprints.set_insert x mods = (mods, (e, false))
  | None =>
      exists mods',
        Footprints.set_insert x mods = (mods', (x, true))
        /\ StronglySorted Duplicates.before mods'
        /\ Permutation mods' (x :: mods)
        /\ forall y,
             find (Duplicates.sameReference y) mods'
             = if Duplicates.sameReference y x then Some x
               else find (Duplicates.sameReference y) mods
  end.
Proof.
  induction mods as [| m rest IH]; intros Hsorted.
  - cbn. exists [x]. split; [reflexivity |].
    split; [repeat constructor |]. split; [reflexivity |].
    intros y. reflexivity.
  - apply StronglySorted_inv in Hsorted. destruct Hsorted as [Hrest Hm].
    specialize (IH Hrest). cbn [find Footprints.set_insert].
    destruct (Footprints.comp x m) eqn:Hxm.
    + assert (Hnm : Duplicates.sameReference x m = false)
        by (apply sameReference_false, comp_not_same, Hxm).
      rewrite Hnm.
      assert (Hall : Forall (Duplicates.before x) rest).
      { eapply List.Forall_impl; [| exact Hm].
        intros r Hr. exact (comp_trans x m r Hxm Hr). }
      assert (Hnone : find (Duplicates.sameReference x) rest = None).
      { clear -Hall. induction Hall as [| r rest Hr _ IHr]; [reflexivity |].
        cbn [find].
        replace (Duplicates.sameReference x r) with false
          by (symmetry; apply sameReference_false, comp_not_same, Hr).
        exact IHr. }
      rewrite Hnone. exists (x :: m :: rest).
      split; [reflexivity |].
      split; [constructor; [constructor; assumption | constructor; assumption] |].
      split; [reflexivity |].
      intros y. reflexivity.
    + destruct (Footprints.comp m x) eqn:Hmx.
      * assert (Hnm : Duplicates.sameReference x m = false).
        { apply sameReference_false. intros Heq.
          exact (comp_not_same m x Hmx (eq_sym Heq)). }
        rewrite Hnm.
        destruct (find (Duplicates.sameReference x) rest) as [e |].
        -- rewrite IH. reflexivity.
        -- destruct IH as (rest' & Hins & Hsorted' & Hperm & Hfind).
           rewrite Hins. cbn [fst snd].
           exists (m :: rest'). split; [reflexivity |].
           split.
           { constructor; [exact Hsorted' |].
             rewrite Hperm. constructor; [exact Hmx | exact Hm]. }
           split.
           { rewrite Hperm. apply perm_swap. }
           intros y. cbn [find]. rewrite Hfind.
           destruct (Duplicates.sameReference y m) eqn:Hym;
             destruct (Duplicates.sameReference y x) eqn:Hyx; try reflexivity.
           apply sameReference_true in Hym, Hyx.
           exfalso. apply (comp_not_same m x Hmx). congruence.
      * assert (Hsame : Duplicates.sameReference x m = true)
          by (apply sameReference_true, comp_neither_same; assumption).
        rewrite Hsame. reflexivity.
Qed.

Lemma duplicateLoop_spec (modules : list Footprints.MODULE) :
  forall seen mods : list Footprints.MODULE,
    StronglySorted Duplicates.before mods ->
    (forall y, find (Duplicates.sameReference y) seen
               = find (Duplicates.sameReference y) mods) ->
    snd (Footprints.duplicateLoop modules mods)
    = Duplicates.duplicatesAfter seen modules
    /\ StronglySorted Duplicates.before (fst (Footprints.duplicateLoop modules mods))
    /\ Permutation (fst (Footprints.duplicateLoop modules mods))
         (mods ++ Duplicates.firstsAfter seen modules).
Proof.
  induction modules as [| mod_ rest IH]; intros seen mods Hsorted Hseen.
  - cbn. rewrite app_nil_r. repeat split; [assumption | reflexivity].
  - cbn [Footprints.duplicateLoop Duplicates.duplicatesAfter Duplicates.firstsAfter].
    unfold Duplicates.firstWithReference. rewrite (Hseen mod_). cbv zeta.
    pose proof (set_insert_spec mod_ mods Hsorted) as Hins.
    destruct (find (Duplicates.sameReference mod_) mods) as [e |] eqn:Hfound.
    + rewrite Hins. cbn [fst snd app].
      destruct (IH (seen ++ [mod_]) mods Hsorted) as (Hd & Hs & Hp).
      { intros y. rewrite find_snoc, (Hseen y).
        destruct (find (Duplicates.sameReference y) mods) eqn:Hy; [reflexivity |].
        destruct (Duplicates.sameReference y mod_) eqn:Hym; [| reflexivity].
        rewrite (find_sameReference_ext y mod_ mods Hym) in Hy. congruence. }
      rewrite Hd. repeat split; assumption.
    + destruct Hins as (mods' & Hins & Hsorted' & Hperm & Hfind).
      rewrite Hins. cbn [fst snd].
      destruct (IH (seen ++ [mod_]) mods' Hsorted') as (Hd & Hs & Hp).
      { intros y. rewrite find_snoc, (Hseen y), Hfind.
        destruct (Duplicates.sameReference y mod_) eqn:Hym.
        - rewrite (find_sameReference_ext y mod_ mods Hym), Hfound. reflexivity.
        - destruct (find (Duplicates.sameReference y) mods); reflexivity. }
      rewrite Hd. split; [reflexivity |]. split; [exact Hs |].
      rewrite Hp, Hperm. cbn [app]. apply Permutation_middle.
Qed.

Lemma firsts_and_duplicates (modules seen : list Footprints.MODULE) :
  (length (Duplicates.firstsAfter seen modules)
   + length (Duplicates.duplicatesAfter seen modules))%nat
  = length modules.
Proof.
  revert seen. induction modules as [| mod_ rest IH]; intros seen; [reflexivity |].
  cbn [Duplicates.firstsAfter Duplicates.duplicatesAfter].
  rewrite !length_app. specialize (IH (seen ++ [mod_])).
  destruct (Duplicates.firstWithReference seen mod_); cbn [length]; lia.
Qed.

(** X18: the loop over the footprints of the board flags each footprint
    whose reference, letter case folded, has occurred before on the board,
    once and in board order, together with the first footprint with that
    reference; no other footprint is flagged. *)
Theorem duplicateLoop_flags_against_first (modules : list Footprints.MODULE) :
  snd (Footprints.duplicateLoop modules [])
  = Duplicates.duplicatesAfter [] modules.
Proof.
  apply (duplicateLoop_spec modules [] []); [constructor | reflexivity].
Qed.

(** X19: the set the loop leaves holds the footprints that are the first on
    the board with their reference, in the strict order of the folded
    references; every footprint of the board is either in the set or
    flagged as a duplicate. *)
Theorem duplicateLoop_set_of_firsts (modules : list Footprints.MODULE) :
  let r := Footprints.duplicateLoop modules [] in
  StronglySorted Duplicates.before (fst r)
  /\ Permutation (fst r) (Duplicates.firstsAfter [] modules)
  /\ (length (fst r) + length (snd r))%nat = length modules.
Proof.
  cbv zeta.
  destruct (duplicateLoop_spec modules [] [] ltac:(constructor)
              ltac:(reflexivity)) as (Hd & Hs & Hp).
  cbn [app] in Hp. split; [exact Hs |]. split; [exact Hp |].
  rewrite (Permutation_length Hp), Hd. apply firsts_and_duplicates.
Qed.

Lemma duplicatesAfter_codes (modules seen : list Footprints.MODULE) (item : DRC_ITEM) :
  In item (Duplicates.duplicatesAfter seen modules) ->
  GetErrorCode item = DRCE_DUPLICATE_FOOTPRINT.
Proof.
  revert seen. induction modules as [| mod_ rest IH]; intros seen Hin; [destruct Hin |].
  cbn [Duplicates.duplicatesAfter] in Hin. apply in_app_or in Hin.
  destruct Hin as [Hin | Hin]; [| exact (IH _ Hin)].
  destruct (Duplicates.firstWithReference seen mod_); [| destruct Hin].
  destruct Hin as [<- | []]. reflexivity.
Qed.

Lemma missingLoop_codes (modules : list Footprints.MODULE)
    (aNetlist : list Footprints.COMPONENT) (item : DRC_ITEM) :
  In item (Footprints.missingLoop modules aNetlist) ->
  GetErrorCode item = DRCE_MISSING_FOOTPRINT.
Proof.
  unfold Footprints.missingLoop. intros Hin. apply in_flat_map in Hin.
  destruct Hin as [c [_ Hin]].
  destruct (Footprints.FindModuleByReference modules (Footprints.compReference c));
    [destruct Hin |].
  destruct Hin as [<- | []]. reflexivity.
Qed.

(** X20: with the duplicate and the extra test on, [TestFootprints] reports
    as extra exactly the footprints that are the first on the board with
    their reference, letter case folded, and whose reference the netlist
    does not hold; a footprint flagged as a duplicate is not looked up in
    the netlist. *)
Theorem TestFootprints_extra_are_firsts
    (g : BOARD_DESIGN_SETTINGS) (aNetlist : list Footprints.COMPONENT)
    (modules : list Footprints.MODULE) (item : DRC_ITEM) :
  Ignore g DRCE_DUPLICATE_FOOTPRINT = false ->
  Ignore g DRCE_EXTRA_FOOTPRINT = false ->
  (In item (Footprints.TestFootprints g aNetlist modules)
   /\ GetErrorCode item = DRCE_EXTRA_FOOTPRINT)
  <-> exists m,
        In m (Duplicates.firstsAfter [] modules)
        /\ Footprints.GetComponentByReference aNetlist (Footprints.GetReference m)
           = None
        /\ item = mkItem DRCE_EXTRA_FOOTPRINT MsgDefault [Footprints.moduleId m].
Proof.
  intros Hdup Hextra. unfold Footprints.TestFootprints.
  rewrite Hdup, Hextra. cbn [negb]. cbv zeta.
  destruct (duplicateLoop_spec modules [] [] ltac:(constructor)
              ltac:(reflexivity)) as (Hd & _ & Hp).
  cbn [app] in Hp. rewrite Hd.
  split.
  - intros [Hin Hcode].
    apply in_app_or in Hin. destruct Hin as [Hin | Hin].
    { rewrite (duplicatesAfter_codes _ _ _ Hin) in Hcode. discriminate. }
    apply in_app_or in Hin. destruct Hin as [Hin | Hin].
    { destruct (negb (Ignore g DRCE_MISSING_FOOTPRINT)); [| destruct Hin].
      rewrite (missingLoop_codes _ _ _ Hin) in Hcode. discriminate. }
    unfold Footprints.extraLoop in Hin. apply in_flat_map in Hin.
    destruct Hin as (m & Hm & Hin).
    exists m. split; [exact (Permutation_in m Hp Hm) |].
    destruct (Footprints.GetComponentByReference aNetlist
                (Footprints.GetReference m)); [destruct Hin |].
    destruct Hin as [<- | []]. split; reflexivity.
  - intros (m & Hm & Hnone & ->). split; [| reflexivity].
    apply in_or_app. right. apply in_or_app. right.
    unfold Footprints.extraLoop. apply in_flat_map.
    exists m. split; [exact (Permutation_in m (Permutation_sym Hp) Hm) |].
    rewrite Hnone. left. reflexivity.
Qed.

(** The board with U1 and u1 and an empty netlist: U1 is reported as
    extra. *)
Lemma TestFootprints_extra_are_firsts_witness :
  In (mkItem DRCE_EXTRA_FOOTPRINT MsgDefault [Footprints.moduleId Samples.U1])
     (Footprints.TestFootprints (Samples.floors Samples.ignoreNothing) []
        [Samples.U1; Samples.u1])
  /\ GetErrorCode
       (mkItem DRCE_EXTRA_FOOTPRINT MsgDefault [Footprints.moduleId Samples.U1])
     = DRCE_EXTRA_FOOTPRINT.
Proof.
  apply (proj2 (TestFootprints_extra_are_firsts
                  (Samples.floors Samples.ignoreNothing) []
                  [Samples.U1; Samples.u1]
                  (mkItem DRCE_EXTRA_FOOTPRINT MsgDefault
                          [Footprints.moduleId Samples.U1])
                  eq_refl eq_refl)).
  exists Samples.U1. split; [left; reflexivity |]. split; reflexivity.
Defined.

(** ** The rules file *)

(** X21: [loadRules] reads a rules file once per modification time.  A
    second call on the unchanged file leaves the rules and the recorded time
    as the first call left them and displays nothing, also when the first
    call ended in a parse error: the parse is not tried again.  The recorded
    time never goes back, the board's settings always get the rules [DRC]
    holds, and after a parse error these are empty. *)
Theorem loadRules_reads_once
    (DRC_SELECTOR DRC_RULE : Type)
    (rulesFile : Rules.RULES_FILE DRC_SELECTOR DRC_RULE)
    (s : Rules.RULES_STATE DRC_SELECTOR DRC_RULE) :
  let first := Rules.loadRules rulesFile s in
  let second := Rules.loadRules rulesFile (Rules.drcRules first) in
  Rules.drcRules second = Rules.drcRules first
  /\ Rules.m_DRCRuleSelectors second = Rules.m_DRCRuleSelectors first
  /\ Rules.m_DRCRules second = Rules.m_DRCRules first
  /\ Rules.errorDisplayed second = false
  /\ Rules.m_rulesFileLastMod s <= Rules.m_rulesFileLastMod (Rules.drcRules first)
  /\ Rules.m_DRCRuleSelectors first = Rules.m_ruleSelectors (Rules.drcRules first)
  /\ Rules.m_DRCRules first = Rules.m_rules (Rules.drcRules first)
  /\ (Rules.errorDisplayed first = true ->
      Rules.m_DRCRuleSelectors first = [] /\ Rules.m_DRCRules first = []).
Proof.
  cbv zeta. unfold Rules.loadRules.
  destruct rulesFile as [fileExists lastMod opens parse].
  cbn [Rules.FileExists Rules.GetModificationTime Rules.wxFopen Rules.Parse].
  destruct fileExists; cbn [fst snd Rules.drcRules Rules.m_DRCRuleSelectors
                            Rules.m_DRCRules Rules.errorDisplayed].
  2:{ repeat split; try reflexivity; try lia; try (intros H; discriminate H). }
  destruct (Z.gtb_spec lastMod (Rules.m_rulesFileLastMod s)) as [Hnew | Hold].
  - destruct opens; [destruct parse as [[selectors rules] |] |];
      cbn [fst snd Rules.drcRules Rules.m_DRCRuleSelectors Rules.m_DRCRules
           Rules.errorDisplayed Rules.m_rulesFileLastMod Rules.m_ruleSelectors
           Rules.m_rules];
      (destruct (Z.gtb_spec lastMod lastMod) as [Hlt | _]; [lia |]);
      cbn [fst snd];
      repeat split; try reflexivity; try lia; try (intros H; discriminate H).
  - cbn [fst snd].
    destruct (Z.gtb_spec lastMod (Rules.m_rulesFileLastMod s)) as [Hlt | _]; [lia |].
    cbn [fst snd]. repeat split; try reflexivity; try lia;
      try (intros H; discriminate H).
Qed.

(** X22: without a rules file, or with one that is not newer than the one
    read last, [loadRules] keeps the rules it holds and hands them to the
    board again: rules read from a file stay in force after the file is
    deleted. *)
Theorem loadRules_keeps_rules_without_newer_file
    (DRC_SELECTOR DRC_RULE : Type)
    (rulesFile : Rules.RULES_FILE DRC_SELECTOR DRC_RULE)
    (s : Rules.RULES_STATE DRC_SELECTOR DRC_RULE) :
  Rules.FileExists rulesFile = false
  \/ Rules.GetModificationTime rulesFile <= Rules.m_rulesFileLastMod s ->
  Rules.loadRules rulesFile s
  = Rules.mkLoaded s (Rules.m_ruleSelectors s)
      (Rules.m_rules s) false.
Proof.
  intros Hstale. unfold Rules.loadRules.
  destruct (Rules.FileExists rulesFile); [| reflexivity].
  destruct Hstale as [Hno | Hold]; [discriminate Hno |].
  destruct (Z.gtb_spec (Rules.GetModificationTime rulesFile)
                       (Rules.m_rulesFileLastMod s)) as [Hnew | _]; [lia |].
  reflexivity.
Qed.

(** The rules of an accepted file survive the deletion of the file. *)
Lemma loadRules_keeps_rules_without_newer_file_witness :
  Rules.m_DRCRules
    (Rules.loadRules Samples.deletedRules
       (Rules.drcRules (Rules.loadRules Samples.goodRules Samples.noRules)))
  = ["rule"%string].
Proof.
  rewrite (loadRules_keeps_rules_without_newer_file string string
             Samples.deletedRules
             (Rules.drcRules (Rules.loadRules Samples.goodRules Samples.noRules))
             (or_introl eq_refl)).
  reflexivity.
Defined.

(** ** Undo and redo *)

Lemma negate_twice (z : Z) :
  Int32.in_range z -> Int32.wrap (- Int32.wrap (- z)) = z.
Proof.
  intros Hz.
  destruct (Z.eq_dec z Int32.min_int) as [-> | Hmin]; [reflexivity |].
  assert (Hneg : Int32.in_range (- z)).
  { unfold Int32.in_range, Int32.min_int, Int32.max_int in *. lia. }
  rewrite (wrap_in_range (- z) Hneg), Z.opp_involutive.
  apply wrap_in_range, Hz.
Qed.

Lemma putStep_twice (w : UndoRedo.ITEM_PICKER) :
  fst (fst (UndoRedo.putStep (fst (fst (UndoRedo.putStep w))))) = w
  /\ snd (UndoRedo.putStep (fst (fst (UndoRedo.putStep w))))
     = snd (UndoRedo.putStep w)
  /\ UndoRedo.boardCalls
       (snd (fst (UndoRedo.putStep (fst (fst (UndoRedo.putStep w))))))
     = map UndoRedo.inverseCall
         (UndoRedo.boardCalls (snd (fst (UndoRedo.putStep w)))).
Proof.
  destruct w as [item status image].
  destruct status; cbn; repeat split; try reflexivity;
    destruct item, image; reflexivity.
Qed.

Lemma boardCalls_app (a b : list UndoRedo.EFFECT) :
  UndoRedo.boardCalls (a ++ b) = UndoRedo.boardCalls a ++ UndoRedo.boardCalls b.
Proof. unfold UndoRedo.boardCalls. apply List.filter_app. Qed.

(** X23: [PutDataInPreviousState] is its own inverse on a command: called
    twice, as by an undo followed by a redo, it leaves the statuses of the
    pickers and the transform point as they were, and the second call makes,
    item by item, the board call that takes back the one of the first. *)
Theorem PutDataInPreviousState_twice (aList : UndoRedo.PICKED_ITEMS_LIST) :
  Int32.in_range (px (UndoRedo.m_TransformPoint aList)) ->
  Int32.in_range (py (UndoRedo.m_TransformPoint aList)) ->
  let once := UndoRedo.PutDataInPreviousState aList in
  let twice := UndoRedo.PutDataInPreviousState (fst once) in
  fst twice = aList
  /\ UndoRedo.boardCalls (snd twice)
     = map UndoRedo.inverseCall (UndoRedo.boardCalls (snd once)).
Proof.
  intros Hx Hy. cbv zeta. unfold UndoRedo.PutDataInPreviousState.
  destruct aList as [pickers point].
  cbn [UndoRedo.m_ItemsList UndoRedo.m_TransformPoint fst snd] in *.
  assert (Hpickers :
            map (fun t => fst (fst t))
                (map UndoRedo.putStep
                     (map (fun t => fst (fst t)) (map UndoRedo.putStep pickers)))
            = pickers).
  { clear. induction pickers as [| w rest IH]; [reflexivity |].
    cbn [map]. rewrite IH, (proj1 (putStep_twice w)). reflexivity. }
  assert (Hmoved :
            existsb snd
              (map UndoRedo.putStep
                   (map (fun t => fst (fst t)) (map UndoRedo.putStep pickers)))
            = existsb snd (map UndoRedo.putStep pickers)).
  { clear. induction pickers as [| w rest IH]; [reflexivity |].
    cbn [map existsb]. rewrite IH, (proj1 (proj2 (putStep_twice w))). reflexivity. }
  assert (Hcalls :
            UndoRedo.boardCalls
              (flat_map (fun t => snd (fst t))
                 (map UndoRedo.putStep
                    (map (fun t => fst (fst t)) (map UndoRedo.putStep pickers))))
            = map UndoRedo.inverseCall
                (UndoRedo.boardCalls
                   (flat_map (fun t => snd (fst t))
                             (map UndoRedo.putStep pickers)))).
  { clear. induction pickers as [| w rest IH]; [reflexivity |].
    cbn [map flat_map]. rewrite !boardCalls_app, map_app, IH.
    rewrite (proj2 (proj2 (putStep_twice w))). reflexivity. }
  rewrite Hpickers, Hmoved, !boardCalls_app, map_app, Hcalls.
  split; [| reflexivity].
  f_equal. destruct (existsb snd (map UndoRedo.putStep pickers)); [| reflexivity].
  unfold UndoRedo.negatePoint. cbn [px py].
  rewrite (negate_twice _ Hx), (negate_twice _ Hy). destruct point; reflexivity.
Qed.

(** Undo and redo of the sample edit. *)
Lemma PutDataInPreviousState_twice_witness :
  fst (UndoRedo.PutDataInPreviousState
         (fst (UndoRedo.PutDataInPreviousState Samples.editCommand)))
  = Samples.editCommand.
Proof.
  apply (PutDataInPreviousState_twice Samples.editCommand).
  - vm_compute. split; discriminate.
  - vm_compute. split; discriminate.
Defined.

Lemma deleteOwned_sound (reversed : list UndoRedo.ITEM_PICKER) (e : UndoRedo.EFFECT) :
  In e (UndoRedo.deleteOwned reversed) ->
  exists item wrapper,
    e = UndoRedo.Delete item /\ In wrapper reversed
    /\ UndoRedo.m_Item wrapper = Some item /\ UndoRedo.owned wrapper = true.
Proof.
  induction reversed as [| w rest IH]; intros Hin; [destruct Hin |].
  cbn [UndoRedo.deleteOwned] in Hin.
  destruct (UndoRedo.m_Item w) as [item |] eqn:Hitem; [| destruct Hin].
  assert (Hrest : In e (UndoRedo.deleteOwned rest) ->
                  exists item wrapper,
                    e = UndoRedo.Delete item /\ In wrapper (w :: rest)
                    /\ UndoRedo.m_Item wrapper = Some item
                    /\ UndoRedo.owned wrapper = true).
  { intros H. destruct (IH H) as (i & w' & He & Hw & Hi & Ho).
    exists i, w'. repeat split; try assumption. right. exact Hw. }
  destruct (UndoRedo.m_UndoRedoStatus w) eqn:Hstatus;
    try (exact (Hrest Hin));
    (destruct Hin as [<- | Hin]; [| exact (Hrest Hin)]);
    exists item, w; unfold UndoRedo.owned; rewrite Hstatus;
    repeat split; try reflexivity; try assumption; left; reflexivity.
Qed.

Lemma clearLoop_spec (icnt : nat) (m_CommandsList : list UndoRedo.PICKED_ITEMS_LIST) :
  fst (UndoRedo.clearLoop icnt m_CommandsList) = drop icnt m_CommandsList
  /\ forall e, In e (snd (UndoRedo.clearLoop icnt m_CommandsList)) ->
       exists item curr_cmd wrapper,
         e = UndoRedo.Delete item
         /\ In curr_cmd (take icnt m_CommandsList)
         /\ In wrapper (UndoRedo.m_ItemsList curr_cmd)
         /\ UndoRedo.m_Item wrapper = Some item
         /\ UndoRedo.owned wrapper = true.
Proof.
  revert m_CommandsList.
  induction icnt as [| icnt IH]; intros m_CommandsList.
  - cbn. split; [reflexivity | intros e []].
  - destruct m_CommandsList as [| curr_cmd rest].
    + cbn. split; [reflexivity | intros e []].
    + cbn [UndoRedo.clearLoop fst snd drop take].
      destruct (IH rest) as [Hleft Hdeleted]. split; [exact Hleft |].
      intros e Hin. apply in_app_or in Hin. destruct Hin as [Hin | Hin].
      * destruct (deleteOwned_sound _ _ Hin) as (item & w & He & Hw & Hi & Ho).
        exists item, curr_cmd, w. split; [exact He |].
        split; [left; reflexivity |].
        split; [apply in_rev; exact Hw |]. split; assumption.
      * destruct (Hdeleted e Hin) as (item & c & w & He & Hc & Hw & Hi & Ho).
        exists item, c, w. split; [exact He |].
        split; [right; exact Hc |]. repeat split; assumption.
Qed.

(** X24: [ClearUndoORRedoList] takes commands off the front of the list:
    none for a count of 0, the first [aItemCount] for a positive count (all
    when there are fewer), all for a negative count.  It has no other effect
    than deleting items, and each item it deletes belongs to a picker of a
    command it takes off whose status is none of moved, mirrored, rotated
    and new. *)
Theorem ClearUndoORRedoList_takes_from_front
    (m_CommandsList : list UndoRedo.PICKED_ITEMS_LIST) (aItemCount : Z) :
  let r := UndoRedo.ClearUndoORRedoList m_CommandsList aItemCount in
  let taken := if aItemCount <? 0 then length m_CommandsList
               else Z.to_nat aItemCount in
  fst r = drop taken m_CommandsList
  /\ Forall (fun e =>
               exists item curr_cmd wrapper,
                 e = UndoRedo.Delete item
                 /\ In curr_cmd (take taken m_CommandsList)
                 /\ In wrapper (UndoRedo.m_ItemsList curr_cmd)
                 /\ UndoRedo.m_Item wrapper = Some item
                 /\ UndoRedo.owned wrapper = true)
            (snd r).
Proof.
  cbv zeta. unfold UndoRedo.ClearUndoORRedoList.
  destruct (Z.eqb_spec aItemCount 0) as [-> | Hnz].
  - cbn. split; [reflexivity | constructor].
  - destruct (Z.gtb_spec aItemCount 0) as [Hpos | Hneg];
      (destruct (Z.ltb_spec aItemCount 0) as [Hlt | Hge]; [| try lia]); try lia.
    + destruct (clearLoop_spec (Z.to_nat aItemCount) m_CommandsList) as [H1 H2].
      split; [exact H1 | apply List.Forall_forall; exact H2].
    + destruct (clearLoop_spec (length m_CommandsList) m_CommandsList) as [H1 H2].
      split; [exact H1 | apply List.Forall_forall; exact H2].
Qed.

Lemma saveStep_pushed (aTypeCommand : UndoRedo.UndoRedoOpType)
    (itemWrapper : UndoRedo.ITEM_PICKER) (pushed : list UndoRedo.ITEM_PICKER)
    (effects : list UndoRedo.EFFECT) (p : UndoRedo.ITEM_PICKER) :
  exists itemWrapper' effects',
    UndoRedo.saveStep aTypeCommand (itemWrapper, pushed, effects) p
    = (itemWrapper',
       pushed ++ (if UndoRedo.stored (UndoRedo.commandOf aTypeCommand p)
                  then [UndoRedo.mkPicker (UndoRedo.m_Item p)
                          (UndoRedo.commandOf aTypeCommand p)
                          (UndoRedo.m_Link itemWrapper)]
                  else []),
       effects').
Proof.
  unfold UndoRedo.saveStep.
  destruct (UndoRedo.commandOf aTypeCommand p);
    cbn [UndoRedo.stored]; rewrite ?app_nil_r;
    try (eexists; eexists; reflexivity).
  destruct (UndoRedo.m_Item p); cbn; eexists; eexists; reflexivity.
Qed.

Lemma saveLoop_pushed (aTypeCommand : UndoRedo.UndoRedoOpType)
    (pickers : list UndoRedo.ITEM_PICKER) :
  forall (itemWrapper : UndoRedo.ITEM_PICKER) (pushed : list UndoRedo.ITEM_PICKER)
         (effects : list UndoRedo.EFFECT),
    map (fun w => (UndoRedo.m_Item w, UndoRedo.m_UndoRedoStatus w))
        (snd (fst (fold_left (UndoRedo.saveStep aTypeCommand) pickers
                             (itemWrapper, pushed, effects))))
    = map (fun w => (UndoRedo.m_Item w, UndoRedo.m_UndoRedoStatus w)) pushed
      ++ map (fun p => (UndoRedo.m_Item p, UndoRedo.commandOf aTypeCommand p))
             (List.filter
                (fun p => UndoRedo.stored (UndoRedo.commandOf aTypeCommand p))
                pickers).
Proof.
  induction pickers as [| p rest IH]; intros itemWrapper pushed effects.
  - cbn. rewrite app_nil_r. reflexivity.
  - cbn [fold_left List.filter].
    destruct (saveStep_pushed aTypeCommand itemWrapper pushed effects p)
      as (itemWrapper' & effects' & ->).
    rewrite IH, map_app.
    destruct (UndoRedo.stored (UndoRedo.commandOf aTypeCommand p)).
    + cbn [map UndoRedo.m_Item UndoRedo.m_UndoRedoStatus].
      rewrite <- app_assoc. reflexivity.
    + cbn [map]. rewrite app_nil_r. reflexivity.
Qed.

(** X25: [SaveCopyInUndoList] stores no picker for a changed item, since
    [DuplicateStruct] returns no copy: the command of the list version holds
    the items whose status (that of the call when theirs is unspecified) is
    moved, mirrored, new or deleted, in their order and with that status,
    and the given transform point; when there is no such item no command is
    pushed and the redo list is kept.  The version for one item pushes
    nothing for a changed item either. *)
Theorem SaveCopyInUndoList_stores_no_change
    (aItemsList : UndoRedo.PICKED_ITEMS_LIST)
    (aTypeCommand : UndoRedo.UndoRedoOpType) (aTransformPoint : wxPoint)
    (aItemToCopy : option item_ref) :
  let kept := List.filter
                (fun p => UndoRedo.stored (UndoRedo.commandOf aTypeCommand p))
                (UndoRedo.m_ItemsList aItemsList) in
  match UndoRedo.commandToUndo
          (UndoRedo.SaveCopyInUndoList aItemsList aTypeCommand aTransformPoint) with
  | None => kept = []
  | Some command =>
      kept <> []
      /\ UndoRedo.m_TransformPoint command = aTransformPoint
      /\ map (fun w => (UndoRedo.m_Item w, UndoRedo.m_UndoRedoStatus w))
             (UndoRedo.m_ItemsList command)
         = map (fun p => (UndoRedo.m_Item p, UndoRedo.commandOf aTypeCommand p))
               kept
  end
  /\ UndoRedo.commandToUndo
       (UndoRedo.SaveCopyInUndoList_item aItemToCopy UndoRedo.UR_CHANGED
          aTransformPoint)
     = None.
Proof.
  cbv zeta. split.
  2:{ destruct aItemToCopy; reflexivity. }
  unfold UndoRedo.SaveCopyInUndoList.
  pose proof (saveLoop_pushed aTypeCommand (UndoRedo.m_ItemsList aItemsList)
                (UndoRedo.mkPicker None UndoRedo.UR_UNSPECIFIED None) [] [])
    as Hpushed.
  destruct (fold_left (UndoRedo.saveStep aTypeCommand)
                      (UndoRedo.m_ItemsList aItemsList)
                      (UndoRedo.mkPicker None UndoRedo.UR_UNSPECIFIED None, [], []))
    as [[itemWrapper pushed] effects].
  cbn [fst snd map app] in Hpushed.
  destruct pushed as [| w pushed]; cbn [UndoRedo.pushOrDelete UndoRedo.commandToUndo].
  - cbn [map] in Hpushed. symmetry in Hpushed.
    apply map_eq_nil in Hpushed. exact Hpushed.
  - cbn [UndoRedo.m_TransformPoint UndoRedo.m_ItemsList].
    split; [| split; [reflexivity | exact Hpushed]].
    intros Hnil. rewrite Hnil in Hpushed. discriminate Hpushed.
Qed.

(** ** Copper graphics and texts against pads *)

Lemma nearestSegment_snoc (distance : Zones.SEG -> Z) (shape : list Zones.SEG)
    (itemSeg : Zones.SEG) :
  Copper.nearestSegment distance (shape ++ [itemSeg])
  = Copper.nearestStep distance (Copper.nearestSegment distance shape) itemSeg.
Proof. unfold Copper.nearestSegment. apply fold_left_app. Qed.

(** Where the loop over a shape with a segment ends. *)
Lemma nearestSegment_split
    (distance : Zones.SEG -> Z) (first : Zones.SEG) (others : list Zones.SEG) :
  exists pre minSeg post,
    first :: others = pre ++ minSeg :: post
    /\ Copper.nearestSegment distance (first :: others)
       = (Some minSeg, distance minSeg)
    /\ Forall (fun s => distance minSeg < distance s) pre
    /\ Forall (fun s => distance minSeg <= distance s) post.
Proof.
  induction others as [| itemSeg others IH] using rev_ind.
  - exists [], first, []. repeat split; constructor.
  - destruct IH as (pre & minSeg & post & Hshape & Hnearest & Hpre & Hpost).
    rewrite app_comm_cons, nearestSegment_snoc, Hnearest.
    unfold Copper.nearestStep. cbn [fst snd].
    destruct (Z.ltb_spec (distance itemSeg) (distance minSeg)) as [Hlt | Hge].
    + exists (pre ++ minSeg :: post), itemSeg, [].
      split; [rewrite Hshape; reflexivity |]. split; [reflexivity |].
      split; [| constructor].
      apply Forall_app. split.
      * eapply List.Forall_impl; [| exact Hpre]. intros s Hs. cbn beta in Hs. lia.
      * constructor; [exact Hlt |].
        eapply List.Forall_impl; [| exact Hpost]. intros s Hs. cbn beta in Hs. lia.
    + exists pre, minSeg, (post ++ [itemSeg]).
      split; [rewrite Hshape, <- app_assoc; reflexivity |].
      split; [reflexivity |]. split; [exact Hpre |].
      apply Forall_app. split; [exact Hpost |]. constructor; [exact Hge | constructor].
Qed.

(** X26: the loop that looks for the nearest segment of a shape that has
    one ends with the first segment of the shape at the least squared
    distance, and with that distance: the segments before it are strictly
    farther, those after it are not nearer. *)
Theorem nearestSegment_first_minimum
    (distance : Zones.SEG -> Z) (first : Zones.SEG) (others : list Zones.SEG) :
  exists pre minSeg post,
    first :: others = pre ++ minSeg :: post
    /\ Copper.nearestSegment distance (first :: others)
       = (Some minSeg, distance minSeg)
    /\ Forall (fun s => distance minSeg < distance s) pre
    /\ Forall (fun s => distance minSeg <= distance s) post.
Proof. exact (nearestSegment_split distance first others). Qed.

(** X27: for a shape with a segment, a pad is too close to the item exactly
    when one segment of the shape is at a squared distance below the square
    of the allowed distance, the clearance of the pad plus half the width of
    the item. *)
Theorem tooClose_iff_some_segment_near
    (SquaredDistance : Copper.D_PAD -> Zones.SEG -> Z)
    (pad : Copper.D_PAD) (itemWidth : Z) (shape : list Zones.SEG) :
  shape <> [] ->
  let allowed := Int32.add (Copper.GetClearance pad) (Int32.div itemWidth 2) in
  Copper.tooClose SquaredDistance pad itemWidth shape = true
  <-> exists itemSeg, In itemSeg shape
                      /\ SquaredDistance pad itemSeg < allowed * allowed.
Proof.
  intros Hshape. cbv zeta. unfold Copper.tooClose. cbv zeta.
  destruct shape as [| first others]; [contradiction |].
  destruct (nearestSegment_split (SquaredDistance pad) first others)
    as (pre & minSeg & post & Hsplit & Hnearest & Hpre & Hpost).
  rewrite Hnearest. cbn [snd]. rewrite Z.ltb_lt. split.
  - intros Hnear. exists minSeg. split; [| exact Hnear].
    rewrite Hsplit. apply in_or_app. right. left. reflexivity.
  - intros (itemSeg & Hin & Hnear). rewrite Hsplit in Hin.
    apply in_app_or in Hin. destruct Hin as [Hin | [<- | Hin]].
    + rewrite List.Forall_forall in Hpre. specialize (Hpre itemSeg Hin). lia.
    + exact Hnear.
    + rewrite List.Forall_forall in Hpost. specialize (Hpost itemSeg Hin). lia.
Qed.

Lemma tooClose_iff_some_segment_near_witness :
  Copper.tooClose Samples.tenMillimetres Samples.farPad 200000
    [Zones.mkSeg (mkPoint 0 0) (mkPoint 1000000 0)] = true
  <-> exists itemSeg,
        In itemSeg [Zones.mkSeg (mkPoint 0 0) (mkPoint 1000000 0)]
        /\ Samples.tenMillimetres Samples.farPad itemSeg
           < Int32.add (Copper.GetClearance Samples.farPad) (Int32.div 200000 2)
             * Int32.add (Copper.GetClearance Samples.farPad) (Int32.div 200000 2).
Proof.
  apply (tooClose_iff_some_segment_near Samples.tenMillimetres Samples.farPad
           200000 [Zones.mkSeg (mkPoint 0 0) (mkPoint 1000000 0)]).
  discriminate.
Defined.

(** X28: a graphic item whose shape is none of segment, arc, circle and
    curve has no segment, and [testCopperDrawItem] has no test for that:
    the squared distance stays 0, so every pad on the layer of the item,
    of another parent and near its bounding box is reported, however far
    it is, unless the allowed distance is 0.  [testCopperTextItem] returns
    before any test when the text has no segment. *)
Theorem testCopperDrawItem_reports_pads_for_shapeless_item
    (IsOnLayer : Copper.D_PAD -> Z -> bool)
    (Collide : item_ref -> wxPoint -> Z -> bool)
    (SquaredDistance : Copper.D_PAD -> Zones.SEG -> Z)
    (aItem : Copper.DRAWSEGMENT) (pads : list Copper.D_PAD)
    (aTextItem : item_ref) (layer penWidth : Z) :
  Copper.GetShape aItem = Copper.S_OTHER ->
  Copper.testCopperDrawItem_pads IsOnLayer Collide SquaredDistance aItem pads
  = Some (List.filter
            (fun pad =>
               IsOnLayer pad (Copper.GetLayer aItem)
               && negb (bool_decide (Copper.padParent pad = Copper.GetParent aItem))
               && Copper.nearBox Collide (Copper.drawId aItem) pad
               && negb (Int32.add (Copper.GetClearance pad)
                                  (Int32.div (Copper.GetWidth aItem) 2) =? 0))
            pads)
  /\ Copper.testCopperTextItem_pads IsOnLayer Collide SquaredDistance aTextItem
       layer penWidth [] pads
     = Some [].
Proof.
  intros Hshape. split; [| reflexivity].
  unfold Copper.testCopperDrawItem_pads, Copper.itemShape. rewrite Hshape.
  f_equal. apply filter_ext. intros pad. f_equal.
  unfold Copper.tooClose, Copper.nearestSegment. cbn [fold_left snd].
  set (allowed := Int32.add (Copper.GetClearance pad)
                            (Int32.div (Copper.GetWidth aItem) 2)).
  destruct (Z.eqb_spec allowed 0) as [-> | Hnz]; [reflexivity |].
  apply Z.ltb_lt. nia.
Qed.

(** A pad 10 mm from a copper polygon is reported. *)
Lemma testCopperDrawItem_reports_pads_for_shapeless_item_witness :
  Copper.testCopperDrawItem_pads Samples.onEveryLayer Samples.alwaysCollides
    Samples.tenMillimetres Samples.copperPolygon [Samples.farPad]
  = Some [Samples.farPad].
Proof.
  rewrite (proj1 (testCopperDrawItem_reports_pads_for_shapeless_item
                    Samples.onEveryLayer Samples.alwaysCollides
                    Samples.tenMillimetres Samples.copperPolygon
                    [Samples.farPad] 0%nat 0 0 eq_refl)).
  reflexivity.
Defined.

(** ** Items on disabled layers *)

Lemma test_disabledLayers (PCB_LAYER_ID_COUNT AllCuMask enabledLayers layer : Z) :
  0 <= layer < PCB_LAYER_ID_COUNT ->
  Layers.test PCB_LAYER_ID_COUNT
    (Layers.disabledLayers PCB_LAYER_ID_COUNT AllCuMask enabledLayers) layer
  = Some (Z.testbit AllCuMask layer && negb (Z.testbit enabledLayers layer)).
Proof.
  intros Hlayer. unfold Layers.test, Layers.disabledLayers, Layers.flip.
  destruct (Z.leb_spec 0 layer) as [_ |]; [| lia].
  destruct (Z.ltb_spec layer PCB_LAYER_ID_COUNT) as [_ |]; [| lia].
  cbn [andb]. rewrite Z.land_spec, Z.lxor_spec, Z.ones_spec_low by lia.
  rewrite xorb_true_r. f_equal. apply andb_comm.
Qed.

Lemma flagLoop_in_range (PCB_LAYER_ID_COUNT AllCuMask enabledLayers : Z)
    (items : list Layers.BOARD_ITEM) :
  Forall (fun item => 0 <= Layers.GetLayer item < PCB_LAYER_ID_COUNT) items ->
  Layers.flagLoop PCB_LAYER_ID_COUNT
    (Layers.disabledLayers PCB_LAYER_ID_COUNT AllCuMask enabledLayers) items
  = (List.filter
       (fun item => Z.testbit AllCuMask (Layers.GetLayer item)
                    && negb (Z.testbit enabledLayers (Layers.GetLayer item)))
       items,
     true).
Proof.
  induction 1 as [| item rest Hitem _ IH]; [reflexivity |].
  cbn [Layers.flagLoop List.filter].
  rewrite (test_disabledLayers _ _ _ _ Hitem), IH. cbn [fst snd].
  destruct (Z.testbit AllCuMask (Layers.GetLayer item)
            && negb (Z.testbit enabledLayers (Layers.GetLayer item)));
    reflexivity.
Qed.

(** X29: when every item lies on a layer of the board's range,
    [testDisabledLayers] runs to its end and reports exactly the tracks,
    children of footprints and zones (in this order) whose layer is a copper
    layer that is not enabled; an item on a disabled layer that is not
    copper is not reported. *)
Theorem testDisabledLayers_flags_disabled_copper
    (PCB_LAYER_ID_COUNT AllCuMask enabledLayers : Z)
    (tracks : list Layers.BOARD_ITEM) (modules : list (list Layers.BOARD_ITEM))
    (zones : list Layers.BOARD_ITEM) :
  Forall (fun item => 0 <= Layers.GetLayer item < PCB_LAYER_ID_COUNT)
         (tracks ++ concat modules ++ zones) ->
  Layers.testDisabledLayers PCB_LAYER_ID_COUNT AllCuMask enabledLayers
    tracks modules zones
  = (List.filter
       (fun item => Z.testbit AllCuMask (Layers.GetLayer item)
                    && negb (Z.testbit enabledLayers (Layers.GetLayer item)))
       (tracks ++ concat modules ++ zones),
     true).
Proof.
  intros Hrange. apply Forall_app in Hrange. destruct Hrange as [Ht Hrange].
  apply Forall_app in Hrange. destruct Hrange as [Hm Hz].
  unfold Layers.testDisabledLayers. cbv zeta.
  rewrite (flagLoop_in_range _ _ _ _ Ht), (flagLoop_in_range _ _ _ _ Hm),
    (flagLoop_in_range _ _ _ _ Hz).
  cbn [fst snd]. rewrite !List.filter_app. reflexivity.
Qed.

(** With only the outer copper layers enabled, the track on the inner layer
    is reported; the track on the front layer and the zone on a disabled
    technical layer are not. *)
Lemma testDisabledLayers_flags_disabled_copper_witness :
  Layers.testDisabledLayers 50 (Z.ones 32) Samples.outerLayersOnly
    [Samples.innerTrack; Samples.outerTrack] [] [Samples.technicalZone]
  = ([Samples.innerTrack], true).
Proof.
  rewrite (testDisabledLayers_flags_disabled_copper 50 (Z.ones 32)
             Samples.outerLayersOnly [Samples.innerTrack; Samples.outerTrack]
             [] [Samples.technicalZone]).
  - reflexivity.
  - repeat constructor; cbn; lia.
Defined.
